(** * AttendanceApp: the check-in verification pipeline

    A shallow embedding of the client code that decides how a check-in is
    located, saved and classified:

    - [lib/location.ts]      the three-tier geolocation ladder;
    - [components/AdminView.tsx]        [resolveStatus] and the daily rows;
    - [components/UserHistoryPanel.tsx] the per-user history rows;
    - [components/UserView.tsx]         the save and delete handlers.

    Browser services (the geolocation device, [Date], [Intl], [fetch]) are
    not part of the repository: they enter as a world that answers each
    request, and every request issued is recorded in a log. *)

From Stdlib Require Import ZArith QArith Qround Qabs String Ascii List Bool Lia.
From Stdlib Require Import DecimalString Lqa Permutation.
Import ListNotations.

Local Open Scope string_scope.
Local Open Scope Z_scope.

(* ================================================================== *)
(** * Part I: definitions *)
(* ================================================================== *)

(** ** JavaScript values the code inspects *)

Module Js.

(** A JavaScript number as the classifier meets it: an integer, or NaN. *)
Inductive JsNumber : Type :=
| NaN
| Num (z : Z).

(** [a < b], [a <= b] and [a === b] on numbers: false as soon as one side
    is NaN. *)
Definition lt (a b : JsNumber) : bool :=
  match a, b with
  | Num x, Num y => x <? y
  | _, _ => false
  end.

Definition le (a b : JsNumber) : bool :=
  match a, b with
  | Num x, Num y => x <=? y
  | _, _ => false
  end.

Definition strictEq (a b : JsNumber) : bool :=
  match a, b with
  | Num x, Num y => x =? y
  | _, _ => false
  end.

Definition inRange (lo hi c : ascii) : bool :=
  ((nat_of_ascii lo <=? nat_of_ascii c) && (nat_of_ascii c <=? nat_of_ascii hi))%nat.

(** The regular-expression class [\d]: the ten ASCII digits. *)
Definition isDigit (c : ascii) : bool := inRange "0" "9" c.

Definition digitValue (c : ascii) : Z := Z.of_nat (nat_of_ascii c) - 48.

Fixpoint allDigits (s : string) : bool :=
  match s with
  | EmptyString => true
  | String c rest => isDigit c && allDigits rest
  end.

Fixpoint digitsValue (acc : Z) (s : string) : Z :=
  match s with
  | EmptyString => acc
  | String c rest => digitsValue (10 * acc + digitValue c) rest
  end.

(** [Number(s)] on the strings this code converts: the captures of the
    cutoff pattern and the numeric parts of a formatted time, all runs of
    decimal digits.  The empty string converts to 0; a string with any
    other character is mapped to NaN here. *)
Definition Number_ (s : string) : JsNumber :=
  if allDigits s then Num (digitsValue 0 s) else NaN.

Definition digitChar (d : Z) : ascii := ascii_of_nat (Z.to_nat (48 + d)).

(** A thrown value, by the features the handlers look at. *)
Inductive JsCode : Type :=
| CodeNum (n : Z)
| CodeOther.

Record Thrown : Type := mkThrown {
  thr_isObject : bool;            (* error && typeof error === "object" *)
  thr_code : option JsCode;       (* Some c: "code" in error, error.code = c *)
  thr_message : option string;    (* Some m: "message" in error *)
  thr_isError : bool              (* error instanceof Error *)
}.

(** [new Error(message)]. *)
Definition newError (message : string) : Thrown :=
  {| thr_isObject := true; thr_code := None;
     thr_message := Some message; thr_isError := true |}.

(** [err instanceof Error ? err.message : fallback]. *)
Definition messageOr (err : Thrown) (fallback : string) : string :=
  if thr_isError err then
    match thr_message err with
    | Some m => m
    | None => ""
    end
  else fallback.

End Js.

(** ** Records exchanged with the server *)

Module Types.

(** A JavaScript number carried as data (coordinates, meters): every finite
    double is a rational. *)
Definition number : Type := Q.

(** Modelled from the spec: the [AttendanceRecord] type of [src/types],
    which the components import and which is not among the sources.  The
    fields are those of the spec's data model; a field the code reads with
    [??] or tests for presence is optional. *)
Record AttendanceRecord : Type := {
  id : string;
  userId : string;
  userName : string;
  capturedAt : string;
  timezone : option string;
  locationLabel : string;
  latitude : option number;
  longitude : option number;
  accuracy : option number;
  photoUrl : option string;
  photoPublicId : option string;
  status : option string;
  flagComment : option string
}.

End Types.

(** ** The host's clock and time-zone services *)

(** What [Date] and [Intl.DateTimeFormat] contribute to the classifier. *)
Class Clock : Type := {
  (** [new Date(iso).getTime()]: milliseconds since the epoch, [None] for
      an invalid date (NaN). *)
  Date_parse : string -> option Z;
  (** The zone database: for a recognised identifier, the minutes east of
      UTC at each instant; [None] when the identifier is not recognised
      (constructing the formatter throws a RangeError). *)
  zone_offset : string -> option (Z -> Z);
  (** The same for the zone of the host. *)
  local_offset : Z -> Z;
  (** What [date.toLocaleTimeString("en-US", options)] and
      [date.toLocaleDateString("en-US", options)] return, by instant and
      the [timeZone] option, when they return: with a zone the host does
      not recognise the calls throw (see [Format]). *)
  toLocaleTimeString : Z -> option string -> string;
  toLocaleDateString : Z -> option string -> string
}.

Module Intl.

Import Js.

Record DateTimePart : Type := {
  part_type : string;
  part_value : string
}.

(** Minutes since the epoch on the local wall clock. *)
Definition wallMinutes (t offset : Z) : Z := t / 60000 + offset.

Definition wallHour (t offset : Z) : Z := (wallMinutes t offset / 60) mod 24.

Definition wallMinute (t offset : Z) : Z := wallMinutes t offset mod 60.

Definition twoDigits (n : Z) : string :=
  String (digitChar (n / 10)) (String (digitChar (n mod 10)) EmptyString).

(** [new Intl.DateTimeFormat("en-US", { hour: "2-digit", minute: "2-digit",
    hour12: false, timeZone })]: a formatter is the offset function of its
    zone; [None] stands for the RangeError of an unknown zone.  Without a
    [timeZone] the formatter is in the zone of the host. *)
Definition DateTimeFormat `{Clock} (timeZone : option string)
  : option (Z -> Z) :=
  match timeZone with
  | None => Some local_offset
  | Some z => zone_offset z
  end.

(** [formatter.formatToParts(date)]: hour and minute on the 00-23 cycle,
    two digits each, around a literal colon. *)
Definition formatToParts (formatter : Z -> Z) (date : Z) : list DateTimePart :=
  [ {| part_type := "hour";
       part_value := twoDigits (wallHour date (formatter date)) |};
    {| part_type := "literal"; part_value := ":" |};
    {| part_type := "minute";
       part_value := twoDigits (wallMinute date (formatter date)) |} ].

End Intl.

(** ** [lib/format.ts] *)

Module Format.

(** How a call of this module ends: it returns a value, or the host throws
    the RangeError of a time zone it does not recognise.  Nothing in
    [lib/format.ts] catches it. *)
Inductive Completion (A : Type) : Type :=
| Returned (value : A)
| RangeError.

Arguments Returned {A} value.
Arguments RangeError {A}.

(** [array.map(callback)] with a callback that can throw: the first throw
    ends the call, and no array is produced. *)
Fixpoint mapThrowing {A B : Type} (callback : A -> Completion B) (l : list A)
  : Completion (list B) :=
  match l with
  | [] => Returned []
  | a :: rest =>
      match callback a with
      | RangeError => RangeError
      | Returned b =>
          match mapThrowing callback rest with
          | RangeError => RangeError
          | Returned bs => Returned (b :: bs)
          end
      end
  end.

(** [if (timeZone) { options.timeZone = timeZone; }]: the zone is passed on
    only when it is a non-empty string. *)
Definition timeZoneOption (timeZone : option string) : option string :=
  match timeZone with
  | Some EmptyString => None
  | other => other
  end.

(** [formatTime(value, timeZone)].  [toLocaleTimeString] resolves its
    options as the [Intl.DateTimeFormat] constructor does, and throws where
    the constructor throws. *)
Definition formatTime `{Clock} (value : string) (timeZone : option string)
  : Completion string :=
  match Date_parse value with
  | None => Returned "--"
  | Some date =>
      let options := timeZoneOption timeZone in
      match Intl.DateTimeFormat options with
      | Some _ => Returned (toLocaleTimeString date options)
      | None => RangeError
      end
  end.


End Format.

(** ** [components/AdminView.tsx]: the classifier and the daily rows *)

Module AdminView.

Import Js Types Intl Format.

Inductive RowStatus : Type :=
| OnTime     (* "On time" *)
| Late       (* "Late" *)
| Missing.   (* "Missing" *)

Record TimeParts : Type := {
  hour : JsNumber;
  minute : JsNumber
}.

(** [value.match(/^([01]\d|2[0-3]):([0-5]\d)$/)] and the two captures
    converted with [Number]. *)
Definition parseCutoffTime (value : string) : option TimeParts :=
  match value with
  | String h1 (String h2 (String sep (String m1 (String m2 EmptyString)))) =>
      if ((inRange "0" "1" h1 && isDigit h2)
          || (Ascii.eqb h1 "2" && inRange "0" "3" h2))
         && Ascii.eqb sep ":"
         && inRange "0" "5" m1 && isDigit m2
      then Some {| hour := Number_ (String h1 (String h2 EmptyString));
                   minute := Number_ (String m1 (String m2 EmptyString)) |}
      else None
  | _ => None
  end.

(** [Number(parts.find((part) => part.type === ty)?.value ?? "0")]. *)
Definition partNumber (ty : string) (parts : list DateTimePart) : JsNumber :=
  Number_ (match find (fun part => String.eqb (part_type part) ty) parts with
           | Some part => part_value part
           | None => "0"
           end).

Definition getLocalTimeParts `{Clock} (iso : string) (timeZone : option string)
  : TimeParts :=
  match Date_parse iso with
  | None => {| hour := Num 0; minute := Num 0 |}
  | Some date =>
      match DateTimeFormat timeZone with
      | Some formatter =>
          let parts := formatToParts formatter date in
          {| hour := partNumber "hour" parts;
             minute := partNumber "minute" parts |}
      | None =>
          (* catch: the same formatter without a time zone *)
          let parts := formatToParts local_offset date in
          {| hour := partNumber "hour" parts;
             minute := partNumber "minute" parts |}
      end
  end.

Definition resolveStatus `{Clock} (item : AttendanceRecord) (cutoffTime : string)
  : RowStatus :=
  let cutoff :=
    match parseCutoffTime cutoffTime with
    | Some c => c
    | None => {| hour := Num 8; minute := Num 0 |}
    end in
  let local := getLocalTimeParts (capturedAt item) (timezone item) in
  if lt (hour local) (hour cutoff) then OnTime
  else if strictEq (hour local) (hour cutoff)
          && le (minute local) (minute cutoff) then OnTime
  else Late.

(** A row of the daily table.  [photoLabel] (the initials shown when there
    is no photo) plays no part in what follows and is left out. *)
Record AdminRow : Type := {
  row_id : string;
  row_name : string;
  row_time : string;
  row_status : RowStatus;
  row_location : string;
  row_photoUrl : option string;
  row_flagComment : option string;
  row_raw : option AttendanceRecord
}.

(** The callback of [items.map((item) => { const status =
    resolveStatus(item, cutoffTime); return { ... }; })]: the row of one
    record, or the RangeError [formatTime] throws while the row is
    built. *)
Definition attendanceRow `{Clock} (cutoffTime : string) (item : AttendanceRecord)
  : Completion AdminRow :=
  let status := resolveStatus item cutoffTime in
  match formatTime (capturedAt item) (timezone item) with
  | RangeError => RangeError
  | Returned time =>
      Returned {| row_id := id item;
                  row_name := userName item;
                  row_time := time;
                  row_status := status;
                  row_location := locationLabel item;
                  row_photoUrl := photoUrl item;
                  row_flagComment := flagComment item;
                  row_raw := Some item |}
  end.

(** The [attendanceRows] of the [useMemo] that derives the rows. *)
Definition attendanceRows `{Clock} (items : list AttendanceRecord)
  (cutoffTime : string) : Completion (list AdminRow) :=
  mapThrowing (attendanceRow cutoffTime) items.

End AdminView.

(** ** [components/UserHistoryPanel.tsx]: the history rows *)

Module UserHistoryPanel.

Import Types Format.





End UserHistoryPanel.

(** ** Vocabulary for the statements about the two tables *)

Module FormatTerms.

Import Types.

(** A record the formatters of [lib/format.ts] cannot display: its
    timestamp is a date, and it names a zone the host does not know. *)
Definition zoneUnknown `{Clock} (item : AttendanceRecord) : bool :=
  match Date_parse (capturedAt item), timezone item with
  | Some _, Some zone =>
      negb (String.eqb zone EmptyString)
      && match zone_offset zone with
         | Some _ => false
         | None => true
         end
  | _, _ => false
  end.

End FormatTerms.

(** ** Asynchronous code against the browser and the server *)

Module Effects.

Import Js Types.

Record PositionOptions : Type := {
  enableHighAccuracy : bool;
  timeout : Z;         (* milliseconds *)
  maximumAge : Z       (* milliseconds *)
}.

(** [position.coords], the part of a [GeolocationPosition] that is read. *)
Record GeolocationPosition : Type := {
  coords_latitude : number;
  coords_longitude : number;
  coords_accuracy : number
}.

Inductive Method : Type := GET | POST | PUT | DELETE.

(** The JSON body of the record-creation call. *)
Record AttendanceBody : Type := {
  body_locationLabel : string;
  body_latitude : number;
  body_longitude : number;
  body_accuracy : option number;
  body_photoUrl : string;
  body_photoPublicId : string
}.

Inductive Body : Type :=
| NoBody
| PhotoBody (dataUrl : string)
| RecordBody (fields : AttendanceBody).

Record UploadResult : Type := {
  url : string;
  publicId : string
}.

Record IpLocation : Type := {
  ip_label : string;
  ip_latitude : option number;
  ip_longitude : option number
}.

(** Every call that leaves the page, as it is issued. *)
Inductive Request : Type :=
| GetCurrentPosition (options : PositionOptions)
| WatchPosition (options : PositionOptions)
| ClearWatch (watchId : Z)
| ApiRequest (method : Method) (path : string) (token : string) (body : Body).

Inductive Outcome (A : Type) : Type :=
| Resolved (value : A)
| Rejected (error : Thrown).

Arguments Resolved {A} value.
Arguments Rejected {A} error.

(** The browser and the server, over their own state [W].  Each function
    answers one request; a geolocation request answers with the argument
    of whichever callback fires first, and the server answers each
    endpoint with the shape its call site declares. *)
Class Browser (W : Type) : Type := {
  navigator_geolocation : bool;          (* navigator.geolocation is there *)
  window_isSecureContext : bool;
  window_hostname : string;
  geo_getCurrentPosition :
    PositionOptions -> W -> Outcome GeolocationPosition * W;
  geo_watchPosition :
    PositionOptions -> W -> Z * Outcome GeolocationPosition * W;
  geo_clearWatch : Z -> W -> W;
  api_uploadPhoto : string -> string -> W -> Outcome UploadResult * W;
  api_createAttendance :
    string -> AttendanceBody -> W -> Outcome AttendanceRecord * W;
  api_deleteAttendance : string -> string -> W -> Outcome unit * W;
  api_locationIp : string -> W -> Outcome IpLocation * W
}.

(** The state of a run: the world, and the requests issued so far, oldest
    first. *)
Record Run (W : Type) : Type := mkRun {
  world : W;
  log : list Request
}.

Arguments mkRun {W} world log.
Arguments world {W} r.
Arguments log {W} r.

(** An awaited computation: run from a state, it settles with a value or a
    thrown value and leaves a state. *)
Definition Async (W A : Type) : Type := Run W -> Outcome A * Run W.

Definition ret {W A : Type} (a : A) : Async W A :=
  fun r => (Resolved a, r).

Definition throw {W A : Type} (e : Thrown) : Async W A :=
  fun r => (Rejected e, r).

Definition bind {W A B : Type} (c : Async W A) (k : A -> Async W B)
  : Async W B :=
  fun r =>
    match c r with
    | (Resolved a, r') => k a r'
    | (Rejected e, r') => (Rejected e, r')
    end.

(** [try { c } catch (e) { handler e }]. *)
Definition tryCatch {W A : Type} (c : Async W A) (handler : Thrown -> Async W A)
  : Async W A :=
  fun r =>
    match c r with
    | (Resolved a, r') => (Resolved a, r')
    | (Rejected e, r') => handler e r'
    end.

(** Issue a request: log it, then let the world answer. *)
Definition issue {W A : Type} (q : Request) (answer : W -> Outcome A * W)
  : Async W A :=
  fun r =>
    let '(o, w') := answer (world r) in
    (o, mkRun w' (log r ++ [q])).

Declare Scope async_scope.
Delimit Scope async_scope with async.

Notation "x <- c ;; k" := (bind c (fun x => k))
  (at level 61, c at next level, right associativity) : async_scope.

End Effects.

(** ** [lib/location.ts]: the location acquisition ladder *)

Module Location.

Import Js Types Effects.

Inductive Source : Type := gps | network.

Record LocationResult : Type := {
  label : string;
  latitude : number;
  longitude : number;
  accuracy : option number;
  source : Source
}.

(** [Math.round(x)]: the integer nearest to [x], the larger one at a tie. *)
Definition Math_round (x : number) : Z := Qfloor (x + (1 # 2)).

(** An integer-valued number in a template literal. *)
Definition showInteger (z : Z) : string := NilZero.string_of_int (Z.to_int z).

(** The integer [n] for which [n / 10^f] is nearest to [x >= 0], the larger
    one at a tie. *)
Definition scaled (x : number) (f : nat) : Z :=
  Qfloor (x * inject_Z (10 ^ Z.of_nat f) + (1 # 2)).

Fixpoint fractionDigits (f : nat) (r : Z) : string :=
  match f with
  | O => EmptyString
  | S f' => fractionDigits f' (r / 10) ++ String (digitChar (r mod 10)) EmptyString
  end.

(** [x.toFixed(f)] for [f > 0] and [|x| < 10^21]: a minus sign when
    [x < 0], the digits of [n] before the last [f], a point, and the last
    [f] digits of [n], with [n = scaled |x| f]. *)
Definition toFixed (x : number) (f : nat) : string :=
  let n := scaled (Qabs x) f in
  (if Qle_bool 0 x then "" else "-")
  ++ showInteger (n / 10 ^ Z.of_nat f)
  ++ "." ++ fractionDigits f (n mod 10 ^ Z.of_nat f).

Definition formatPosition (position : GeolocationPosition) : LocationResult :=
  let latitude := coords_latitude position in
  let longitude := coords_longitude position in
  let accuracy := coords_accuracy position in
  let lat := toFixed latitude 5 in
  let lng := toFixed longitude 5 in
  let acc := Math_round accuracy in
  {| label := "GPS " ++ lat ++ ", " ++ lng ++ " (+/-" ++ showInteger acc ++ "m)";
     latitude := latitude;
     longitude := longitude;
     accuracy := Some (inject_Z acc);
     source := gps |}.

(** The codes of [GeolocationPositionError]. *)
Definition PERMISSION_DENIED : Z := 1.
Definition POSITION_UNAVAILABLE : Z := 2.
Definition TIMEOUT : Z := 3.

(** A [GeolocationPositionError], the value the geolocation service hands
    to an error callback: an object with a numeric [code] and a [message],
    not an [Error]. *)
Definition GeolocationPositionError (code : Z) (message : string) : Thrown :=
  {| thr_isObject := true; thr_code := Some (CodeNum code);
     thr_message := Some message; thr_isError := false |}.

(** [error.code === c] (and so [switch (error.code) { case c: ... }]). *)
Definition codeIs (code : option JsCode) (c : Z) : bool :=
  match code with
  | Some (CodeNum n) => n =? c
  | _ => false
  end.

Definition isSome {A : Type} (o : option A) : bool :=
  match o with
  | Some _ => true
  | None => false
  end.

Definition isRetryableError (error : Thrown) : bool :=
  thr_isObject error
  && (isSome (thr_code error) || isSome (thr_message error))
  && negb (codeIs (thr_code error) PERMISSION_DENIED).

Definition mapGeoError (error : Thrown) : Thrown :=
  if thr_isObject error && isSome (thr_code error) then
    let code := thr_code error in
    if codeIs code PERMISSION_DENIED then
      newError "Location permission denied. Please allow location access and retry."
    else if codeIs code POSITION_UNAVAILABLE then
      newError "Location is unavailable. Check your device GPS and try again."
    else if codeIs code TIMEOUT then
      newError "Location request timed out. Try again in a few seconds."
    else newError "Unable to fetch location."
  else newError "Unable to fetch location.".

(** The options of the three tiers, as written at the call sites. *)
Definition tier1Options : PositionOptions :=
  {| enableHighAccuracy := true; timeout := 12000; maximumAge := 0 |}.

Definition tier2Options : PositionOptions :=
  {| enableHighAccuracy := true; timeout := 20000; maximumAge := 0 |}.

Definition tier3Options : PositionOptions :=
  {| enableHighAccuracy := false; timeout := 20000; maximumAge := 60000 |}.

Section Ladder.

Context {W : Type} `{Browser W}.

Local Open Scope async_scope.

(** [navigator.geolocation.getCurrentPosition(resolve, reject, options)]. *)
Definition getPosition (options : PositionOptions)
  : Async W GeolocationPosition :=
  issue (GetCurrentPosition options) (geo_getCurrentPosition options).

(** [watchPosition] with both callbacks clearing the watch before they
    settle the promise. *)
Definition getPositionWithWatch (options : PositionOptions)
  : Async W GeolocationPosition :=
  fun r =>
    let '(watchId, first, w1) := geo_watchPosition options (world r) in
    let r1 := mkRun w1 (log r ++ [WatchPosition options]) in
    let r2 := mkRun (geo_clearWatch watchId (world r1))
                    (log r1 ++ [ClearWatch watchId]) in
    (first, r2).

Definition getDeviceLocation : Async W LocationResult :=
  if negb navigator_geolocation then
    throw (newError "Geolocation is not supported on this device.")
  else if negb window_isSecureContext
          && negb (String.eqb window_hostname "localhost") then
    throw (newError "Location requires HTTPS. Please use a secure connection.")
  else
    tryCatch
      (position <- getPosition tier1Options ;;
       ret (formatPosition position))
      (fun error =>
         if isRetryableError error then
           tryCatch
             (watchPosition <- getPositionWithWatch tier2Options ;;
              ret (formatPosition watchPosition))
             (fun watchError =>
                if isRetryableError watchError then
                  tryCatch
                    (fallbackPosition <- getPosition tier3Options ;;
                     ret (formatPosition fallbackPosition))
                    (fun fallbackError => throw (mapGeoError fallbackError))
                else throw (mapGeoError watchError))
         else throw (mapGeoError error)).

(** Vocabulary of the statements about the ladder: the guards that let a
    run reach the device, and the three device requests. *)
Definition mayLocate : Prop :=
  navigator_geolocation = true
  /\ (window_isSecureContext = true \/ window_hostname = "localhost").

End Ladder.

Definition g1 : Request := GetCurrentPosition tier1Options.
Definition g2 : Request := WatchPosition tier2Options.
Definition g3 : Request := GetCurrentPosition tier3Options.

End Location.

(** ** [components/UserView.tsx]: capture, save and delete *)

Module UserView.

Import Js Types Effects Location.

(** The component's [useState] cells.  A handler reads the values of the
    render it was created in and queues writes; run to the end, it leaves
    the cells it wrote changed and the others as they were. *)
Record State : Type := mkState {
  attendance : option AttendanceRecord;
  loading : bool;
  cameraOpen : bool;
  snapshot : option string;
  uploading : bool;
  error : string;
  location : option LocationResult;
  locationError : string;
  locationChecking : bool;
  locationSource : option Source
}.

Definition setAttendance (v : option AttendanceRecord) (s : State) : State :=
  mkState v (loading s) (cameraOpen s) (snapshot s) (uploading s) (error s)
          (location s) (locationError s) (locationChecking s) (locationSource s).

Definition setCameraOpen (v : bool) (s : State) : State :=
  mkState (attendance s) (loading s) v (snapshot s) (uploading s) (error s)
          (location s) (locationError s) (locationChecking s) (locationSource s).

Definition setSnapshot (v : option string) (s : State) : State :=
  mkState (attendance s) (loading s) (cameraOpen s) v (uploading s) (error s)
          (location s) (locationError s) (locationChecking s) (locationSource s).

Definition setUploading (v : bool) (s : State) : State :=
  mkState (attendance s) (loading s) (cameraOpen s) (snapshot s) v (error s)
          (location s) (locationError s) (locationChecking s) (locationSource s).

Definition setError (v : string) (s : State) : State :=
  mkState (attendance s) (loading s) (cameraOpen s) (snapshot s) (uploading s) v
          (location s) (locationError s) (locationChecking s) (locationSource s).

Definition setLocation (v : option LocationResult) (s : State) : State :=
  mkState (attendance s) (loading s) (cameraOpen s) (snapshot s) (uploading s)
          (error s) v (locationError s) (locationChecking s) (locationSource s).

Definition setLocationError (v : string) (s : State) : State :=
  mkState (attendance s) (loading s) (cameraOpen s) (snapshot s) (uploading s)
          (error s) (location s) v (locationChecking s) (locationSource s).

Definition setLocationChecking (v : bool) (s : State) : State :=
  mkState (attendance s) (loading s) (cameraOpen s) (snapshot s) (uploading s)
          (error s) (location s) (locationError s) v (locationSource s).

Definition setLocationSource (v : option Source) (s : State) : State :=
  mkState (attendance s) (loading s) (cameraOpen s) (snapshot s) (uploading s)
          (error s) (location s) (locationError s) (locationChecking s) v.

(** Truthiness of a [string | null]: null and the empty string are falsy. *)
Definition truthy (v : option string) : bool :=
  match v with
  | Some s => negb (String.eqb s EmptyString)
  | None => false
  end.

Definition orElse {A : Type} (v : option A) (d : A) : A :=
  match v with
  | Some a => a
  | None => d
  end.

Section Handlers.

Context {W : Type} `{Browser W}.

(** The [token] prop. *)
Variable token : option string.

Local Open Scope async_scope.

(** A handler returns the cells it leaves; it settles with [Resolved]
    whatever happened inside, as every path of the source catches. *)
Definition Handler : Type := State -> Run W -> State * Run W.

Definition toggleCamera : Handler :=
  fun s r =>
    if isSome (attendance s) then (s, r)
    else
      let s1 := setError "" s in
      if cameraOpen s then (setCameraOpen false s1, r)
      else (setCameraOpen true (setSnapshot None s1), r).

(** [capturePhoto]: [frame] is what the canvas encodes from the video
    element, [None] when there is no video element or no 2d context. *)
Definition capturePhoto (frame : option string) : Handler :=
  fun s r =>
    match frame with
    | None => (s, r)
    | Some dataUrl => (setCameraOpen false (setSnapshot (Some dataUrl) s), r)
    end.

Definition checkLocation : Handler :=
  fun s r =>
    let s1 := setLocationError "" (setLocationChecking true s) in
    match getDeviceLocation r with
    | (Resolved result, r') =>
        (setLocationChecking false
           (setLocationSource (Some gps) (setLocation (Some result) s1)), r')
    | (Rejected locationErr, r') =>
        (setLocationChecking false
           (setLocationError (messageOr locationErr "Unable to read location.")
              (setLocationSource None (setLocation None s1))), r')
    end.

Definition useNetworkLocation : Handler :=
  fun s r =>
    match token with
    | Some tok =>
        if String.eqb tok EmptyString then (s, r)
        else
          let s1 := setLocationError "" (setLocationChecking true s) in
          match issue (ApiRequest GET "/location/ip" tok NoBody)
                      (api_locationIp tok) r with
          | (Resolved data, r') =>
              let s2 :=
                match ip_latitude data, ip_longitude data with
                | Some lat, Some lng =>
                    setLocation
                      (Some {| label := ip_label data; latitude := lat;
                               longitude := lng; accuracy := None;
                               source := network |}) s1
                | _, _ => setLocation None s1
                end in
              (setLocationChecking false (setLocationSource (Some network) s2), r')
          | (Rejected err, r') =>
              (setLocationChecking false
                 (setLocationError
                    (messageOr err "Unable to fetch network location.")
                    (setLocationSource None (setLocation None s1))), r')
          end
    | None => (s, r)
    end.

(** [location ?? (await getDeviceLocation())]. *)
Definition resolveLocation (s : State) : Async W LocationResult :=
  match location s with
  | Some cached => ret cached
  | None => getDeviceLocation
  end.

Definition uploadPhoto (tok dataUrl : string) : Async W UploadResult :=
  issue (ApiRequest POST "/uploads/photo" tok (PhotoBody dataUrl))
        (api_uploadPhoto tok dataUrl).

Definition createAttendance (tok : string) (body : AttendanceBody)
  : Async W AttendanceRecord :=
  issue (ApiRequest POST "/attendance" tok (RecordBody body))
        (api_createAttendance tok body).

Definition handleUploadAndSave : Handler :=
  fun s r =>
    match snapshot s, token with
    | Some snap, Some tok =>
        if negb (truthy (snapshot s)) || negb (truthy token) then (s, r)
        else
          let s1 := setError "" (setUploading true s) in
          match resolveLocation s r with
          | (Rejected locationError, r1) =>
              let message := messageOr locationError "Unable to read location." in
              (setUploading false
                 (setUploading false
                    (setLocationError message (setError message s1))), r1)
          | (Resolved resolvedLocation, r1) =>
              let s2 :=
                if isSome (locationSource s) then s1
                else setLocationSource (Some gps) s1 in
              match (upload <- uploadPhoto tok snap ;;
                     createAttendance tok
                       {| body_locationLabel := label resolvedLocation;
                          body_latitude := latitude resolvedLocation;
                          body_longitude := longitude resolvedLocation;
                          body_accuracy := accuracy resolvedLocation;
                          body_photoUrl := url upload;
                          body_photoPublicId := publicId upload |}) r1 with
              | (Resolved record, r2) =>
                  (setUploading false
                     (setSnapshot None
                        (setLocation
                           (Some
                              {| label := Types.locationLabel record;
                                 latitude :=
                                   orElse (Types.latitude record)
                                          (latitude resolvedLocation);
                                 longitude :=
                                   orElse (Types.longitude record)
                                          (longitude resolvedLocation);
                                 accuracy :=
                                   match Types.accuracy record with
                                   | Some a => Some a
                                   | None => accuracy resolvedLocation
                                   end;
                                 source := orElse (locationSource s) gps |})
                           (setAttendance (Some record) s2))), r2)
              | (Rejected err, r2) =>
                  (setUploading false
                     (setError (messageOr err "Upload failed") s2), r2)
              end
          end
    | _, _ => (s, r)
    end.

Definition handleRetake : Handler :=
  fun s r => (setCameraOpen true (setSnapshot None s), r).

Definition handleDelete : Handler :=
  fun s r =>
    match attendance s, token with
    | Some current, Some tok =>
        if negb (truthy token) then (s, r)
        else
          let s1 := setError "" (setUploading true s) in
          match issue (ApiRequest DELETE ("/attendance/" ++ id current) tok NoBody)
                      (api_deleteAttendance tok (id current)) r with
          | (Resolved _, r') => (setUploading false (setAttendance None s1), r')
          | (Rejected err, r') =>
              (setUploading false
                 (setError (messageOr err "Unable to delete entry") s1), r')
          end
    | _, _ => (s, r)
    end.

(** The controls of the view, and when the rendered markup lets each be
    used. *)
Inductive Control : Type :=
| PrimaryButton                        (* Open camera / Close camera *)
| CaptureButton (frame : option string)
| CheckLocationButton
| NetworkLocationButton
| UploadSaveButton
| RetakeButton
| DeleteButton.

Definition usable (s : State) (c : Control) : bool :=
  match c with
  | PrimaryButton => negb (isSome (attendance s) || uploading s)
  | CaptureButton _ => cameraOpen s
  | CheckLocationButton =>
      negb (isSome (attendance s))
      && negb (locationChecking s || uploading s)
  | NetworkLocationButton =>
      negb (isSome (attendance s))
      && negb (String.eqb (locationError s) EmptyString)
      && negb (locationChecking s || uploading s)
  | UploadSaveButton =>
      truthy (snapshot s) && negb (isSome (attendance s)) && negb (uploading s)
  | RetakeButton =>
      truthy (snapshot s) && negb (isSome (attendance s)) && negb (uploading s)
  | DeleteButton => isSome (attendance s) && negb (uploading s)
  end.

Definition onClick (c : Control) : Handler :=
  match c with
  | PrimaryButton => toggleCamera
  | CaptureButton frame => capturePhoto frame
  | CheckLocationButton => checkLocation
  | NetworkLocationButton => useNetworkLocation
  | UploadSaveButton => handleUploadAndSave
  | RetakeButton => handleRetake
  | DeleteButton => handleDelete
  end.

End Handlers.


Definition isUpload (q : Request) : bool :=
  match q with
  | ApiRequest POST path _ _ => String.eqb path "/uploads/photo"
  | _ => false
  end.

(** The body of the creation call, from the resolved position and the
    stored photo. *)
Definition recordBody (place : LocationResult) (upload : UploadResult)
  : AttendanceBody :=
  {| body_locationLabel := label place;
     body_latitude := latitude place;
     body_longitude := longitude place;
     body_accuracy := accuracy place;
     body_photoUrl := url upload;
     body_photoPublicId := publicId upload |}.

(** A request to the geolocation service of the device. *)
Definition isGeolocation (q : Request) : bool :=
  match q with
  | ApiRequest _ _ _ _ => false
  | _ => true
  end.

End UserView.

(** ** [components/UserView.tsx]: what a click reaches *)

Module UserViewClicks.

Import Js Types Effects Format Location UserView.

Section Clicks.

Context {W : Type} `{Browser W} `{Clock}.

Variable token : option string.




End Clicks.

End UserViewClicks.

(** ** A reference host for the examples *)

(** A small, concrete [Clock]: timestamps in the ISO form the server sends
    ([YYYY-MM-DDTHH:mm:ssZ], with optional milliseconds), three zones with
    a fixed offset, and UTC as the zone of the host. *)
Module ReferenceHost.

Import Js.

Fixpoint readDigits (n : nat) (acc : Z) (s : string) : option (Z * string) :=
  match n with
  | O => Some (acc, s)
  | S n' =>
      match s with
      | String c rest =>
          if isDigit c then readDigits n' (10 * acc + digitValue c) rest
          else None
      | EmptyString => None
      end
  end.

Definition readChar (c : ascii) (s : string) : option string :=
  match s with
  | String c' rest => if Ascii.eqb c c' then Some rest else None
  | EmptyString => None
  end.

Definition isLeap (y : Z) : bool :=
  ((y mod 4 =? 0) && negb (y mod 100 =? 0)) || (y mod 400 =? 0).

Definition daysInMonth (y m : Z) : Z :=
  if m =? 2 then (if isLeap y then 29 else 28)
  else if (m =? 4) || (m =? 6) || (m =? 9) || (m =? 11) then 30
  else 31.

(** Days from 1970-01-01 to a date of the proleptic Gregorian calendar. *)
Definition daysFromCivil (y m d : Z) : Z :=
  let y' := if m <=? 2 then y - 1 else y in
  let era := y' / 400 in
  let yoe := y' - era * 400 in
  let doy := (153 * ((m + 9) mod 12) + 2) / 5 + d - 1 in
  let doe := yoe * 365 + yoe / 4 - yoe / 100 + doy in
  era * 146097 + doe - 719468.

Definition andThen {A B : Type} (o : option A) (k : A -> option B) : option B :=
  match o with
  | Some a => k a
  | None => None
  end.

Definition parseIso (s : string) : option Z :=
  andThen (readDigits 4 0 s) (fun '(y, s) =>
  andThen (readChar "-" s) (fun s =>
  andThen (readDigits 2 0 s) (fun '(mo, s) =>
  andThen (readChar "-" s) (fun s =>
  andThen (readDigits 2 0 s) (fun '(d, s) =>
  andThen (readChar "T" s) (fun s =>
  andThen (readDigits 2 0 s) (fun '(h, s) =>
  andThen (readChar ":" s) (fun s =>
  andThen (readDigits 2 0 s) (fun '(mi, s) =>
  andThen (readChar ":" s) (fun s =>
  andThen (readDigits 2 0 s) (fun '(sec, s) =>
  andThen (match readChar "." s with
           | Some s' => readDigits 3 0 s'
           | None => Some (0, s)
           end) (fun '(ms, s) =>
  if String.eqb s "Z"
     && (1 <=? mo) && (mo <=? 12) && (1 <=? d) && (d <=? daysInMonth y mo)
     && (h <=? 23) && (mi <=? 59) && (sec <=? 59)
  then Some ((((daysFromCivil y mo d * 24 + h) * 60 + mi) * 60 + sec) * 1000
             + ms)
  else None)))))))))))).

Definition zones (z : string) : option (Z -> Z) :=
  if String.eqb z "UTC" then Some (fun _ => 0)
  else if String.eqb z "Africa/Lagos" then Some (fun _ => 60)
  else if String.eqb z "Asia/Kolkata" then Some (fun _ => 330)
  else None.

Definition showTime (offset : Z -> Z) (t : Z) : string :=
  let h := Intl.wallHour t (offset t) in
  let h12 := (h + 11) mod 12 + 1 in
  (if h12 <? 10 then String (digitChar h12) EmptyString else Intl.twoDigits h12)
  ++ ":" ++ Intl.twoDigits (Intl.wallMinute t (offset t))
  ++ (if h <? 12 then " AM" else " PM").

(** The date as month and day numbers, [M/D]. *)
Definition showDate (offset : Z -> Z) (t : Z) : string :=
  let days := Intl.wallMinutes t (offset t) / 1440 + 719468 in
  let era := days / 146097 in
  let doe := days - era * 146097 in
  let yoe := (doe - doe / 1460 + doe / 36524 - doe / 146096) / 365 in
  let doy := doe - (365 * yoe + yoe / 4 - yoe / 100) in
  let mp := (5 * doy + 2) / 153 in
  let d := doy - (153 * mp + 2) / 5 + 1 in
  let m := if mp <? 10 then mp + 3 else mp - 9 in
  NilZero.string_of_int (Z.to_int m) ++ "/" ++ NilZero.string_of_int (Z.to_int d).

#[export] Instance clock : Clock := {|
  Date_parse := parseIso;
  zone_offset := zones;
  local_offset := fun _ => 0;
  toLocaleTimeString := fun t tz =>
    match tz with
    | Some z => match zones z with
                | Some off => showTime off t
                | None => showTime (fun _ => 0) t
                end
    | None => showTime (fun _ => 0) t
    end;
  toLocaleDateString := fun t tz =>
    match tz with
    | Some z => match zones z with
                | Some off => showDate off t
                | None => showDate (fun _ => 0) t
                end
    | None => showDate (fun _ => 0) t
    end
|}.

End ReferenceHost.

(** ** Sample data for the examples *)

Module Samples.

Import Types.

Definition checkIn (cap : string) (tz : option string) (st : option string)
  : AttendanceRecord :=
  {| id := "att-1"; userId := "user-1"; userName := "Ada Obi";
     capturedAt := cap; timezone := tz; locationLabel := "Head office";
     latitude := None; longitude := None; accuracy := None;
     photoUrl := Some "https://cdn.example/p1.jpg";
     photoPublicId := Some "p1"; status := st; flagComment := None |}.

(** Captured at 08:00 on the Lagos wall clock (07:00 UTC). *)
Definition atEight : AttendanceRecord :=
  checkIn "2024-03-01T07:00:00.000Z" (Some "Africa/Lagos") (Some "on_time").


(** A record whose timestamp does not parse. *)
Definition unparseable : AttendanceRecord :=
  checkIn "yesterday morning" (Some "Africa/Lagos") None.

(** The canonical record the server answers a creation with. *)
Definition created : AttendanceRecord :=
  {| id := "att-2"; userId := "user-1"; userName := "Ada Obi";
     capturedAt := "2024-03-02T06:45:10.000Z"; timezone := Some "Africa/Lagos";
     locationLabel := "Marina, Lagos";
     latitude := Some (6524379 # 1000000); longitude := Some (3379206 # 1000000);
     accuracy := Some (12 # 1);
     photoUrl := Some "https://cdn.example/p2.jpg";
     photoPublicId := Some "p2"; status := Some "on_time"; flagComment := None |}.

End Samples.

(** ** A scripted world for the examples *)

(** A world that answers from a script: each kind of request takes the next
    answer of its own list, and a list that has run out answers with a
    failure.  The page is served over HTTPS and has a geolocation
    service. *)
Module Scripted.

Import Js Types Effects Location.

Record Script : Type := {
  fixes : list (Outcome GeolocationPosition);
  uploads : list (Outcome UploadResult);
  creations : list (Outcome AttendanceRecord);
  deletions : list (Outcome unit);
  lookups : list (Outcome IpLocation)
}.

Definition next {A : Type} (l : list (Outcome A)) (exhausted : Thrown)
  : Outcome A * list (Outcome A) :=
  match l with
  | o :: rest => (o, rest)
  | [] => (Rejected exhausted, [])
  end.

Definition nextFix (w : Script) : Outcome GeolocationPosition * Script :=
  let '(o, rest) := next (fixes w) (GeolocationPositionError TIMEOUT "Timeout expired") in
  (o, {| fixes := rest; uploads := uploads w; creations := creations w;
         deletions := deletions w; lookups := lookups w |}).

#[export] Instance browser : Browser Script := {|
  navigator_geolocation := true;
  window_isSecureContext := true;
  window_hostname := "attendance.example";
  geo_getCurrentPosition := fun _ w => nextFix w;
  geo_watchPosition := fun _ w => let '(o, w') := nextFix w in (7, o, w');
  geo_clearWatch := fun _ w => w;
  api_uploadPhoto := fun _ _ w =>
    let '(o, rest) := next (uploads w) (newError "Request failed") in
    (o, {| fixes := fixes w; uploads := rest; creations := creations w;
           deletions := deletions w; lookups := lookups w |});
  api_createAttendance := fun _ _ w =>
    let '(o, rest) := next (creations w) (newError "Request failed") in
    (o, {| fixes := fixes w; uploads := uploads w; creations := rest;
           deletions := deletions w; lookups := lookups w |});
  api_deleteAttendance := fun _ _ w =>
    let '(o, rest) := next (deletions w) (newError "Request failed") in
    (o, {| fixes := fixes w; uploads := uploads w; creations := creations w;
           deletions := rest; lookups := lookups w |});
  api_locationIp := fun _ w =>
    let '(o, rest) := next (lookups w) (newError "Request failed") in
    (o, {| fixes := fixes w; uploads := uploads w; creations := creations w;
           deletions := deletions w; lookups := rest |})
|}.

Definition script (f : list (Outcome GeolocationPosition))
  (u : list (Outcome UploadResult)) (c : list (Outcome AttendanceRecord))
  (d : list (Outcome unit)) : Run Script :=
  mkRun {| fixes := f; uploads := u; creations := c; deletions := d;
           lookups := [] |} [].

(** The same world with the requests [l] in its log. *)
Definition after (l : list Request) (r : Run Script) : Run Script :=
  mkRun (world r) l.

(** A fix in Lagos, accurate to 12.4 m. *)
Definition lagosFix : GeolocationPosition :=
  {| coords_latitude := 6524379 # 1000000;
     coords_longitude := 3379206 # 1000000;
     coords_accuracy := 124 # 10 |}.

Definition denied : Thrown :=
  GeolocationPositionError PERMISSION_DENIED "User denied Geolocation".
Definition unavailable : Thrown :=
  GeolocationPositionError POSITION_UNAVAILABLE "Position unavailable".
Definition timedOut : Thrown :=
  GeolocationPositionError TIMEOUT "Timeout expired".

End Scripted.

(** Sample states and answers for the examples about the save handlers. *)
Module SaveSamples.

Import Js Types Effects Location UserView.

Definition photo : string := "data:image/jpeg;base64,/9j/4AAQSkZJRg==".

Definition stored : UploadResult :=
  {| url := "https://cdn.example/p2.jpg"; publicId := "p2" |}.

Definition place : LocationResult := formatPosition Scripted.lagosFix.

Definition created : AttendanceRecord := Samples.created.

(** A photo has been taken, the position is known, nothing is saved yet. *)
Definition ready : State :=
  {| attendance := None; loading := false; cameraOpen := false;
     snapshot := Some photo; uploading := false; error := "";
     location := Some place; locationError := ""; locationChecking := false;
     locationSource := Some gps |}.

(** A photo has been taken and no position has been asked for yet. *)
Definition readyUnlocated : State :=
  {| attendance := None; loading := false; cameraOpen := false;
     snapshot := Some photo; uploading := false; error := "";
     location := None; locationError := ""; locationChecking := false;
     locationSource := None |}.


(** Today's record is held and nothing else. *)
Definition checkedIn : State :=
  {| attendance := Some Samples.atEight; loading := false; cameraOpen := false;
     snapshot := None; uploading := false; error := "";
     location := None; locationError := ""; locationChecking := false;
     locationSource := None |}.

End SaveSamples.

(** ** [lib/apiBase.ts]: the address of a request *)

Module ApiBase.

(** [rawBase.replace] of the pattern [/\/$/] by the empty string: one slash
    at the very end is removed. *)
Fixpoint stripTrailingSlash (s : string) : string :=
  match s with
  | EmptyString => EmptyString
  | String c rest =>
      match rest with
      | EmptyString => if Ascii.eqb c "/" then EmptyString else s
      | String _ _ => String c (stripTrailingSlash rest)
      end
  end.

(** [API_BASE], from the build-time setting [VITE_API_BASE] ([None] when
    it is not set). *)
Definition API_BASE (rawBase : option string) : string :=
  match rawBase with
  | Some raw =>
      if (0 <? String.length raw)%nat then stripTrailingSlash raw else "/api"
  | None => "/api"
  end.

Definition withApiBase (rawBase : option string) (path : string) : string :=
  match path with
  | EmptyString => API_BASE rawBase
  | String c _ =>
      if Ascii.eqb c "/" then API_BASE rawBase ++ path
      else API_BASE rawBase ++ "/" ++ path
  end.

(** Vocabulary of the statements about addresses. *)
Fixpoint endsWithSlash (s : string) : bool :=
  match s with
  | EmptyString => false
  | String c rest =>
      match rest with
      | EmptyString => Ascii.eqb c "/"
      | String _ _ => endsWithSlash rest
      end
  end.

Definition startsWithSlash (s : string) : bool :=
  match s with
  | String c _ => Ascii.eqb c "/"
  | EmptyString => false
  end.

End ApiBase.

(** ** [lib/download.ts]: the name of a downloaded file *)

Module Download.

Import Js.

(** The double quote. *)
Definition quote : ascii := ascii_of_nat 34.

(** Two characters are the same up to the case of an ASCII letter (the [i]
    flag of the pattern; without the [u] flag no other character folds
    onto an ASCII letter). *)
Definition foldCase (c : ascii) : ascii :=
  if inRange "A" "Z" c then ascii_of_nat (nat_of_ascii c + 32) else c.

Definition sameLetter (a b : ascii) : bool := Ascii.eqb (foldCase a) (foldCase b).

(** The rest of [s] after the literal [pat], compared up to case. *)
Fixpoint afterLiteral (pat s : string) : option string :=
  match pat with
  | EmptyString => Some s
  | String p pat' =>
      match s with
      | String c s' => if sameLetter p c then afterLiteral pat' s' else None
      | EmptyString => None
      end
  end.

(** The capture and the closing quote: the longest run of characters other
    than the quote, which must not be empty and must be followed by a
    quote. *)
Fixpoint quotedName (s : string) : option string :=
  match s with
  | EmptyString => None
  | String c rest =>
      if Ascii.eqb c quote then None
      else
        match rest with
        | EmptyString => None
        | String c' _ =>
            if Ascii.eqb c' quote then Some (String c EmptyString)
            else
              match quotedName rest with
              | Some name => Some (String c name)
              | None => None
              end
        end
  end.

(** The pattern tried at the start of [s]. *)
Definition matchHere (s : string) : option string :=
  match afterLiteral ("filename=" ++ String quote EmptyString) s with
  | Some rest => quotedName rest
  | None => None
  end.

(** [header.match(pattern)?.[1]], the pattern being the word filename, an
    equals sign, a quote, the captured name and a quote: the capture at the
    first position, from the left, at which the pattern matches. *)
Fixpoint firstMatch (s : string) : option string :=
  match matchHere s with
  | Some name => Some name
  | None =>
      match s with
      | EmptyString => None
      | String _ rest => firstMatch rest
      end
  end.

Definition getFileName (header : option string) : option string :=
  match header with
  | None => None
  | Some EmptyString => None
  | Some h => firstMatch h
  end.

(** Vocabulary of the statements about the pattern: a string with every
    ASCII letter in lower case, a string without a quote, and a string
    without the letter [c] in either case. *)
Fixpoint foldString (s : string) : string :=
  match s with
  | EmptyString => EmptyString
  | String c rest => String (foldCase c) (foldString rest)
  end.

Fixpoint quoteFree (s : string) : bool :=
  match s with
  | EmptyString => true
  | String c rest => negb (Ascii.eqb c quote) && quoteFree rest
  end.

Fixpoint freeOf (c : ascii) (s : string) : bool :=
  match s with
  | EmptyString => true
  | String c' rest => negb (sameLetter c c') && freeOf c rest
  end.

(** [getFileName(response.headers.get("Content-Disposition")) ??
    fallbackName], the name [downloadFile] saves under. *)
Definition fileName (header : option string) (fallbackName : string) : string :=
  match getFileName header with
  | Some name => name
  | None => fallbackName
  end.

End Download.

(** ** [components/AdminView.tsx]: the rows, the filters and the counters *)

Module AdminTable.

Import Js Types Format AdminView.

(** Modelled from the spec: the [RosterUser] type of [src/types], which is
    not among the sources: an id and a name. *)
Record RosterUser : Type := {
  user_id : string;
  user_name : string
}.

Inductive Filter : Type :=
| FilterAll       (* "all" *)
| FilterOnTime    (* "on-time" *)
| FilterLate      (* "late" *)
| FilterAbsent.   (* "absent" *)

(** [new Map(items.map((item) => [item.userId, item]))], as its entries,
    and [map.has(key)]. *)
Definition attendanceByUserId (items : list AttendanceRecord)
  : list (string * AttendanceRecord) :=
  map (fun item => (userId item, item)) items.

Definition Map_has {V : Type} (entries : list (string * V)) (key : string) : bool :=
  existsb (fun entry => String.eqb (fst entry) key) entries.

Definition absentRows (items : list AttendanceRecord) (roster : list RosterUser)
  : list AdminRow :=
  map (fun user =>
         {| row_id := "absent-" ++ user_id user;
            row_name := user_name user;
            row_time := "--";
            row_status := Missing;
            row_location := "--";
            row_photoUrl := None;
            row_flagComment := None;
            row_raw := None |})
      (filter (fun user => negb (Map_has (attendanceByUserId items) (user_id user)))
              roster).

Definition statusIs (wanted : RowStatus) (row : AdminRow) : bool :=
  match row_status row, wanted with
  | OnTime, OnTime => true
  | Late, Late => true
  | Missing, Missing => true
  | _, _ => false
  end.

Section Rows.

Context `{Clock}.

(** [a.name.localeCompare(b.name)] of the host: negative, zero or
    positive. *)
Variable localeCompare : string -> string -> Z.

(** [array.sort(compare)], as the stable sort it is for a consistent
    comparison: each row goes before the first row that compares greater. *)
Fixpoint insertRow (row : AdminRow) (sorted : list AdminRow) : list AdminRow :=
  match sorted with
  | [] => [row]
  | other :: rest =>
      if localeCompare (row_name row) (row_name other) <? 0
      then row :: sorted
      else other :: insertRow row rest
  end.

Definition sortRows (l : list AdminRow) : list AdminRow :=
  fold_left (fun sorted row => insertRow row sorted) l [].

(** The [rows] of the [useMemo]: the attendance rows are built first, and
    a RangeError thrown while they are built leaves the whole callback,
    whatever the filter. *)
Definition rows (items : list AttendanceRecord) (roster : list RosterUser)
  (filter_ : Filter) (cutoffTime : string) : Completion (list AdminRow) :=
  match attendanceRows items cutoffTime with
  | RangeError => RangeError
  | Returned attendanceRows =>
      let absentRows := absentRows items roster in
      let allRows := sortRows (attendanceRows ++ absentRows) in
      Returned
        (match filter_ with
         | FilterOnTime => filter (statusIs OnTime) attendanceRows
         | FilterLate => filter (statusIs Late) attendanceRows
         | FilterAbsent => absentRows
         | FilterAll => allRows
         end)
  end.

End Rows.

Record Stats : Type := {
  present : Z;
  late : Z;
  missing : Z
}.

(** The [stats] of the second [useMemo], over [items], the
    [attendanceRows] the first one returned, and [roster]. *)
Definition stats (items : list AttendanceRecord) (attendanceRows : list AdminRow)
  (roster : list RosterUser) : Stats :=
  let present := Z.of_nat (length items) in
  {| present := present;
     late := Z.of_nat (length (filter (statusIs Late) attendanceRows));
     missing := Z.max (Z.of_nat (length roster) - present) 0 |}.

Definition optionStringEq (a b : option string) : bool :=
  match a, b with
  | Some x, Some y => String.eqb x y
  | None, None => true
  | _, _ => false
  end.

(** The effect that keeps [selected] in step with [rows]: the value of
    [selected] after one run. *)
Definition syncSelected (rows : list AdminRow) (selected : option AdminRow)
  : option AdminRow :=
  match rows with
  | [] => None
  | first :: _ =>
      let found :=
        match selected with
        | Some sel => find (fun row => String.eqb (row_id row) (row_id sel)) rows
        | None => None
        end in
      let next := match found with
                  | Some row => row
                  | None => first
                  end in
      match selected with
      | None => Some next
      | Some sel =>
          if negb (String.eqb (row_id sel) (row_id next))
             || negb (optionStringEq (row_flagComment sel) (row_flagComment next))
             || negb (optionStringEq (row_photoUrl sel) (row_photoUrl next))
             || negb (String.eqb (row_time sel) (row_time next))
          then Some next
          else Some sel
      end
  end.

End AdminTable.

(** ** [components/AdminView.tsx]: export, cutoff and flag handlers *)

Module AdminActions.

Import Js Types Effects AdminView.

(** The cells of the component these handlers read or write. *)
Record State : Type := mkState {
  items : list AttendanceRecord;
  selected : option AdminRow;
  cutoffTime : string;
  cutoffDraft : string;
  savingCutoff : bool;
  cutoffError : string;
  exporting : bool;
  exportError : string;
  exportStart : string;
  exportEnd : string;
  flagDraft : string;
  flagSaving : bool;
  flagError : string;
  historyRefreshKey : Z
}.

Definition setItems (v : list AttendanceRecord) (s : State) : State :=
  mkState v (selected s) (cutoffTime s) (cutoffDraft s) (savingCutoff s)
          (cutoffError s) (exporting s) (exportError s) (exportStart s)
          (exportEnd s) (flagDraft s) (flagSaving s) (flagError s)
          (historyRefreshKey s).

Definition setSelected (v : option AdminRow) (s : State) : State :=
  mkState (items s) v (cutoffTime s) (cutoffDraft s) (savingCutoff s)
          (cutoffError s) (exporting s) (exportError s) (exportStart s)
          (exportEnd s) (flagDraft s) (flagSaving s) (flagError s)
          (historyRefreshKey s).

Definition setCutoffTime (v : string) (s : State) : State :=
  mkState (items s) (selected s) v (cutoffDraft s) (savingCutoff s)
          (cutoffError s) (exporting s) (exportError s) (exportStart s)
          (exportEnd s) (flagDraft s) (flagSaving s) (flagError s)
          (historyRefreshKey s).

Definition setCutoffDraft (v : string) (s : State) : State :=
  mkState (items s) (selected s) (cutoffTime s) v (savingCutoff s)
          (cutoffError s) (exporting s) (exportError s) (exportStart s)
          (exportEnd s) (flagDraft s) (flagSaving s) (flagError s)
          (historyRefreshKey s).

Definition setSavingCutoff (v : bool) (s : State) : State :=
  mkState (items s) (selected s) (cutoffTime s) (cutoffDraft s) v
          (cutoffError s) (exporting s) (exportError s) (exportStart s)
          (exportEnd s) (flagDraft s) (flagSaving s) (flagError s)
          (historyRefreshKey s).

Definition setCutoffError (v : string) (s : State) : State :=
  mkState (items s) (selected s) (cutoffTime s) (cutoffDraft s)
          (savingCutoff s) v (exporting s) (exportError s) (exportStart s)
          (exportEnd s) (flagDraft s) (flagSaving s) (flagError s)
          (historyRefreshKey s).

Definition setExporting (v : bool) (s : State) : State :=
  mkState (items s) (selected s) (cutoffTime s) (cutoffDraft s)
          (savingCutoff s) (cutoffError s) v (exportError s) (exportStart
          s) (exportEnd s) (flagDraft s) (flagSaving s) (flagError s)
          (historyRefreshKey s).

Definition setExportError (v : string) (s : State) : State :=
  mkState (items s) (selected s) (cutoffTime s) (cutoffDraft s)
          (savingCutoff s) (cutoffError s) (exporting s) v (exportStart s)
          (exportEnd s) (flagDraft s) (flagSaving s) (flagError s)
          (historyRefreshKey s).

Definition setExportStart (v : string) (s : State) : State :=
  mkState (items s) (selected s) (cutoffTime s) (cutoffDraft s)
          (savingCutoff s) (cutoffError s) (exporting s) (exportError s) v
          (exportEnd s) (flagDraft s) (flagSaving s) (flagError s)
          (historyRefreshKey s).

Definition setExportEnd (v : string) (s : State) : State :=
  mkState (items s) (selected s) (cutoffTime s) (cutoffDraft s)
          (savingCutoff s) (cutoffError s) (exporting s) (exportError s)
          (exportStart s) v (flagDraft s) (flagSaving s) (flagError s)
          (historyRefreshKey s).

Definition setFlagDraft (v : string) (s : State) : State :=
  mkState (items s) (selected s) (cutoffTime s) (cutoffDraft s)
          (savingCutoff s) (cutoffError s) (exporting s) (exportError s)
          (exportStart s) (exportEnd s) v (flagSaving s) (flagError s)
          (historyRefreshKey s).

Definition setFlagSaving (v : bool) (s : State) : State :=
  mkState (items s) (selected s) (cutoffTime s) (cutoffDraft s)
          (savingCutoff s) (cutoffError s) (exporting s) (exportError s)
          (exportStart s) (exportEnd s) (flagDraft s) v (flagError s)
          (historyRefreshKey s).

Definition setFlagError (v : string) (s : State) : State :=
  mkState (items s) (selected s) (cutoffTime s) (cutoffDraft s)
          (savingCutoff s) (cutoffError s) (exporting s) (exportError s)
          (exportStart s) (exportEnd s) (flagDraft s) (flagSaving s) v
          (historyRefreshKey s).

Definition setHistoryRefreshKey (v : Z) (s : State) : State :=
  mkState (items s) (selected s) (cutoffTime s) (cutoffDraft s)
          (savingCutoff s) (cutoffError s) (exporting s) (exportError s)
          (exportStart s) (exportEnd s) (flagDraft s) (flagSaving s)
          (flagError s) v.

(** The JSON bodies of the two admin calls. *)
Inductive AdminBody : Type :=
| CutoffBody (cutoffTime : string)
| CommentBody (comment : string).

(** Every call of these handlers that leaves the page. *)
Inductive AdminRequest : Type :=
| AdminApi (method : Method) (path : string) (token : string) (body : AdminBody)
| DownloadFile (path : string) (token : string) (fallbackName : string).

(** The server behind the admin calls, over its own state [W]: the
    settings endpoint answers with the cutoff it stored, the flag endpoint
    with the updated record. *)
Class AdminServer (W : Type) : Type := {
  api_putSettings : string -> string -> W -> Outcome string * W;
  api_putFlag : string -> string -> string -> W -> Outcome AttendanceRecord * W;
  host_downloadFile : string -> string -> string -> W -> Outcome unit * W
}.

Record AdminRun (W : Type) : Type := mkAdminRun {
  admin_world : W;
  admin_log : list AdminRequest
}.

Arguments mkAdminRun {W} admin_world admin_log.
Arguments admin_world {W} a.
Arguments admin_log {W} a.

(** [/^([01]\d|2[0-3]):[0-5]\d$/.test(cutoffDraft)]. *)
Definition cutoffValid (cutoffDraft : string) : bool :=
  match cutoffDraft with
  | String h1 (String h2 (String sep (String m1 (String m2 EmptyString)))) =>
      ((inRange "0" "1" h1 && isDigit h2)
       || (Ascii.eqb h1 "2" && inRange "0" "3" h2))
      && Ascii.eqb sep ":" && inRange "0" "5" m1 && isDigit m2
  | _ => false
  end.

(** [/^\d{4}-\d{2}-\d{2}$/.test(value)]. *)
Definition dateValid (value : string) : bool :=
  match value with
  | String y1 (String y2 (String y3 (String y4 (String d1
      (String m1 (String m2 (String d2
        (String a1 (String a2 EmptyString))))))))) =>
      isDigit y1 && isDigit y2 && isDigit y3 && isDigit y4
      && Ascii.eqb d1 "-" && isDigit m1 && isDigit m2
      && Ascii.eqb d2 "-" && isDigit a1 && isDigit a2
  | _ => false
  end.

(** [a > b] on strings: the order of the first code unit that differs. *)
Definition stringGt (a b : string) : bool :=
  match String.compare a b with
  | Gt => true
  | _ => false
  end.

Definition nonEmpty (v : string) : bool := negb (String.eqb v EmptyString).

(** [prev.map((item) => (item.id === updated.id ? updated : item))]. *)
Definition replaceById (updated : AttendanceRecord) (prev : list AttendanceRecord)
  : list AttendanceRecord :=
  map (fun item => if String.eqb (id item) (id updated) then updated else item)
      prev.

Section Handlers.

Context {W : Type} `{AdminServer W}.

(** The [token] prop. *)
Variable token : option string.

(** [value.trim()] of the host. *)
Variable trim : string -> string.

Definition AdminHandler : Type := State -> AdminRun W -> State * AdminRun W.

Definition handleExportAll : AdminHandler :=
  fun s r =>
    match token with
    | None => (s, r)
    | Some tok =>
        if negb (nonEmpty tok) then (s, r)
        else
          let s1 := setExportError "" (setExporting true s) in
          if negb (dateValid (exportStart s)) || negb (dateValid (exportEnd s))
          then (setExporting false
                  (setExportError "Choose a valid start and end date." s1), r)
          else if stringGt (exportStart s) (exportEnd s)
          then (setExporting false
                  (setExportError "Start date must be on or before end date." s1),
                r)
          else
            let path := "/admin/export?start=" ++ exportStart s
                        ++ "&end=" ++ exportEnd s in
            let name := "attendance-" ++ exportStart s ++ "-to-" ++ exportEnd s
                        ++ ".xlsx" in
            let '(o, w') := host_downloadFile path tok name (admin_world r) in
            let r' := mkAdminRun w' (admin_log r ++ [DownloadFile path tok name]) in
            match o with
            | Resolved _ => (setExporting false s1, r')
            | Rejected err =>
                (setExporting false
                   (setExportError (messageOr err "Unable to export") s1), r')
            end
    end.

Definition handleSaveCutoff : AdminHandler :=
  fun s r =>
    match token with
    | Some tok =>
        if negb (nonEmpty tok) || negb (cutoffValid (cutoffDraft s))
        then (setCutoffError "Cutoff time must be HH:mm" s, r)
        else
          let s1 := setCutoffError "" (setSavingCutoff true s) in
          let '(o, w') := api_putSettings tok (cutoffDraft s) (admin_world r) in
          let r' := mkAdminRun w'
                      (admin_log r
                       ++ [AdminApi PUT "/admin/settings" tok
                                    (CutoffBody (cutoffDraft s))]) in
          match o with
          | Resolved stored =>
              (setSavingCutoff false
                 (setHistoryRefreshKey (historyRefreshKey s + 1)
                    (setCutoffDraft stored (setCutoffTime stored s1))), r')
          | Rejected err =>
              (setSavingCutoff false
                 (setCutoffError
                    (messageOr err "Unable to update cutoff time.") s1), r')
          end
    | None => (setCutoffError "Cutoff time must be HH:mm" s, r)
    end.

(** [selected?.raw], when there is a token. *)
Definition flagTarget (s : State) : option (string * AttendanceRecord) :=
  match token, selected s with
  | Some tok, Some row =>
      if nonEmpty tok then
        match row_raw row with
        | Some raw => Some (tok, raw)
        | None => None
        end
      else None
  | _, _ => None
  end.

Definition flagPath (raw : AttendanceRecord) : string :=
  "/admin/attendance/" ++ id raw ++ "/flag".

Definition handleFlagSave : AdminHandler :=
  fun s r =>
    match flagTarget s with
    | None => (s, r)
    | Some (tok, raw) =>
        let comment := trim (flagDraft s) in
        if negb (nonEmpty comment)
        then (setFlagError "Comment is required to flag a check-in." s, r)
        else
          let s1 := setFlagError "" (setFlagSaving true s) in
          let '(o, w') := api_putFlag tok (id raw) comment (admin_world r) in
          let r' := mkAdminRun w'
                      (admin_log r
                       ++ [AdminApi PUT (flagPath raw) tok (CommentBody comment)]) in
          match o with
          | Resolved updated =>
              (setFlagSaving false (setItems (replaceById updated (items s)) s1),
               r')
          | Rejected err =>
              (setFlagSaving false
                 (setFlagError (messageOr err "Unable to flag check-in.") s1), r')
          end
    end.

Definition handleFlagClear : AdminHandler :=
  fun s r =>
    match flagTarget s with
    | None => (s, r)
    | Some (tok, raw) =>
        let s1 := setFlagError "" (setFlagSaving true s) in
        let '(o, w') := api_putFlag tok (id raw) "" (admin_world r) in
        let r' := mkAdminRun w'
                    (admin_log r
                     ++ [AdminApi PUT (flagPath raw) tok (CommentBody "")]) in
        match o with
        | Resolved updated =>
            (setFlagSaving false
               (setFlagDraft "" (setItems (replaceById updated (items s)) s1)),
             r')
        | Rejected err =>
            (setFlagSaving false
               (setFlagError (messageOr err "Unable to clear flag.") s1), r')
        end
    end.

End Handlers.

(** The date a valid value stands for, as the number [yyyymmdd]. *)
Definition dateNumber (value : string) : Z :=
  match value with
  | String y1 (String y2 (String y3 (String y4 (String _
      (String m1 (String m2 (String _
        (String a1 (String a2 EmptyString))))))))) =>
      digitsValue 0
        (String y1 (String y2 (String y3 (String y4
           (String m1 (String m2 (String a1 (String a2 EmptyString))))))))
  | _ => 0
  end.

End AdminActions.

(** ** Vocabulary for the invariants of the check-in view *)

Module UserViewTerms.

Import Js Types Effects Location UserView.

(** The live camera and a snapshot are never there together. *)
Definition cameraExclusive (s : State) : Prop :=
  cameraOpen s = true -> snapshot s = None.


(** Neither busy flag is set. *)
Definition idle (s : State) : Prop :=
  uploading s = false /\ locationChecking s = false.

(** The lookup of the approximate position by IP address. *)
Definition isIpLookup (q : Request) : bool :=
  match q with
  | ApiRequest _ path _ _ => String.eqb path "/location/ip"
  | _ => false
  end.

End UserViewTerms.

(** ** Vocabulary for the properties of the ladder *)

Module LocationTerms.

Import Js Types Effects Location.

Definition isWatch (q : Request) : bool :=
  match q with
  | WatchPosition _ => true
  | _ => false
  end.

Definition isClear (q : Request) : bool :=
  match q with
  | ClearWatch _ => true
  | _ => false
  end.

(** The messages [getDeviceLocation] can fail with. *)
Definition locationMessages : list string :=
  [ "Geolocation is not supported on this device.";
    "Location requires HTTPS. Please use a secure connection.";
    "Location permission denied. Please allow location access and retry.";
    "Location is unavailable. Check your device GPS and try again.";
    "Location request timed out. Try again in a few seconds.";
    "Unable to fetch location." ].

End LocationTerms.

(** ** A page served without HTTPS, for the examples *)

Module InsecurePage.

Import Effects Scripted.

(** The scripted world behind a page on plain HTTP. *)
Definition browser : Browser Script := {|
  navigator_geolocation := true;
  window_isSecureContext := false;
  window_hostname := "attendance.example";
  geo_getCurrentPosition := @geo_getCurrentPosition Script Scripted.browser;
  geo_watchPosition := @geo_watchPosition Script Scripted.browser;
  geo_clearWatch := @geo_clearWatch Script Scripted.browser;
  api_uploadPhoto := @api_uploadPhoto Script Scripted.browser;
  api_createAttendance := @api_createAttendance Script Scripted.browser;
  api_deleteAttendance := @api_deleteAttendance Script Scripted.browser;
  api_locationIp := @api_locationIp Script Scripted.browser
|}.

End InsecurePage.

(** A record carrying a zone identifier no zone database knows. *)
Module MoreSamples.

Import Types.

Definition onMars : AttendanceRecord :=
  Samples.checkIn "2024-03-01T07:30:00.000Z" (Some "Mars/Olympus") None.

Definition secondCheckIn : AttendanceRecord :=
  {| id := "att-7"; userId := "user-2"; userName := "Bayo Ade";
     capturedAt := "2024-03-01T08:20:00.000Z"; timezone := Some "Africa/Lagos";
     locationLabel := "Depot"; latitude := None; longitude := None;
     accuracy := None; photoUrl := None; photoPublicId := None;
     status := Some "late"; flagComment := None |}.

(** The second check-in as the server returns it once flagged. *)
Definition secondFlagged : AttendanceRecord :=
  {| id := "att-7"; userId := "user-2"; userName := "Bayo Ade";
     capturedAt := "2024-03-01T08:20:00.000Z"; timezone := Some "Africa/Lagos";
     locationLabel := "Depot"; latitude := None; longitude := None;
     accuracy := None; photoUrl := None; photoPublicId := None;
     status := Some "late"; flagComment := Some "Photo is blurred" |}.

End MoreSamples.

(** Rosters and a collation for the examples. *)
Module TableSamples.

Import Types AdminTable.

Definition ada : RosterUser := {| user_id := "user-1"; user_name := "Ada Obi" |}.
Definition bayo : RosterUser := {| user_id := "user-2"; user_name := "Bayo Ade" |}.
Definition chi : RosterUser := {| user_id := "user-3"; user_name := "Chi Eze" |}.

(** A comparison by code units, standing for the collation of the host. *)
Definition byCodeUnits (a b : string) : Z :=
  match String.compare a b with
  | Lt => -1
  | Eq => 0
  | Gt => 1
  end.

End TableSamples.

(** ** An admin server for the examples *)

(** A server that stores whatever cutoff it is sent, answers a flag request
    with the record it holds (or refuses when it holds none), and serves
    every download. *)
Module AdminScripted.

Import Js Types Effects AdminView AdminActions.

#[export] Instance server : AdminServer (option AttendanceRecord) := {|
  api_putSettings := fun _ cutoff w => (Resolved cutoff, w);
  api_putFlag := fun _ _ _ w =>
    match w with
    | Some record => (Resolved record, w)
    | None => (Rejected (newError "Attendance record not found"), w)
    end;
  host_downloadFile := fun _ _ _ w => (Resolved tt, w)
|}.

Definition start (w : option AttendanceRecord) : AdminRun (option AttendanceRecord) :=
  mkAdminRun w [].

(** The admin view on 1 March 2024 with two check-ins, the second one
    selected, and a flag comment typed in. *)
Definition reviewing : State :=
  {| items := [Samples.atEight; MoreSamples.secondCheckIn];
     selected :=
       Some {| row_id := "att-7"; row_name := "Bayo Ade"; row_time := "9:20 AM";
               row_status := Late; row_location := "Depot";
               row_photoUrl := None; row_flagComment := None;
               row_raw := Some MoreSamples.secondCheckIn |};
     cutoffTime := "08:00"; cutoffDraft := "08:30";
     savingCutoff := false; cutoffError := "";
     exporting := false; exportError := "";
     exportStart := "2024-02-01"; exportEnd := "2024-03-01";
     flagDraft := "Photo is blurred"; flagSaving := false; flagError := "";
     historyRefreshKey := 0 |}.

End AdminScripted.

(* ================================================================== *)
(** * Part II: properties *)
(* ================================================================== *)


(** ** Digits and two-digit fields *)

Module JsFacts.

Import Js.

Lemma inRange_bounds (lo hi c : ascii) :
  inRange lo hi c = true ->
  (nat_of_ascii lo <= nat_of_ascii c <= nat_of_ascii hi)%nat.
Proof.
  unfold inRange. rewrite andb_true_iff, !Nat.leb_le. tauto.
Qed.

Lemma inRange_intro (lo hi c : ascii) :
  (nat_of_ascii lo <= nat_of_ascii c <= nat_of_ascii hi)%nat ->
  inRange lo hi c = true.
Proof.
  unfold inRange. rewrite andb_true_iff, !Nat.leb_le. tauto.
Qed.

Lemma isDigit_value (c : ascii) :
  isDigit c = true -> 0 <= digitValue c <= 9.
Proof.
  intros Hc. apply inRange_bounds in Hc. unfold digitValue.
  change (nat_of_ascii "0") with 48%nat in Hc.
  change (nat_of_ascii "9") with 57%nat in Hc. lia.
Qed.

Lemma nat_of_digitChar (d : Z) :
  0 <= d <= 9 -> nat_of_ascii (digitChar d) = Z.to_nat (48 + d).
Proof.
  intros Hd. unfold digitChar. apply nat_ascii_embedding. lia.
Qed.

Lemma digitChar_isDigit (d : Z) : 0 <= d <= 9 -> isDigit (digitChar d) = true.
Proof.
  intros Hd. apply inRange_intro. rewrite nat_of_digitChar by exact Hd.
  change (nat_of_ascii "0") with 48%nat.
  change (nat_of_ascii "9") with 57%nat. lia.
Qed.

Lemma digitValue_digitChar (d : Z) : 0 <= d <= 9 -> digitValue (digitChar d) = d.
Proof.
  intros Hd. unfold digitValue. rewrite nat_of_digitChar by exact Hd. lia.
Qed.

Lemma digitChar_digitValue (c : ascii) :
  isDigit c = true -> digitChar (digitValue c) = c.
Proof.
  intros Hc. apply inRange_bounds in Hc.
  change (nat_of_ascii "0") with 48%nat in Hc.
  unfold digitChar, digitValue.
  replace (Z.to_nat (48 + (Z.of_nat (nat_of_ascii c) - 48)))
    with (nat_of_ascii c) by lia.
  apply ascii_nat_embedding.
Qed.

Lemma Number_pair (a b : ascii) :
  isDigit a = true -> isDigit b = true ->
  Number_ (String a (String b EmptyString))
  = Num (10 * digitValue a + digitValue b).
Proof.
  intros Ha Hb. unfold Number_. cbn [allDigits digitsValue].
  rewrite Ha, Hb. cbn [andb]. f_equal.
Qed.

Lemma Number_twoDigits (n : Z) :
  0 <= n < 100 -> Number_ (Intl.twoDigits n) = Num n.
Proof.
  intros Hn. unfold Intl.twoDigits.
  assert (Hq : 0 <= n / 10 <= 9).
  { split; [apply Z.div_pos; lia | apply Z.lt_succ_r, Z.div_lt_upper_bound; lia]. }
  assert (Hr : 0 <= n mod 10 <= 9) by (pose proof (Z.mod_pos_bound n 10); lia).
  rewrite Number_pair by (apply digitChar_isDigit; assumption).
  rewrite !digitValue_digitChar by assumption.
  f_equal. pose proof (Z.div_mod n 10). lia.
Qed.

End JsFacts.

(** ** The classifier *)

Module AdminViewFacts.

Import Js Types Intl AdminView JsFacts.

Lemma wallHour_range (t offset : Z) : 0 <= wallHour t offset < 24.
Proof. unfold wallHour. apply Z.mod_pos_bound. lia. Qed.

Lemma wallMinute_range (t offset : Z) : 0 <= wallMinute t offset < 60.
Proof. unfold wallMinute. apply Z.mod_pos_bound. lia. Qed.

(** A cutoff written as two digits, a colon and two digits, within the
    24-hour clock, is accepted and read back as written. *)
Lemma parseCutoffTime_render (ch cm : Z) :
  0 <= ch < 24 -> 0 <= cm < 60 ->
  parseCutoffTime (twoDigits ch ++ ":" ++ twoDigits cm)
  = Some {| hour := Num ch; minute := Num cm |}.
Proof.
  intros Hh Hm.
  pose proof (Number_twoDigits ch ltac:(lia)) as Nh.
  pose proof (Number_twoDigits cm ltac:(lia)) as Nm.
  unfold twoDigits in *. cbn [append]. unfold parseCutoffTime.
  rewrite Nh, Nm.
  assert (Hq : 0 <= ch / 10 <= 2).
  { split; [apply Z.div_pos; lia | apply Z.lt_succ_r, Z.div_lt_upper_bound; lia]. }
  assert (Hr : 0 <= ch mod 10 <= 9) by (pose proof (Z.mod_pos_bound ch 10); lia).
  assert (Hq' : 0 <= cm / 10 <= 5).
  { split; [apply Z.div_pos; lia | apply Z.lt_succ_r, Z.div_lt_upper_bound; lia]. }
  assert (Hr' : 0 <= cm mod 10 <= 9) by (pose proof (Z.mod_pos_bound cm 10); lia).
  rewrite (digitChar_isDigit (ch mod 10)), (digitChar_isDigit (cm mod 10)) by lia.
  assert (E5 : inRange "0" "5" (digitChar (cm / 10)) = true).
  { apply inRange_intro. rewrite nat_of_digitChar by lia.
    change (nat_of_ascii "0") with 48%nat.
    change (nat_of_ascii "5") with 53%nat. lia. }
  rewrite E5.
  assert (E : (inRange "0" "1" (digitChar (ch / 10)) && true
               || Ascii.eqb (digitChar (ch / 10)) "2"
                  && inRange "0" "3" (digitChar (ch mod 10))) = true).
  { destruct (Z.eq_dec (ch / 10) 2) as [E2 | N2].
    - rewrite E2. apply orb_true_iff. right.
      change (digitChar 2) with "2"%char. rewrite Ascii.eqb_refl. cbn [andb].
      apply inRange_intro. rewrite nat_of_digitChar by lia.
      change (nat_of_ascii "0") with 48%nat.
      change (nat_of_ascii "3") with 51%nat.
      pose proof (Z.div_mod ch 10). lia.
    - apply orb_true_iff. left. rewrite andb_true_r.
      apply inRange_intro. rewrite nat_of_digitChar by lia.
      change (nat_of_ascii "0") with 48%nat.
      change (nat_of_ascii "1") with 49%nat. lia. }
  rewrite E. reflexivity.
Qed.

(** Conversely, whatever the pattern accepts is such a rendering. *)
Lemma parseCutoffTime_sound (value : string) (T : TimeParts) :
  parseCutoffTime value = Some T ->
  exists ch cm,
    0 <= ch < 24 /\ 0 <= cm < 60 /\
    T = {| hour := Num ch; minute := Num cm |} /\
    value = twoDigits ch ++ ":" ++ twoDigits cm.
Proof.
  unfold parseCutoffTime.
  destruct value as [|h1 [|h2 [|sep [|m1 [|m2 [|? ?]]]]]]; try discriminate.
  destruct (_ && isDigit m2) eqn:E; [|discriminate].
  intros HT. injection HT as <-.
  rewrite !andb_true_iff in E. destruct E as [[[Hh Hsep] Hm1] Hm2].
  apply Ascii.eqb_eq in Hsep. subst sep.
  assert (Dm1 : isDigit m1 = true).
  { apply inRange_bounds in Hm1. apply inRange_intro.
    change (nat_of_ascii "5") with 53%nat in Hm1.
    change (nat_of_ascii "9") with 57%nat. lia. }
  assert (Dh : isDigit h1 = true /\ isDigit h2 = true
               /\ 0 <= 10 * digitValue h1 + digitValue h2 < 24).
  { apply orb_true_iff in Hh. destruct Hh as [Hh | Hh];
      apply andb_true_iff in Hh; destruct Hh as [Ha Hb].
    - pose proof (isDigit_value _ Hb).
      apply inRange_bounds in Ha.
      change (nat_of_ascii "0") with 48%nat in Ha.
      change (nat_of_ascii "1") with 49%nat in Ha.
      split; [|split].
      + apply inRange_intro. change (nat_of_ascii "0") with 48%nat.
        change (nat_of_ascii "9") with 57%nat. lia.
      + exact Hb.
      + unfold digitValue in *. lia.
    - apply Ascii.eqb_eq in Ha. subst h1.
      apply inRange_bounds in Hb.
      change (nat_of_ascii "0") with 48%nat in Hb.
      change (nat_of_ascii "3") with 51%nat in Hb.
      split; [reflexivity|split].
      + apply inRange_intro. change (nat_of_ascii "0") with 48%nat.
        change (nat_of_ascii "9") with 57%nat. lia.
      + unfold digitValue. change (Z.of_nat (nat_of_ascii "2")) with 50. lia. }
  destruct Dh as (Dh1 & Dh2 & Hrange).
  pose proof (isDigit_value _ Dh1) as V1. pose proof (isDigit_value _ Dh2) as V2.
  pose proof (isDigit_value _ Dm1) as V3. pose proof (isDigit_value _ Hm2) as V4.
  assert (V3' : digitValue m1 <= 5).
  { apply inRange_bounds in Hm1.
    change (nat_of_ascii "5") with 53%nat in Hm1. unfold digitValue. lia. }
  exists (10 * digitValue h1 + digitValue h2), (10 * digitValue m1 + digitValue m2).
  split; [exact Hrange|]. split; [lia|].
  rewrite !Number_pair by assumption. split; [reflexivity|].
  unfold twoDigits. cbn [append].
  replace ((10 * digitValue h1 + digitValue h2) / 10) with (digitValue h1)
    by (apply Z.div_unique with (r := digitValue h2); lia).
  replace ((10 * digitValue h1 + digitValue h2) mod 10) with (digitValue h2)
    by (apply Z.mod_unique with (q := digitValue h1); lia).
  replace ((10 * digitValue m1 + digitValue m2) / 10) with (digitValue m1)
    by (apply Z.div_unique with (r := digitValue m2); lia).
  replace ((10 * digitValue m1 + digitValue m2) mod 10) with (digitValue m2)
    by (apply Z.mod_unique with (q := digitValue m1); lia).
  rewrite !digitChar_digitValue by assumption. reflexivity.
Qed.

Section WithClock.

Context `{Clock}.

(** With a timestamp that parses and a formatter, the parts read back are
    the wall-clock hour and minute. *)
Lemma partNumbers_formatToParts (formatter : Z -> Z) (date : Z) :
  partNumber "hour" (formatToParts formatter date)
  = Num (wallHour date (formatter date))
  /\ partNumber "minute" (formatToParts formatter date)
     = Num (wallMinute date (formatter date)).
Proof.
  unfold partNumber, formatToParts. cbn [find part_type part_value String.eqb Ascii.eqb Bool.eqb].
  pose proof (wallHour_range date (formatter date)).
  pose proof (wallMinute_range date (formatter date)).
  split; apply Number_twoDigits; lia.
Qed.

Lemma getLocalTimeParts_in_zone (iso z : string) (date : Z) (offsets : Z -> Z) :
  Date_parse iso = Some date ->
  zone_offset z = Some offsets ->
  getLocalTimeParts iso (Some z)
  = {| hour := Num (wallHour date (offsets date));
       minute := Num (wallMinute date (offsets date)) |}.
Proof.
  intros Hd Hz. unfold getLocalTimeParts, DateTimeFormat. rewrite Hd, Hz.
  cbv zeta. destruct (partNumbers_formatToParts offsets date) as [-> ->].
  reflexivity.
Qed.

Lemma getLocalTimeParts_invalid (iso : string) (timeZone : option string) :
  Date_parse iso = None ->
  getLocalTimeParts iso timeZone = {| hour := Num 0; minute := Num 0 |}.
Proof. intros Hd. unfold getLocalTimeParts. rewrite Hd. reflexivity. Qed.

(** The three-way test of [resolveStatus] on numeric parts. *)
Lemma resolveStatus_numeric (item : AttendanceRecord) (cutoffTime : string)
  (h m ch cm : Z) :
  getLocalTimeParts (capturedAt item) (timezone item)
  = {| hour := Num h; minute := Num m |} ->
  parseCutoffTime cutoffTime = Some {| hour := Num ch; minute := Num cm |} ->
  resolveStatus item cutoffTime
  = if h <? ch then OnTime
    else if (h =? ch) && (m <=? cm) then OnTime else Late.
Proof.
  intros Hl Hc. unfold resolveStatus. rewrite Hl, Hc. reflexivity.
Qed.

End WithClock.

End AdminViewFacts.

(** ** The formatters and the rows built with them *)

Module FormatFacts.

Import Js Types Intl Format AdminView UserHistoryPanel FormatTerms.

Lemma mapThrowing_returned {A B : Type} (callback : A -> Completion B)
  (l : list A) (bs : list B) :
  mapThrowing callback l = Returned bs
  <-> Forall2 (fun a b => callback a = Returned b) l bs.
Proof.
  revert bs. induction l as [|a l IH]; intros bs; cbn [mapThrowing].
  - split.
    + intros E. injection E as <-. constructor.
    + intros F. inversion F. reflexivity.
  - destruct (callback a) as [b|] eqn:Ea.
    + destruct (mapThrowing callback l) as [bs'|].
      * split.
        -- intros E. injection E as <-. constructor; [exact Ea|].
           apply IH. reflexivity.
        -- intros F. inversion F as [|? b0 ? bs0 Hb Hrest]; subst.
           apply IH in Hrest. congruence.
      * split; [discriminate|].
        intros F. inversion F as [|? b0 ? bs0 Hb Hrest]; subst.
        apply IH in Hrest. discriminate.
    + split; [discriminate|].
      intros F. inversion F as [|? b0 ? bs0 Hb Hrest]; subst. congruence.
Qed.

Lemma mapThrowing_throws {A B : Type} (callback : A -> Completion B) (l : list A) :
  mapThrowing callback l = RangeError
  <-> Exists (fun a => callback a = RangeError) l.
Proof.
  induction l as [|a l IH]; cbn [mapThrowing].
  - split; [discriminate | intros E; inversion E].
  - destruct (callback a) as [b|] eqn:Ea.
    + destruct (mapThrowing callback l) as [bs'|].
      * split; [discriminate|].
        intros E. inversion E as [? ? Hhere | ? ? Hlater]; subst;
          [congruence | apply IH in Hlater; discriminate].
      * split; [|reflexivity]. intros _. right. apply IH. reflexivity.
    + split; [|reflexivity]. intros _. left. exact Ea.
Qed.

Lemma mapThrowing_built {A B : Type} (callback : A -> Completion B) (l : list A) :
  (exists bs, mapThrowing callback l = Returned bs)
  <-> Forall (fun a => callback a <> RangeError) l.
Proof.
  split.
  - intros [bs E]. apply Forall_forall. intros a Ha Hthrow.
    assert (T : mapThrowing callback l = RangeError).
    { apply mapThrowing_throws. apply Exists_exists. exists a. split; assumption. }
    congruence.
  - intros F. destruct (mapThrowing callback l) as [bs|] eqn:E;
      [exists bs; reflexivity|].
    apply mapThrowing_throws in E. apply Exists_exists in E.
    destruct E as (a & Ha & Hthrow).
    rewrite Forall_forall in F. contradiction (F a Ha Hthrow).
Qed.

Section WithClock.

Context `{Clock}.

(** The formatters throw on exactly the records of [zoneUnknown]. *)
Lemma formatTime_throws (item : AttendanceRecord) :
  formatTime (capturedAt item) (timezone item) = RangeError
  <-> zoneUnknown item = true.
Proof.
  unfold formatTime, zoneUnknown, DateTimeFormat, timeZoneOption.
  destruct (Date_parse (capturedAt item)); [|split; discriminate].
  destruct (timezone item) as [[|c zone]|]; cbn [String.eqb negb andb];
    try (split; discriminate).
  destruct (zone_offset (String c zone));
    split; (discriminate || reflexivity).
Qed.


Lemma attendanceRow_throws (cutoffTime : string) (item : AttendanceRecord) :
  attendanceRow cutoffTime item = RangeError <-> zoneUnknown item = true.
Proof.
  rewrite <- formatTime_throws. unfold attendanceRow. cbv zeta.
  destruct (formatTime (capturedAt item) (timezone item));
    split; (discriminate || reflexivity).
Qed.

Lemma attendanceRow_returned (cutoffTime : string) (item : AttendanceRecord)
  (row : AdminRow) :
  attendanceRow cutoffTime item = Returned row ->
  row_status row = resolveStatus item cutoffTime
  /\ row_raw row = Some item
  /\ formatTime (capturedAt item) (timezone item) = Returned (row_time row).
Proof.
  unfold attendanceRow. cbv zeta.
  destruct (formatTime (capturedAt item) (timezone item)) as [time|];
    [|discriminate].
  intros E. injection E as <-. repeat split.
Qed.



Lemma not_true_false (b : bool) : b <> true <-> b = false.
Proof. destruct b; split; congruence. Qed.

(** The daily rows are built exactly when every record can be displayed,
    and then there is one row per record, in the order of the records. *)
Lemma attendanceRows_built (items : list AttendanceRecord) (cutoffTime : string) :
  (exists rows, attendanceRows items cutoffTime = Returned rows)
  <-> Forall (fun item => zoneUnknown item = false) items.
Proof.
  unfold attendanceRows. rewrite mapThrowing_built. rewrite !Forall_forall.
  split; intros F item Hitem; specialize (F item Hitem).
  - apply not_true_false. intros U. apply F.
    apply (attendanceRow_throws cutoffTime). exact U.
  - intros T. apply (attendanceRow_throws cutoffTime) in T. congruence.
Qed.

Lemma attendanceRows_throws (items : list AttendanceRecord) (cutoffTime : string) :
  attendanceRows items cutoffTime = RangeError
  <-> Exists (fun item => zoneUnknown item = true) items.
Proof.
  unfold attendanceRows. rewrite mapThrowing_throws. rewrite !Exists_exists.
  split; intros (item & Hitem & U); exists item; (split; [exact Hitem|]);
    apply (attendanceRow_throws cutoffTime); exact U.
Qed.

Lemma attendanceRows_returned (items : list AttendanceRecord) (cutoffTime : string)
  (rows : list AdminRow) :
  attendanceRows items cutoffTime = Returned rows ->
  map row_status rows = map (fun item => resolveStatus item cutoffTime) items
  /\ map row_raw rows = map Some items.
Proof.
  unfold attendanceRows. rewrite mapThrowing_returned.
  induction 1 as [|item row items rows Hrow _ IH]; [split; reflexivity|].
  destruct (attendanceRow_returned _ _ _ Hrow) as (Hs & Hr & _).
  destruct IH as [IHs IHr]. cbn [map]. rewrite Hs, Hr, IHs, IHr.
  split; reflexivity.
Qed.



End WithClock.

End FormatFacts.

(** ** Properties of classification *)

Module Classification.

Import Js Types Intl Format AdminView UserHistoryPanel FormatTerms.
Import JsFacts AdminViewFacts FormatFacts.
Import ReferenceHost.

(** C1.  For a record whose timestamp parses to the instant [date] and
    whose zone [z] is known, and for every cutoff string the HH:mm pattern
    accepts (it is then two digits, a colon and two digits, [ch:cm] on the
    24-hour clock), the classifier answers "On time" exactly when the
    wall-clock hour and minute of the instant in zone [z] are at or before
    the cutoff: an earlier hour, or the same hour and a minute not after
    the cutoff's (the cutoff minute itself is on time); every later time
    is "Late".  The same comparison, counted in minutes of the day. *)
Theorem resolveStatus_on_time_iff `{Clock}
  (item : AttendanceRecord) (z : string) (offsets : Z -> Z) (date : Z)
  (cutoffTime : string) (T : TimeParts) :
  timezone item = Some z ->
  zone_offset z = Some offsets ->
  Date_parse (capturedAt item) = Some date ->
  parseCutoffTime cutoffTime = Some T ->
  exists ch cm : Z,
    0 <= ch < 24 /\ 0 <= cm < 60
    /\ cutoffTime = twoDigits ch ++ ":" ++ twoDigits cm
    /\ let h := wallHour date (offsets date) in
       let m := wallMinute date (offsets date) in
       let verdict := resolveStatus item cutoffTime in
       (verdict = OnTime <-> h < ch \/ (h = ch /\ m <= cm))
       /\ (verdict = Late <-> ~ (h < ch \/ (h = ch /\ m <= cm)))
       /\ (verdict = OnTime <-> 60 * h + m <= 60 * ch + cm).
Proof.
  intros Hz Hoff Hdate Hcut.
  destruct (parseCutoffTime_sound _ _ Hcut) as (ch & cm & Hh & Hm & -> & Hrender).
  exists ch, cm. split; [exact Hh|]. split; [exact Hm|]. split; [exact Hrender|].
  intros h m verdict.
  assert (E : verdict = if h <? ch then OnTime
                        else if (h =? ch) && (m <=? cm) then OnTime else Late).
  { apply resolveStatus_numeric.
    - rewrite Hz. apply getLocalTimeParts_in_zone; assumption.
    - exact Hcut. }
  pose proof (wallMinute_range date (offsets date)) as Rm. fold m in Rm.
  rewrite E. clear E verdict.
  destruct (Z.ltb_spec h ch) as [Lt | Ge].
  - repeat split; intros; try lia; try reflexivity; try discriminate.
  - destruct (Z.eqb_spec h ch) as [Eq | Ne]; cbn [andb].
    + destruct (Z.leb_spec m cm) as [Le | Gt].
      * repeat split; intros; try lia; try reflexivity; try discriminate.
      * repeat split; intros; try lia; try reflexivity; try discriminate.
    + repeat split; intros; try lia; try reflexivity; try discriminate.
Qed.

(** The theorem at 08:00 on the Lagos wall clock against the cutoff 08:00:
    the boundary minute is on time. *)
Lemma resolveStatus_on_time_iff_witness :
  exists ch cm : Z,
    0 <= ch < 24 /\ 0 <= cm < 60
    /\ "08:00" = twoDigits ch ++ ":" ++ twoDigits cm
    /\ (resolveStatus Samples.atEight "08:00" = OnTime
        <-> 8 < ch \/ (8 = ch /\ 0 <= cm))
    /\ (resolveStatus Samples.atEight "08:00" = Late
        <-> ~ (8 < ch \/ (8 = ch /\ 0 <= cm)))
    /\ (resolveStatus Samples.atEight "08:00" = OnTime
        <-> 60 * 8 + 0 <= 60 * ch + cm).
Proof.
  exact (resolveStatus_on_time_iff
           Samples.atEight "Africa/Lagos" (fun _ => 60) 1709276400000
           "08:00" {| hour := Num 8; minute := Num 0 |}
           eq_refl eq_refl eq_refl eq_refl).
Defined.

(** The spec's three sample times against the cutoff 08:00. *)
Example cutoff_0800_samples :
  resolveStatus (Samples.checkIn "2024-03-01T06:59:00Z" (Some "Africa/Lagos") None)
                "08:00" = OnTime
  /\ resolveStatus (Samples.checkIn "2024-03-01T07:00:00Z" (Some "Africa/Lagos") None)
                   "08:00" = OnTime
  /\ resolveStatus (Samples.checkIn "2024-03-01T07:01:00Z" (Some "Africa/Lagos") None)
                   "08:00" = Late.
Proof. repeat split; vm_compute; reflexivity. Qed.

(** C10.  [resolveStatus] answers for every record and every cutoff
    string, and always "On time" or "Late".  A cutoff string that the
    HH:mm pattern rejects is read as 08:00; a timestamp that does not parse
    is read as 00:00 on the wall clock, and such a record is "On time"
    whatever the cutoff string. *)
Theorem resolveStatus_silent_defaults `{Clock}
  (item : AttendanceRecord) (cutoffTime : string) :
  (resolveStatus item cutoffTime = OnTime \/ resolveStatus item cutoffTime = Late)
  /\ (parseCutoffTime cutoffTime = None ->
      resolveStatus item cutoffTime = resolveStatus item "08:00")
  /\ (Date_parse (capturedAt item) = None ->
      getLocalTimeParts (capturedAt item) (timezone item)
      = {| hour := Num 0; minute := Num 0 |}
      /\ resolveStatus item cutoffTime = OnTime).
Proof.
  split; [|split].
  - unfold resolveStatus.
    destruct (lt _ _); [left; reflexivity|].
    destruct (_ && _); [left | right]; reflexivity.
  - intros Hc. unfold resolveStatus. rewrite Hc. reflexivity.
  - intros Hd. split; [apply getLocalTimeParts_invalid; exact Hd|].
    unfold resolveStatus. rewrite (getLocalTimeParts_invalid _ _ Hd).
    destruct (parseCutoffTime cutoffTime) as [T|] eqn:Hc; [|reflexivity].
    destruct (parseCutoffTime_sound _ _ Hc) as (ch & cm & Hh & Hm & -> & _).
    cbn [hour minute lt le strictEq].
    destruct (Z.ltb_spec 0 ch); [reflexivity|].
    replace ch with 0 by lia. cbn [Z.eqb andb].
    destruct (Z.leb_spec 0 cm); [reflexivity | lia].
Qed.

(** The theorem on the reference host: a malformed cutoff, and a record
    whose timestamp does not parse against the earliest cutoff. *)
Lemma resolveStatus_silent_defaults_witness :
  resolveStatus Samples.atEight "8 o'clock" = resolveStatus Samples.atEight "08:00"
  /\ resolveStatus Samples.unparseable "00:00" = OnTime.
Proof.
  split.
  - exact (proj1 (proj2 (resolveStatus_silent_defaults
                           Samples.atEight "8 o'clock")) eq_refl).
  - exact (proj2 (proj2 (proj2 (resolveStatus_silent_defaults
                                  Samples.unparseable "00:00")) eq_refl)).
Defined.




End Classification.

(** ** The ladder, run against any world *)

Module LocationFacts.

Import Js Types Effects Location.

Lemma isRetryable_geolocation_error (code : Z) (message : string) :
  code <> PERMISSION_DENIED ->
  isRetryableError (GeolocationPositionError code message) = true.
Proof.
  intros Hc. unfold isRetryableError, GeolocationPositionError.
  cbn [thr_isObject thr_code thr_message isSome codeIs andb orb].
  destruct (Z.eqb_spec code PERMISSION_DENIED); [contradiction | reflexivity].
Qed.

Lemma permission_denied_not_retryable (e : Thrown) :
  thr_code e = Some (CodeNum PERMISSION_DENIED) -> isRetryableError e = false.
Proof.
  intros Hc. unfold isRetryableError. rewrite Hc.
  cbn [codeIs isSome]. rewrite Z.eqb_refl, andb_false_r. reflexivity.
Qed.

Lemma mapGeoError_permission_denied (e : Thrown) :
  thr_isObject e = true ->
  thr_code e = Some (CodeNum PERMISSION_DENIED) ->
  mapGeoError e
  = newError "Location permission denied. Please allow location access and retry.".
Proof.
  intros Ho Hc. unfold mapGeoError. rewrite Ho, Hc. reflexivity.
Qed.

Section Ladder.

Context {W : Type} `{Browser W}.

(** Every run of the ladder, spelled out on the answers of the world. *)
Lemma ladder_run (r : Run W) :
  mayLocate ->
  getDeviceLocation r =
  match geo_getCurrentPosition tier1Options (world r) with
  | (Resolved p1, w1) => (Resolved (formatPosition p1), mkRun w1 (log r ++ [g1]))
  | (Rejected e1, w1) =>
      if isRetryableError e1 then
        let '(watchId, o2, w2) := geo_watchPosition tier2Options w1 in
        let r2 := mkRun (geo_clearWatch watchId w2)
                        (log r ++ [g1; g2; ClearWatch watchId]) in
        match o2 with
        | Resolved p2 => (Resolved (formatPosition p2), r2)
        | Rejected e2 =>
            if isRetryableError e2 then
              match geo_getCurrentPosition tier3Options (world r2) with
              | (Resolved p3, w3) =>
                  (Resolved (formatPosition p3), mkRun w3 (log r2 ++ [g3]))
              | (Rejected e3, w3) =>
                  (Rejected (mapGeoError e3), mkRun w3 (log r2 ++ [g3]))
              end
            else (Rejected (mapGeoError e2), r2)
        end
      else (Rejected (mapGeoError e1), mkRun w1 (log r ++ [g1]))
  end.
Proof.
  intros [Hnav Hsec]. unfold getDeviceLocation. rewrite Hnav. cbn [negb].
  assert (G : negb window_isSecureContext
              && negb (String.eqb window_hostname "localhost") = false).
  { destruct Hsec as [-> | ->]; [reflexivity|].
    rewrite String.eqb_refl. apply andb_false_r. }
  rewrite G. unfold tryCatch at 1. unfold bind at 1.
  unfold getPosition at 1. unfold issue at 1.
  destruct (geo_getCurrentPosition tier1Options (world r)) as [[p1 | e1] w1];
    [reflexivity|].
  destruct (isRetryableError e1); [|reflexivity].
  unfold tryCatch at 1. unfold bind at 1. unfold getPositionWithWatch.
  cbn [world log].
  destruct (geo_watchPosition tier2Options w1) as [[watchId [p2 | e2]] w2].
  - unfold ret. rewrite <- !app_assoc. reflexivity.
  - destruct (isRetryableError e2).
    + unfold tryCatch, bind, getPosition, issue. cbn [world log].
      rewrite <- !app_assoc. cbn [app].
      destruct (geo_getCurrentPosition tier3Options (geo_clearWatch watchId w2))
        as [[p3 | e3] w3]; reflexivity.
    + unfold throw. rewrite <- !app_assoc. reflexivity.
Qed.

(** The device requests of a run are an initial part of the four requests
    of the ladder. *)
Lemma ladder_requests (r : Run W) :
  exists (watchId : Z) (n : nat),
    log (snd (getDeviceLocation r))
    = (log r ++ firstn n [g1; g2; ClearWatch watchId; g3])%list
    /\ (mayLocate -> (1 <= n)%nat).
Proof.
  destruct navigator_geolocation eqn:Hnav.
  2:{ exists 0, 0%nat. split.
      - unfold getDeviceLocation. rewrite Hnav. cbn. rewrite app_nil_r. reflexivity.
      - intros [Hn _]. congruence. }
  destruct (negb window_isSecureContext
            && negb (String.eqb window_hostname "localhost")) eqn:Hsec.
  { exists 0, 0%nat. split.
    - unfold getDeviceLocation. rewrite Hnav, Hsec. cbn. rewrite app_nil_r.
      reflexivity.
    - intros [_ [Hs | Hs]]; rewrite Hs in Hsec;
        [discriminate | rewrite String.eqb_refl, andb_false_r in Hsec; discriminate]. }
  assert (Hmay : mayLocate).
  { split; [exact Hnav|]. apply andb_false_iff in Hsec.
    destruct Hsec as [Hs | Hs]; apply negb_false_iff in Hs;
      [left; exact Hs | right; apply String.eqb_eq; exact Hs]. }
  rewrite (ladder_run r Hmay).
  destruct (geo_getCurrentPosition tier1Options (world r)) as [[p1 | e1] w1].
  { exists 0, 1%nat. split; [reflexivity | intros _; lia]. }
  destruct (isRetryableError e1).
  2:{ exists 0, 1%nat. split; [reflexivity | intros _; lia]. }
  destruct (geo_watchPosition tier2Options w1) as [[watchId [p2 | e2]] w2].
  { exists watchId, 3%nat. split; [reflexivity | intros _; lia]. }
  destruct (isRetryableError e2).
  2:{ exists watchId, 3%nat. split; [reflexivity | intros _; lia]. }
  cbn [world log].
  destruct (geo_getCurrentPosition tier3Options (geo_clearWatch watchId w2))
    as [[p3 | e3] w3];
    exists watchId, 4%nat; cbn [snd log]; rewrite <- app_assoc;
    (split; [reflexivity | intros _; lia]).
Qed.

End Ladder.

End LocationFacts.

(** ** Rounding *)

Module RoundingFacts.

Import Types Location.

(** [Qfloor (y + 1/2)] is an integer nearest to [y]. *)
Lemma round_half_bounds (y : Q) :
  (inject_Z (Qfloor (y + (1 # 2))) - (1 # 2) <= y
   /\ y < inject_Z (Qfloor (y + (1 # 2))) + (1 # 2))%Q.
Proof.
  pose proof (Qfloor_le (y + (1 # 2))) as L.
  pose proof (Qlt_floor (y + (1 # 2))) as U.
  rewrite inject_Z_plus in U. change (inject_Z 1) with 1%Q in U.
  split; lra.
Qed.

Lemma length_append (s1 s2 : string) :
  String.length (s1 ++ s2) = (String.length s1 + String.length s2)%nat.
Proof.
  induction s1 as [|c s1 IH]; cbn [append String.length plus];
    [reflexivity | rewrite IH; reflexivity].
Qed.

Lemma fractionDigits_length (f : nat) (n : Z) :
  String.length (fractionDigits f n) = f.
Proof.
  revert n. induction f as [|f IH]; intros n; cbn [fractionDigits]; [reflexivity|].
  rewrite length_append, IH. cbn [String.length]. lia.
Qed.

(** [x.toFixed(5)] writes the multiple of 0.00001 nearest to [x]: sign,
    integer part, point, five digits. *)
Lemma toFixed_5_nearest (x : number) :
  exists n : Z,
    (inject_Z n - (1 # 2) <= Qabs x * 100000
     /\ Qabs x * 100000 < inject_Z n + (1 # 2))%Q
    /\ toFixed x 5
       = (if Qle_bool 0 x then "" else "-")
         ++ showInteger (n / 100000)
         ++ "." ++ fractionDigits 5 (n mod 100000)
    /\ String.length (fractionDigits 5 (n mod 100000)) = 5%nat.
Proof.
  exists (scaled (Qabs x) 5). split; [|split].
  - unfold scaled. change (inject_Z (10 ^ Z.of_nat 5)) with 100000%Q.
    apply round_half_bounds.
  - reflexivity.
  - apply fractionDigits_length.
Qed.

End RoundingFacts.

(** ** Properties of the location ladder *)

Module LocationClaims.

Import Js Types Effects Location LocationFacts RoundingFacts.

Section Claims.

Context {W : Type} `{Browser W}.

(** C2.  When a tier of the ladder fails with a permission-denied error
    (an error object whose code is PERMISSION_DENIED), the ladder stops
    there: the caller gets the permission-denied message, and the log of
    device requests ends with that tier's request.  Denied at tier 1, only
    the tier-1 request was issued; denied at tier 2, only tier 1 and the
    watch (with its cancellation); denied at tier 3, the three tiers. *)
Theorem permission_denied_aborts_ladder (r : Run W) (e : Thrown) :
  mayLocate ->
  thr_isObject e = true ->
  thr_code e = Some (CodeNum PERMISSION_DENIED) ->
  let deniedError :=
    newError "Location permission denied. Please allow location access and retry." in
  (forall w1,
      geo_getCurrentPosition tier1Options (world r) = (Rejected e, w1) ->
      getDeviceLocation r = (Rejected deniedError, mkRun w1 (log r ++ [g1])))
  /\ (forall e1 w1 watchId w2,
         geo_getCurrentPosition tier1Options (world r) = (Rejected e1, w1) ->
         isRetryableError e1 = true ->
         geo_watchPosition tier2Options w1 = (watchId, Rejected e, w2) ->
         getDeviceLocation r
         = (Rejected deniedError,
            mkRun (geo_clearWatch watchId w2)
                  (log r ++ [g1; g2; ClearWatch watchId])))
  /\ (forall e1 w1 watchId e2 w2 w3,
         geo_getCurrentPosition tier1Options (world r) = (Rejected e1, w1) ->
         isRetryableError e1 = true ->
         geo_watchPosition tier2Options w1 = (watchId, Rejected e2, w2) ->
         isRetryableError e2 = true ->
         geo_getCurrentPosition tier3Options (geo_clearWatch watchId w2)
         = (Rejected e, w3) ->
         getDeviceLocation r
         = (Rejected deniedError,
            mkRun w3 (log r ++ [g1; g2; ClearWatch watchId; g3]))).
Proof.
  intros Hmay Ho Hc deniedError.
  pose proof (permission_denied_not_retryable e Hc) as Hn.
  pose proof (mapGeoError_permission_denied e Ho Hc) as Hm.
  split; [|split].
  - intros w1 H1. rewrite (ladder_run r Hmay), H1, Hn, Hm. reflexivity.
  - intros e1 w1 watchId w2 H1 R1 H2.
    rewrite (ladder_run r Hmay), H1, R1, H2. cbv zeta. rewrite Hn, Hm.
    reflexivity.
  - intros e1 w1 watchId e2 w2 w3 H1 R1 H2 R2 H3.
    rewrite (ladder_run r Hmay), H1, R1, H2. cbv zeta. rewrite R2.
    cbn [world log]. rewrite H3, Hm, <- app_assoc. reflexivity.
Qed.

(** C3.  Failures other than permission denial reported by the service
    (timeout, position unavailable, any other code) are retryable.  A
    success at tier 1 is returned at once.  A retryable failure at tier 1
    moves to the watch of tier 2, whose watch is cleared; a retryable
    failure there moves to tier 3, and nothing follows tier 3.  The caller
    gets the position of the tier that succeeded, or the mapped error of
    the last tier tried; the errors of the earlier tiers appear nowhere in
    the result. *)
Theorem retryable_failures_escalate (r : Run W) :
  mayLocate ->
  (forall code message,
      code <> PERMISSION_DENIED ->
      isRetryableError (GeolocationPositionError code message) = true)
  /\ (forall p1 w1,
         geo_getCurrentPosition tier1Options (world r) = (Resolved p1, w1) ->
         getDeviceLocation r
         = (Resolved (formatPosition p1), mkRun w1 (log r ++ [g1])))
  /\ (forall e1 w1 watchId o2 w2 o3 w3,
         geo_getCurrentPosition tier1Options (world r) = (Rejected e1, w1) ->
         isRetryableError e1 = true ->
         geo_watchPosition tier2Options w1 = (watchId, o2, w2) ->
         geo_getCurrentPosition tier3Options (geo_clearWatch watchId w2)
         = (o3, w3) ->
         getDeviceLocation r
         = match o2 with
           | Resolved p2 =>
               (Resolved (formatPosition p2),
                mkRun (geo_clearWatch watchId w2)
                      (log r ++ [g1; g2; ClearWatch watchId]))
           | Rejected e2 =>
               if isRetryableError e2 then
                 (match o3 with
                  | Resolved p3 => Resolved (formatPosition p3)
                  | Rejected e3 => Rejected (mapGeoError e3)
                  end,
                  mkRun w3 (log r ++ [g1; g2; ClearWatch watchId; g3]))
               else
                 (Rejected (mapGeoError e2),
                  mkRun (geo_clearWatch watchId w2)
                        (log r ++ [g1; g2; ClearWatch watchId]))
           end).
Proof.
  intros Hmay. split; [|split].
  - intros code message. apply isRetryable_geolocation_error.
  - intros p1 w1 H1. rewrite (ladder_run r Hmay), H1. reflexivity.
  - intros e1 w1 watchId o2 w2 o3 w3 H1 R1 H2 H3.
    rewrite (ladder_run r Hmay), H1, R1, H2. cbv zeta.
    destruct o2 as [p2 | e2]; [reflexivity|].
    destruct (isRetryableError e2); [|reflexivity].
    cbn [world log]. rewrite H3, <- app_assoc.
    destruct o3; reflexivity.
Qed.

(** C7.  The three tiers ask the device with exactly these parameters:
    tier 1, a single request with high accuracy, 12000 ms and no cached
    fix (maximum age 0); tier 2, a watch with high accuracy, 20000 ms and
    maximum age 0, followed by its cancellation; tier 3, a single request
    with low accuracy, 20000 ms and a cached fix at most 60000 ms old.
    Whatever the world answers, the requests of a run are an initial part
    of this list.  When the guards let the run reach the device, tier 1 is
    always asked; the watch is started, and cleared, exactly when tier 1
    fails with a retryable error; tier 3 is asked exactly when the watch
    fails with a retryable error too.  The run leaves the world the
    service left after the last of these calls. *)
Theorem tier_parameters (r : Run W) :
  let tier1 := {| enableHighAccuracy := true; timeout := 12000; maximumAge := 0 |} in
  let tier2 := {| enableHighAccuracy := true; timeout := 20000; maximumAge := 0 |} in
  let tier3 :=
    {| enableHighAccuracy := false; timeout := 20000; maximumAge := 60000 |} in
  let retryable (o : Outcome GeolocationPosition) :=
    match o with
    | Resolved _ => false
    | Rejected e => isRetryableError e
    end in
  (exists (watchId : Z) (n : nat),
      log (snd (getDeviceLocation r))
      = (log r
        ++ firstn n [ GetCurrentPosition tier1; WatchPosition tier2;
                      ClearWatch watchId; GetCurrentPosition tier3 ])%list
      /\ (mayLocate -> (1 <= n)%nat))
  /\ (mayLocate ->
      forall o1 w1 watchId o2 w2 o3 w3,
        geo_getCurrentPosition tier1 (world r) = (o1, w1) ->
        geo_watchPosition tier2 w1 = (watchId, o2, w2) ->
        geo_getCurrentPosition tier3 (geo_clearWatch watchId w2) = (o3, w3) ->
        snd (getDeviceLocation r)
        = if retryable o1 then
            if retryable o2 then
              mkRun w3
                    (log r ++ [ GetCurrentPosition tier1; WatchPosition tier2;
                                ClearWatch watchId; GetCurrentPosition tier3 ])
            else
              mkRun (geo_clearWatch watchId w2)
                    (log r ++ [ GetCurrentPosition tier1; WatchPosition tier2;
                                ClearWatch watchId ])
          else mkRun w1 (log r ++ [ GetCurrentPosition tier1 ])).
Proof.
  cbv zeta. split.
  - destruct (ladder_requests r) as (watchId & n & Hlog & Hn).
    exists watchId, n. split; [exact Hlog | exact Hn].
  - intros Hmay o1 w1 watchId o2 w2 o3 w3 H1 H2 H3.
    pose proof (ladder_run r Hmay) as L.
    unfold g1, g2, g3, tier1Options, tier2Options, tier3Options in L.
    rewrite H1 in L. rewrite L. clear L.
    destruct o1 as [p1 | e1]; [reflexivity|].
    destruct (isRetryableError e1); [|reflexivity].
    rewrite H2. cbv zeta.
    destruct o2 as [p2 | e2]; [reflexivity|].
    destruct (isRetryableError e2); [|reflexivity].
    cbn [world log]. rewrite H3, <- app_assoc.
    destruct o3; reflexivity.
Qed.

(** C9.  A position returned by the ladder is the formatted fix of one of
    the tiers: its source is gps; its accuracy is the integer nearest to
    the reported accuracy; its label reads "GPS lat, lng (+/-accm)", where
    lat and lng are the coordinates written with five decimals, each the
    nearest multiple of 0.00001, and acc is the rounded accuracy.  The
    latitude and longitude fields keep the reported values. *)
Theorem gps_fix_format (r r' : Run W) (result : LocationResult) :
  getDeviceLocation r = (Resolved result, r') ->
  exists position : GeolocationPosition,
    ((exists w w', geo_getCurrentPosition tier1Options w = (Resolved position, w'))
     \/ (exists w watchId w',
            geo_watchPosition tier2Options w = (watchId, Resolved position, w'))
     \/ (exists w w', geo_getCurrentPosition tier3Options w = (Resolved position, w')))
    /\ result = formatPosition position
    /\ source result = gps
    /\ (exists acc : Z,
           accuracy result = Some (inject_Z acc)
           /\ (inject_Z acc - (1 # 2) <= coords_accuracy position
               /\ coords_accuracy position < inject_Z acc + (1 # 2))%Q
           /\ label result
              = "GPS " ++ toFixed (coords_latitude position) 5
                ++ ", " ++ toFixed (coords_longitude position) 5
                ++ " (+/-" ++ showInteger acc ++ "m)")
    /\ (forall x, x = coords_latitude position \/ x = coords_longitude position ->
        exists n : Z,
          (inject_Z n - (1 # 2) <= Qabs x * 100000
           /\ Qabs x * 100000 < inject_Z n + (1 # 2))%Q
          /\ toFixed x 5
             = (if Qle_bool 0 x then "" else "-")
               ++ showInteger (n / 100000)
               ++ "." ++ fractionDigits 5 (n mod 100000)
          /\ String.length (fractionDigits 5 (n mod 100000)) = 5%nat)
    /\ latitude result = coords_latitude position
    /\ longitude result = coords_longitude position.
Proof.
  intros Hrun.
  assert (Hfrom : exists position,
             ((exists w w',
                  geo_getCurrentPosition tier1Options w = (Resolved position, w'))
              \/ (exists w watchId w',
                     geo_watchPosition tier2Options w
                     = (watchId, Resolved position, w'))
              \/ (exists w w',
                     geo_getCurrentPosition tier3Options w
                     = (Resolved position, w')))
             /\ result = formatPosition position).
  { destruct navigator_geolocation eqn:Hnav.
    2:{ unfold getDeviceLocation in Hrun. rewrite Hnav in Hrun. discriminate. }
    destruct (negb window_isSecureContext
              && negb (String.eqb window_hostname "localhost")) eqn:Hsec.
    { unfold getDeviceLocation in Hrun. rewrite Hnav, Hsec in Hrun. discriminate. }
    assert (Hmay : mayLocate).
    { split; [exact Hnav|]. apply andb_false_iff in Hsec.
      destruct Hsec as [Hs | Hs]; apply negb_false_iff in Hs;
        [left; exact Hs | right; apply String.eqb_eq; exact Hs]. }
    rewrite (ladder_run r Hmay) in Hrun.
    destruct (geo_getCurrentPosition tier1Options (world r))
      as [[p1 | e1] w1] eqn:H1.
    { injection Hrun as <- _. exists p1. split; [|reflexivity].
      left. eauto. }
    destruct (isRetryableError e1); [|discriminate].
    destruct (geo_watchPosition tier2Options w1)
      as [[watchId [p2 | e2]] w2] eqn:H2.
    { injection Hrun as <- _. exists p2. split; [|reflexivity].
      right; left. eauto. }
    destruct (isRetryableError e2); [|discriminate].
    cbn [world log] in Hrun.
    destruct (geo_getCurrentPosition tier3Options (geo_clearWatch watchId w2))
      as [[p3 | e3] w3] eqn:H3; [|discriminate].
    injection Hrun as <- _. exists p3. split; [|reflexivity].
    right; right. eauto. }
  destruct Hfrom as (position & Hsrc & ->).
  exists position. split; [exact Hsrc|]. split; [reflexivity|].
  split; [reflexivity|]. split; [|split; [|split; reflexivity]].
  - exists (Math_round (coords_accuracy position)).
    split; [reflexivity|]. split; [|reflexivity].
    apply round_half_bounds.
  - intros x _. apply toFixed_5_nearest.
Qed.

End Claims.

End LocationClaims.

(** ** The ladder on the scripted world *)

Module LocationExamples.

Import Js Types Effects Location LocationClaims Scripted.

Lemma scripted_mayLocate : @mayLocate Script browser.
Proof. split; [reflexivity | left; reflexivity]. Defined.

(** Denied at tier 1, and denied at tier 2 after a timeout: the fix the
    script still holds is never asked for. *)
Lemma permission_denied_aborts_ladder_witness :
  log (snd (getDeviceLocation
              (script [Rejected denied; Resolved lagosFix] [] [] [])))
  = [g1]
  /\ log (snd (getDeviceLocation
                 (script [Rejected timedOut; Rejected denied; Resolved lagosFix]
                         [] [] [])))
     = [g1; g2; ClearWatch 7].
Proof.
  split.
  - rewrite (proj1 (permission_denied_aborts_ladder
                      (script [Rejected denied; Resolved lagosFix] [] [] [])
                      denied scripted_mayLocate eq_refl eq_refl)
                   _ eq_refl).
    reflexivity.
  - rewrite (proj1 (proj2 (permission_denied_aborts_ladder
                             (script [Rejected timedOut; Rejected denied;
                                      Resolved lagosFix] [] [] [])
                             denied scripted_mayLocate eq_refl eq_refl))
                   timedOut _ 7 _ eq_refl eq_refl eq_refl).
    reflexivity.
Defined.

(** Timeout, then position unavailable, then a fix at tier 3. *)
Lemma retryable_failures_escalate_witness :
  getDeviceLocation
    (script [Rejected timedOut; Rejected unavailable; Resolved lagosFix] [] [] [])
  = (Resolved (formatPosition lagosFix),
     after [g1; g2; ClearWatch 7; g3] (script [] [] [] [])).
Proof.
  exact (proj2 (proj2 (retryable_failures_escalate
                         (script [Rejected timedOut; Rejected unavailable;
                                  Resolved lagosFix] [] [] [])
                         scripted_mayLocate))
               timedOut _ 7 (Rejected unavailable) _ (Resolved lagosFix) _
               eq_refl eq_refl eq_refl eq_refl).
Defined.

(** Two timeouts, then a fix at tier 3: the four requests with the
    parameters of the three tiers; and a fix from the watch: no tier 3. *)
Lemma tier_parameters_witness :
  snd (getDeviceLocation
         (script [Rejected timedOut; Rejected timedOut; Resolved lagosFix] [] [] []))
  = after [ GetCurrentPosition
              {| enableHighAccuracy := true; timeout := 12000; maximumAge := 0 |};
            WatchPosition
              {| enableHighAccuracy := true; timeout := 20000; maximumAge := 0 |};
            ClearWatch 7;
            GetCurrentPosition
              {| enableHighAccuracy := false; timeout := 20000;
                 maximumAge := 60000 |} ]
          (script [] [] [] [])
  /\ snd (getDeviceLocation
            (script [Rejected timedOut; Resolved lagosFix] [] [] []))
     = after [ GetCurrentPosition
                 {| enableHighAccuracy := true; timeout := 12000; maximumAge := 0 |};
               WatchPosition
                 {| enableHighAccuracy := true; timeout := 20000; maximumAge := 0 |};
               ClearWatch 7 ]
             (script [] [] [] []).
Proof.
  split.
  - exact (proj2 (@tier_parameters Script browser
                    (script [Rejected timedOut; Rejected timedOut; Resolved lagosFix]
                            [] [] []))
                 scripted_mayLocate
                 (Rejected timedOut) _ 7 (Rejected timedOut) _ (Resolved lagosFix) _
                 eq_refl eq_refl eq_refl).
  - exact (proj2 (@tier_parameters Script browser
                    (script [Rejected timedOut; Resolved lagosFix] [] [] []))
                 scripted_mayLocate
                 (Rejected timedOut) _ 7 (Resolved lagosFix) _ (Rejected timedOut) _
                 eq_refl eq_refl eq_refl).
Defined.

(** The full ladder on the scripted world: all four requests, with the
    parameters of the three tiers. *)
Example full_ladder_log :
  log (snd (getDeviceLocation
              (script [Rejected timedOut; Rejected timedOut; Rejected unavailable]
                      [] [] [])))
  = [ GetCurrentPosition
        {| enableHighAccuracy := true; timeout := 12000; maximumAge := 0 |};
      WatchPosition
        {| enableHighAccuracy := true; timeout := 20000; maximumAge := 0 |};
      ClearWatch 7;
      GetCurrentPosition
        {| enableHighAccuracy := false; timeout := 20000; maximumAge := 60000 |} ].
Proof. vm_compute. reflexivity. Qed.

(** A fix at tier 1 in Lagos. *)
Lemma gps_fix_format_witness :
  exists position : GeolocationPosition,
    formatPosition lagosFix = formatPosition position
    /\ source (formatPosition lagosFix) = gps
    /\ label (formatPosition lagosFix) = "GPS 6.52438, 3.37921 (+/-12m)".
Proof.
  destruct (@gps_fix_format Script browser
              (script [Resolved lagosFix] [] [] [])
              (after [g1] (script [] [] [] []))
              (formatPosition lagosFix) eq_refl)
    as (position & _ & Heq & Hsrc & _).
  exists position. split; [exact Heq|]. split; [exact Hsrc | reflexivity].
Defined.

End LocationExamples.

(** ** The save and delete handlers, run against any world *)

Module UserViewFacts.

Import Js Types Effects Location LocationFacts UserView UserViewClicks.

Lemma truthy_nonempty (v : string) : v <> EmptyString -> truthy (Some v) = true.
Proof.
  intros Hv. unfold truthy. destruct (String.eqb_spec v EmptyString);
    [contradiction | reflexivity].
Qed.

Section Handlers.

Context {W : Type} `{Browser W}.

(** The requests a run of the ladder adds are requests to the geolocation
    service. *)
Lemma getDeviceLocation_log (r : Run W) :
  exists geo : list Request,
    log (snd (getDeviceLocation r)) = (log r ++ geo)%list
    /\ forallb isGeolocation geo = true.
Proof.
  destruct (ladder_requests r) as (watchId & n & Hlog & _).
  exists (firstn n [g1; g2; ClearWatch watchId; g3]). split; [exact Hlog|].
  destruct n as [|[|[|[|[|n]]]]]; reflexivity.
Qed.

Lemma resolveLocation_log (s : State) (r : Run W) :
  exists geo : list Request,
    log (snd (resolveLocation s r)) = (log r ++ geo)%list
    /\ forallb isGeolocation geo = true
    /\ (forall cached, location s = Some cached ->
        geo = [] /\ resolveLocation s r = (Resolved cached, r)).
Proof.
  unfold resolveLocation. destruct (location s) as [cached|].
  - exists []. split; [cbn; rewrite app_nil_r; reflexivity|].
    split; [reflexivity|]. intros c Hc. injection Hc as <-.
    split; reflexivity.
  - destruct (getDeviceLocation_log r) as (geo & Hlog & Hgeo).
    exists geo. split; [exact Hlog|]. split; [exact Hgeo|]. discriminate.
Qed.

(** Every run of the save handler that passes its guard, spelled out on
    the answers of the world: the requests issued and the cells left. *)
Lemma save_run (tok snap : string) (s : State) (r : Run W) :
  snapshot s = Some snap -> snap <> EmptyString -> tok <> EmptyString ->
  handleUploadAndSave (Some tok) s r =
  let s1 := setError "" (setUploading true s) in
  match resolveLocation s r with
  | (Rejected locationError, r1) =>
      let message := messageOr locationError "Unable to read location." in
      (setUploading false
         (setUploading false (setLocationError message (setError message s1))),
       r1)
  | (Resolved place, r1) =>
      let s2 := if isSome (locationSource s) then s1
                else setLocationSource (Some gps) s1 in
      let upload := ApiRequest POST "/uploads/photo" tok (PhotoBody snap) in
      match api_uploadPhoto tok snap (world r1) with
      | (Rejected err, w2) =>
          (setUploading false (setError (messageOr err "Upload failed") s2),
           mkRun w2 (log r1 ++ [upload]))
      | (Resolved stored, w2) =>
          let body := recordBody place stored in
          let create := ApiRequest POST "/attendance" tok (RecordBody body) in
          match api_createAttendance tok body w2 with
          | (Rejected err, w3) =>
              (setUploading false (setError (messageOr err "Upload failed") s2),
               mkRun w3 (log r1 ++ [upload; create]))
          | (Resolved record, w3) =>
              (setUploading false
                 (setSnapshot None
                    (setLocation
                       (Some
                          {| label := Types.locationLabel record;
                             latitude := orElse (Types.latitude record)
                                                (latitude place);
                             longitude := orElse (Types.longitude record)
                                                 (longitude place);
                             accuracy := match Types.accuracy record with
                                         | Some a => Some a
                                         | None => accuracy place
                                         end;
                             source := orElse (locationSource s) gps |})
                       (setAttendance (Some record) s2))),
               mkRun w3 (log r1 ++ [upload; create]))
          end
      end
  end.
Proof.
  intros Hsnap Hs Ht. unfold handleUploadAndSave. rewrite Hsnap.
  rewrite (truthy_nonempty snap Hs), (truthy_nonempty tok Ht). cbn [negb orb].
  cbv zeta. destruct (resolveLocation s r) as [[place | e] r1]; [|reflexivity].
  unfold bind, uploadPhoto, createAttendance, issue. cbn [world log].
  destruct (api_uploadPhoto tok snap (world r1)) as [[stored | err] w2];
    [|reflexivity].
  cbn [world log]. fold (recordBody place stored).
  destruct (api_createAttendance tok (recordBody place stored) w2)
    as [[record | err] w3]; rewrite <- app_assoc; reflexivity.
Qed.

(** Without a snapshot or without a token the handler does nothing. *)
Lemma save_guard (token : option string) (s : State) (r : Run W) :
  truthy (snapshot s) = false \/ truthy token = false ->
  handleUploadAndSave token s r = (s, r).
Proof.
  intros Hg. unfold handleUploadAndSave.
  destruct (snapshot s) as [snap|]; [|reflexivity].
  destruct token as [tok|]; [|reflexivity].
  destruct Hg as [-> | ->]; [reflexivity | rewrite orb_true_r; reflexivity].
Qed.




End Handlers.

End UserViewFacts.

(** ** Properties of saving and deleting a check-in *)

Module UserViewClaims.

Import Js Types Effects Location LocationFacts UserView UserViewClicks.
Import UserViewFacts.

Section Claims.

Context {W : Type} `{Browser W}.

(** C5.  A save that passes its guard issues its requests one after the
    other in this order: first the position (no request when a position is
    already held, otherwise the device requests of the ladder and nothing
    else), then the photo upload, then the creation of the record, whose
    body carries the reference the upload answered with.  When the
    position cannot be resolved the save ends there: neither the upload
    nor the creation is issued.  When the upload fails no creation is
    issued. *)
Theorem save_requests_in_order (tok snap : string) (s : State) (r : Run W) :
  snapshot s = Some snap -> snap <> EmptyString -> tok <> EmptyString ->
  let upload := ApiRequest POST "/uploads/photo" tok (PhotoBody snap) in
  let finish := snd (handleUploadAndSave (Some tok) s r) in
  exists geo : list Request,
    forallb isGeolocation geo = true
    /\ (forall cached, location s = Some cached -> geo = [])
    /\ (location s = None ->
        log (snd (getDeviceLocation r)) = (log r ++ geo)%list)
    /\ match resolveLocation s r with
       | (Rejected _, r1) => finish = r1 /\ log finish = (log r ++ geo)%list
       | (Resolved place, r1) =>
           match api_uploadPhoto tok snap (world r1) with
           | (Rejected _, w2) =>
               finish = mkRun w2 (log r ++ geo ++ [upload])
           | (Resolved stored, w2) =>
               let body := recordBody place stored in
               body_photoUrl body = url stored
               /\ body_photoPublicId body = publicId stored
               /\ finish
                  = mkRun (snd (api_createAttendance tok body w2))
                          (log r ++ geo
                           ++ [upload;
                               ApiRequest POST "/attendance" tok (RecordBody body)])
           end
       end.
Proof.
  intros Hsnap Hs Ht upload finish.
  destruct (resolveLocation_log s r) as (geo & Hlog & Hgeo & Hcached).
  exists geo. split; [exact Hgeo|].
  split; [intros cached Hc; apply (Hcached cached Hc)|].
  split.
  { intros Hnone. unfold resolveLocation in Hlog. rewrite Hnone in Hlog.
    exact Hlog. }
  subst finish. rewrite (save_run tok snap s r Hsnap Hs Ht). cbv zeta.
  destruct (resolveLocation s r) as [[place | e] r1]; cbn [snd] in *.
  - destruct (api_uploadPhoto tok snap (world r1)) as [[stored | err] w2].
    + split; [reflexivity|]. split; [reflexivity|].
      destruct (api_createAttendance tok (recordBody place stored) w2)
        as [[record | err] w3]; cbn [snd]; rewrite Hlog, <- app_assoc;
        reflexivity.
    + cbn [snd]. rewrite Hlog, <- app_assoc. reflexivity.
  - split; [reflexivity | exact Hlog].
Qed.

(** C6.  A save attempt that fails, at the position, at the upload or at
    the creation, leaves the snapshot and the attendance slot as they
    were and shows the message of the failure; the snapshot is cleared
    only when the creation succeeds, and then the attendance slot holds
    the record the server answered with. *)
Theorem snapshot_kept_until_saved (tok snap : string) (s : State) (r : Run W) :
  snapshot s = Some snap -> snap <> EmptyString -> tok <> EmptyString ->
  let s' := fst (handleUploadAndSave (Some tok) s r) in
  let kept (message : string) :=
    snapshot s' = Some snap /\ attendance s' = attendance s
    /\ error s' = message in
  match resolveLocation s r with
  | (Rejected err, _) => kept (messageOr err "Unable to read location.")
  | (Resolved place, r1) =>
      match uploadPhoto tok snap r1 with
      | (Rejected err, _) => kept (messageOr err "Upload failed")
      | (Resolved stored, r2) =>
          match createAttendance tok (recordBody place stored) r2 with
          | (Rejected err, _) => kept (messageOr err "Upload failed")
          | (Resolved record, _) =>
              snapshot s' = None /\ attendance s' = Some record
          end
      end
  end.
Proof.
  intros Hsnap Hs Ht s' kept. subst s' kept.
  rewrite (save_run tok snap s r Hsnap Hs Ht). cbv zeta.
  destruct (resolveLocation s r) as [[place | e] r1]; cbn [fst].
  - unfold uploadPhoto, createAttendance, issue. cbn [world log].
    destruct (api_uploadPhoto tok snap (world r1)) as [[stored | err] w2].
    + cbn [world log].
      destruct (api_createAttendance tok (recordBody place stored) w2)
        as [[record | err] w3]; cbn [fst].
      * destruct (isSome (locationSource s)); split; reflexivity.
      * destruct (isSome (locationSource s)); repeat split;
          cbn; try exact Hsnap; reflexivity.
    + cbn [fst]. destruct (isSome (locationSource s)); repeat split;
        cbn; try exact Hsnap; reflexivity.
  - repeat split; cbn; try exact Hsnap; reflexivity.
Qed.


End Claims.

End UserViewClaims.

(** ** Saving and deleting on the scripted world *)

Module UserViewExamples.

Import Js Types Effects Location UserView UserViewClicks UserViewClaims.
Import ReferenceHost Scripted SaveSamples.

Lemma photo_nonempty : photo <> EmptyString.
Proof. discriminate. Defined.

Lemma token_nonempty : "token-1" <> EmptyString.
Proof. discriminate. Defined.

(** A save with no position held: tier 1 times out, the watch delivers a
    fix, then the upload, then the creation. *)
Lemma save_requests_in_order_witness :
  log (snd (handleUploadAndSave (Some "token-1") readyUnlocated
              (script [Rejected timedOut; Resolved lagosFix]
                      [Resolved stored] [Resolved created] [])))
  = [ g1; g2; ClearWatch 7;
      ApiRequest POST "/uploads/photo" "token-1" (PhotoBody photo);
      ApiRequest POST "/attendance" "token-1"
                 (RecordBody (recordBody place stored)) ].
Proof.
  destruct (@save_requests_in_order Script browser "token-1" photo readyUnlocated
              (script [Rejected timedOut; Resolved lagosFix]
                      [Resolved stored] [Resolved created] [])
              eq_refl photo_nonempty token_nonempty)
    as (geo & _ & _ & Hladder & Hrun).
  specialize (Hladder eq_refl). vm_compute in Hladder. subst geo.
  remember (snd (handleUploadAndSave (Some "token-1") readyUnlocated
                   (script [Rejected timedOut; Resolved lagosFix]
                           [Resolved stored] [Resolved created] [])))
    as finish eqn:Efinish in *.
  vm_compute in Hrun. destruct Hrun as (_ & _ & Hfinish).
  rewrite Hfinish. reflexivity.
Defined.

(** A save whose upload fails keeps the snapshot; the retry, from the state
    the failure left, succeeds without a new capture. *)
Lemma snapshot_kept_until_saved_witness :
  (snapshot (fst (handleUploadAndSave (Some "token-1") ready
                    (script [] [Rejected (newError "Storage is full")] [] [])))
   = Some photo
   /\ attendance (fst (handleUploadAndSave (Some "token-1") ready
                         (script [] [Rejected (newError "Storage is full")] [] [])))
      = None
   /\ error (fst (handleUploadAndSave (Some "token-1") ready
                    (script [] [Rejected (newError "Storage is full")] [] [])))
      = "Storage is full")
  /\ (snapshot (fst (handleUploadAndSave (Some "token-1")
                       (fst (handleUploadAndSave (Some "token-1") ready
                               (script [] [Rejected (newError "Storage is full")]
                                       [] [])))
                       (script [] [Resolved stored] [Resolved created] [])))
      = None
      /\ attendance (fst (handleUploadAndSave (Some "token-1")
                            (fst (handleUploadAndSave (Some "token-1") ready
                                    (script [] [Rejected (newError "Storage is full")]
                                            [] [])))
                            (script [] [Resolved stored] [Resolved created] [])))
         = Some created).
Proof.
  split.
  - exact (@snapshot_kept_until_saved Script browser "token-1" photo ready
             (script [] [Rejected (newError "Storage is full")] [] [])
             eq_refl photo_nonempty token_nonempty).
  - exact (@snapshot_kept_until_saved Script browser "token-1" photo
             (fst (handleUploadAndSave (Some "token-1") ready
                     (script [] [Rejected (newError "Storage is full")] [] [])))
             (script [] [Resolved stored] [Resolved created] [])
             eq_refl photo_nonempty token_nonempty).
Defined.


End UserViewExamples.

(** ** Further properties of the ladder *)

Module LocationMore.

Import Js Types Effects Location LocationFacts LocationTerms.

Section Ladder.

Context {W : Type} `{Browser W}.

Lemma mayLocate_dec :
  {mayLocate} + {navigator_geolocation = false
                 \/ (navigator_geolocation = true
                     /\ window_isSecureContext = false
                     /\ window_hostname <> "localhost")}.
Proof.
  unfold mayLocate. destruct navigator_geolocation; [|right; left; reflexivity].
  destruct window_isSecureContext; [left; split; [reflexivity | left; reflexivity]|].
  destruct (String.eqb_spec window_hostname "localhost") as [E | N].
  - left. split; [reflexivity | right; exact E].
  - right. right. repeat split. exact N.
Qed.

Lemma unsupported_run (r : Run W) :
  navigator_geolocation = false ->
  getDeviceLocation r
  = (Rejected (newError "Geolocation is not supported on this device."), r).
Proof. intros Hn. unfold getDeviceLocation. rewrite Hn. reflexivity. Qed.

Lemma insecure_run (r : Run W) :
  navigator_geolocation = true ->
  window_isSecureContext = false ->
  window_hostname <> "localhost" ->
  getDeviceLocation r
  = (Rejected (newError "Location requires HTTPS. Please use a secure connection."),
     r).
Proof.
  intros Hn Hs Hh. unfold getDeviceLocation. rewrite Hn, Hs.
  destruct (String.eqb_spec window_hostname "localhost"); [contradiction|].
  reflexivity.
Qed.

(** The shapes of the requests a run adds to the log.  The watch is
    started in the world tier 1 left, and the identifier cleared is the
    one the service returned there. *)
Lemma ladder_added (r : Run W) :
  exists added : list Request,
    log (snd (getDeviceLocation r)) = (log r ++ added)%list
    /\ (added = []
        \/ added = [g1]
        \/ exists rest : list Request,
             added = (g1 :: g2
                      :: ClearWatch
                           (fst (fst (geo_watchPosition tier2Options
                                        (snd (geo_getCurrentPosition tier1Options
                                                (world r))))))
                      :: rest)%list
             /\ (rest = [] \/ rest = [g3]))
    /\ (mayLocate <-> added <> []).
Proof.
  destruct mayLocate_dec as [Hmay | [Hn | (Hn & Hs & Hh)]].
  - rewrite (ladder_run r Hmay).
    destruct (geo_getCurrentPosition tier1Options (world r)) as [[p1 | e1] w1].
    { exists [g1]. split; [reflexivity|]. split; [right; left; reflexivity|].
      split; [discriminate | intros _; exact Hmay]. }
    destruct (isRetryableError e1).
    2:{ exists [g1]. split; [reflexivity|]. split; [right; left; reflexivity|].
        split; [discriminate | intros _; exact Hmay]. }
    cbn [snd].
    destruct (geo_watchPosition tier2Options w1) as [[watchId o2] w2] eqn:Hw.
    cbn [fst].
    destruct o2 as [p2 | e2].
    { exists [g1; g2; ClearWatch watchId]. split; [reflexivity|].
      split; [|split; [discriminate | intros _; exact Hmay]].
      right; right. exists []. split; [reflexivity | left; reflexivity]. }
    destruct (isRetryableError e2).
    2:{ exists [g1; g2; ClearWatch watchId]. split; [reflexivity|].
        split; [|split; [discriminate | intros _; exact Hmay]].
        right; right. exists []. split; [reflexivity | left; reflexivity]. }
    cbn [world log].
    exists [g1; g2; ClearWatch watchId; g3]. split.
    { destruct (geo_getCurrentPosition tier3Options (geo_clearWatch watchId w2))
        as [[p3 | e3] w3]; cbn [snd log]; rewrite <- app_assoc; reflexivity. }
    split; [|split; [discriminate | intros _; exact Hmay]].
    right; right. exists [g3]. split; [reflexivity | right; reflexivity].
  - exists []. rewrite (unsupported_run r Hn). cbn [snd]. rewrite app_nil_r.
    split; [reflexivity|]. split; [left; reflexivity|].
    split; [intros [Hm _]; congruence | intros Hne; contradiction Hne; reflexivity].
  - exists []. rewrite (insecure_run r Hn Hs Hh). cbn [snd]. rewrite app_nil_r.
    split; [reflexivity|]. split; [left; reflexivity|].
    split; [|intros Hne; contradiction Hne; reflexivity].
    intros [_ [Hs' | Hh']]; [congruence | contradiction].
Qed.

(** Every failure of a run is an [Error] with one of the six messages. *)
Lemma ladder_rejections (r r' : Run W) (e : Thrown) :
  getDeviceLocation r = (Rejected e, r') ->
  exists message, In message locationMessages /\ e = newError message.
Proof.
  assert (Hmap : forall x, exists message,
               In message locationMessages /\ mapGeoError x = newError message).
  { intros x. unfold mapGeoError, locationMessages.
    destruct (thr_isObject x && isSome (thr_code x));
      [|eexists; split; [|reflexivity]; cbn; tauto].
    destruct (codeIs (thr_code x) PERMISSION_DENIED);
      [eexists; split; [|reflexivity]; cbn; tauto|].
    destruct (codeIs (thr_code x) POSITION_UNAVAILABLE);
      [eexists; split; [|reflexivity]; cbn; tauto|].
    destruct (codeIs (thr_code x) TIMEOUT);
      eexists; (split; [|reflexivity]); cbn; tauto. }
  intros Hrun.
  destruct mayLocate_dec as [Hmay | [Hn | (Hn & Hs & Hh)]].
  - rewrite (ladder_run r Hmay) in Hrun.
    destruct (geo_getCurrentPosition tier1Options (world r)) as [[p1 | e1] w1];
      [discriminate|].
    destruct (isRetryableError e1);
      [|injection Hrun as <- _; apply Hmap].
    destruct (geo_watchPosition tier2Options w1) as [[watchId [p2 | e2]] w2];
      [discriminate|].
    destruct (isRetryableError e2);
      [|injection Hrun as <- _; apply Hmap].
    cbn [world log] in Hrun.
    destruct (geo_getCurrentPosition tier3Options (geo_clearWatch watchId w2))
      as [[p3 | e3] w3]; [discriminate|].
    injection Hrun as <- _. apply Hmap.
  - rewrite (unsupported_run r Hn) in Hrun. injection Hrun as <- _.
    eexists. split; [|reflexivity]. cbn. tauto.
  - rewrite (insecure_run r Hn Hs Hh) in Hrun. injection Hrun as <- _.
    eexists. split; [|reflexivity]. cbn. tauto.
Qed.

(** X1.  A run reaches the device only when the geolocation service exists
    and the page is in a secure context or on localhost.  Without the
    service it fails with the unsupported message, and on an insecure page
    elsewhere with the HTTPS message (the service is checked first); in
    both cases nothing is asked of the device and the world is left as it
    was.  Conversely, when the guards pass, at least one device request is
    issued. *)
Theorem device_reached_only_when_allowed (r : Run W) :
  (navigator_geolocation = false ->
   getDeviceLocation r
   = (Rejected (newError "Geolocation is not supported on this device."), r))
  /\ (navigator_geolocation = true ->
      window_isSecureContext = false ->
      window_hostname <> "localhost" ->
      getDeviceLocation r
      = (Rejected
           (newError "Location requires HTTPS. Please use a secure connection."),
         r))
  /\ (log (snd (getDeviceLocation r)) = log r <-> ~ mayLocate).
Proof.
  split; [apply unsupported_run|]. split; [apply insecure_run|].
  destruct (ladder_added r) as (added & Hlog & _ & Hiff).
  rewrite Hlog. split.
  - intros Heq Hmay. apply Hiff in Hmay. apply Hmay.
    apply (app_inv_head (log r)). rewrite app_nil_r. exact Heq.
  - intros Hnot. destruct added as [|q added]; [apply app_nil_r|].
    contradiction Hnot. apply Hiff. discriminate.
Qed.

(** X2.  A run starts at most one watch, and every watch it starts is
    cleared by the very next request, whether the watch delivered a fix or
    an error.  The watch is started with the options of tier 2 in the world
    the tier-1 request left, and the identifier cleared is the one the
    service returned for that watch.  In the requests a run adds, the
    watches and the cancellations are as many. *)
Theorem every_watch_is_cleared (r : Run W) :
  let afterTier1 := snd (geo_getCurrentPosition tier1Options (world r)) in
  let returnedId := fst (fst (geo_watchPosition tier2Options afterTier1)) in
  exists added : list Request,
    log (snd (getDeviceLocation r)) = (log r ++ added)%list
    /\ length (filter isWatch added) = length (filter isClear added)
    /\ (length (filter isWatch added) <= 1)%nat
    /\ (forall before options after,
           added = (before ++ WatchPosition options :: after)%list ->
           before = [g1]
           /\ options = tier2Options
           /\ exists rest : list Request,
                after = (ClearWatch returnedId :: rest)%list)
    /\ (forall before watchId after,
           added = (before ++ ClearWatch watchId :: after)%list ->
           before = [g1; g2] /\ watchId = returnedId).
Proof.
  cbv zeta.
  destruct (ladder_added r) as (added & Hlog & Hshape & _).
  exists added. split; [exact Hlog|].
  destruct Hshape as [-> | [-> | (rest & -> & Hrest)]].
  - repeat split; try (cbn; lia);
      match goal with
      | H : [] = (?b ++ _ :: _)%list |- _ => destruct b; discriminate H
      end.
  - repeat split; try (cbn; lia);
      match goal with
      | H : [g1] = (?b ++ _ :: _)%list |- _ =>
          destruct b as [|? [|? ?]]; discriminate H
      end.
  - assert (Hcount : filter isWatch rest = [] /\ filter isClear rest = [])
      by (destruct Hrest as [-> | ->]; split; reflexivity).
    destruct Hcount as [Hw Hc].
    split; [cbn; rewrite Hw, Hc; reflexivity|].
    split; [cbn; rewrite Hw; cbn; lia|].
    split.
    + intros before options after Heq.
      destruct before as [|b0 [|b1 before]].
      * discriminate.
      * injection Heq as <- Ho Ha. split; [reflexivity|].
        split; [symmetry; exact Ho|]. exists rest. symmetry; exact Ha.
      * injection Heq as _ _ Hrest'.
        destruct before as [|b2 before]; [discriminate|].
        injection Hrest' as _ Hrest'.
        destruct Hrest as [-> | ->].
        -- destruct before; discriminate.
        -- destruct before as [|? before]; [discriminate|].
           injection Hrest' as _ Hrest'. destruct before; discriminate.
    + intros before watchId after Heq.
      destruct before as [|b0 [|b1 [|b2 before]]].
      * discriminate.
      * discriminate.
      * injection Heq as <- <- Hid _. split; [reflexivity | symmetry; exact Hid].
      * injection Heq as _ _ _ Hrest'.
        destruct Hrest as [-> | ->].
        -- destruct before; discriminate.
        -- destruct before as [|? before]; [discriminate|].
           injection Hrest' as _ Hrest'. destruct before; discriminate.
Qed.

End Ladder.

End LocationMore.

(** ** Further properties of the check-in view *)

Module UserViewMore.

Import Js Types Effects Location LocationFacts LocationTerms LocationMore.
Import UserView UserViewFacts UserViewTerms.

Lemma truthy_inv (v : option string) :
  truthy v = true -> exists x, v = Some x /\ x <> EmptyString.
Proof.
  destruct v as [x|]; [|discriminate]. cbn [truthy].
  destruct (String.eqb_spec x EmptyString); [discriminate|].
  intros _. exists x. split; [reflexivity | assumption].
Qed.

Lemma truthy_cases (v : option string) :
  truthy v = false \/ exists x, v = Some x /\ x <> EmptyString.
Proof.
  destruct (truthy v) eqn:E; [right; apply truthy_inv; exact E | left; reflexivity].
Qed.

Section Handlers.

Context {W : Type} `{Browser W}.

(** A resolved run is the formatted fix of a tier. *)
Lemma ladder_resolutions (r r' : Run W) (result : LocationResult) :
  getDeviceLocation r = (Resolved result, r') ->
  exists position, result = formatPosition position.
Proof.
  intros Hrun.
  destruct mayLocate_dec as [Hmay | [Hn | (Hn & Hs & Hh)]].
  - rewrite (ladder_run r Hmay) in Hrun.
    destruct (geo_getCurrentPosition tier1Options (world r)) as [[p1 | e1] w1].
    { injection Hrun as <- _. eexists; reflexivity. }
    destruct (isRetryableError e1); [|discriminate].
    destruct (geo_watchPosition tier2Options w1) as [[watchId [p2 | e2]] w2].
    { injection Hrun as <- _. eexists; reflexivity. }
    destruct (isRetryableError e2); [|discriminate].
    cbn [world log] in Hrun.
    destruct (geo_getCurrentPosition tier3Options (geo_clearWatch watchId w2))
      as [[p3 | e3] w3]; [|discriminate].
    injection Hrun as <- _. eexists; reflexivity.
  - rewrite (unsupported_run r Hn) in Hrun. discriminate.
  - rewrite (insecure_run r Hn Hs Hh) in Hrun. discriminate.
Qed.

Lemma messageOr_newError (message fallback : string) :
  messageOr (newError message) fallback = message.
Proof. reflexivity. Qed.

Lemma locationMessages_nonempty (message : string) :
  In message locationMessages -> message <> EmptyString.
Proof.
  unfold locationMessages. cbn [In].
  intros [<- | [<- | [<- | [<- | [<- | [<- | []]]]]]]; discriminate.
Qed.

(** X3.  A location check ends with the busy flag cleared and in one of two
    ways.  Either the ladder succeeded: the position held is the formatted
    fix, its source and the recorded source are gps, and no error is
    shown.  Or it failed: no position and no source are held, and the
    message shown is one of the six fixed messages of the location module,
    never empty and never the handler's own fallback text; the network
    fallback control then becomes usable (when no record is held and no
    upload is running). *)
Theorem check_location_outcome (s : State) (r : Run W) :
  let s' := fst (checkLocation s r) in
  locationChecking s' = false
  /\ snd (checkLocation s r) = snd (getDeviceLocation r)
  /\ match fst (getDeviceLocation r) with
     | Resolved result =>
         location s' = Some result
         /\ (exists position, result = formatPosition position)
         /\ source result = gps
         /\ locationSource s' = Some gps
         /\ locationError s' = EmptyString
     | Rejected _ =>
         location s' = None
         /\ locationSource s' = None
         /\ In (locationError s') locationMessages
         /\ locationError s' <> "Unable to read location."
         /\ (attendance s = None -> uploading s = false ->
             usable s' NetworkLocationButton = true)
     end.
Proof.
  cbv zeta. unfold checkLocation.
  destruct (getDeviceLocation r) as [[result | e] r'] eqn:Hrun; cbn [fst snd].
  - split; [reflexivity|]. split; [reflexivity|]. split; [reflexivity|].
    destruct (ladder_resolutions r r' result Hrun) as (position & ->).
    split; [eexists; reflexivity|]. repeat split.
  - destruct (ladder_rejections r r' e Hrun) as (message & Hin & ->).
    split; [reflexivity|]. split; [reflexivity|]. split; [reflexivity|].
    split; [reflexivity|]. cbn. split; [exact Hin|].
    split.
    + intros Heq. rewrite Heq in Hin. unfold locationMessages in Hin.
      cbn [In] in Hin.
      destruct Hin as [E | [E | [E | [E | [E | [E | []]]]]]]; discriminate.
    + intros Hatt Hup. rewrite Hatt, Hup. cbn.
      destruct (String.eqb_spec message EmptyString) as [E | N]; [|reflexivity].
      contradiction (locationMessages_nonempty message Hin).
Qed.

(** The cells a save leaves, whatever happens. *)
Lemma save_frame (token : option string) (s : State) (r : Run W) :
  let s' := fst (handleUploadAndSave token s r) in
  cameraOpen s' = cameraOpen s
  /\ locationChecking s' = locationChecking s
  /\ (snapshot s' = snapshot s \/ snapshot s' = None)
  /\ (uploading s' = uploading s \/ uploading s' = false)
  /\ (truthy (snapshot s) = true -> truthy token = true -> uploading s' = false).
Proof.
  cbv zeta.
  destruct (truthy_cases (snapshot s)) as [Hs | (snap & Hsnap & Hs)].
  { rewrite save_guard by (left; exact Hs). cbn [fst].
    repeat split; try (left; reflexivity). rewrite Hs. discriminate. }
  destruct (truthy_cases token) as [Ht | (tok & -> & Ht)].
  { rewrite save_guard by (right; exact Ht). cbn [fst].
    repeat split; try (left; reflexivity). rewrite Ht. discriminate. }
  rewrite (save_run tok snap s r Hsnap Hs Ht). cbv zeta.
  destruct (resolveLocation s r) as [[place | e] r1].
  - destruct (api_uploadPhoto tok snap (world r1)) as [[stored | err] w2].
    + destruct (api_createAttendance tok (recordBody place stored) w2)
        as [[record | err] w3]; cbn [fst];
        destruct (isSome (locationSource s)); cbn;
        repeat split; auto.
    + cbn [fst]. destruct (isSome (locationSource s)); cbn; repeat split; auto.
  - cbn. repeat split; auto.
Qed.

(** X4.  The live camera and a snapshot never coexist: if the camera is
    not open while a snapshot is held, the same is true after any control
    of the view is used, whatever the token and whatever the device and
    the server answer. *)
Theorem camera_and_snapshot_exclusive
  (token : option string) (c : Control) (s : State) (r : Run W) :
  cameraExclusive s -> cameraExclusive (fst (onClick token c s r)).
Proof.
  unfold cameraExclusive. intros Hinv.
  destruct c; cbn [onClick].
  - unfold toggleCamera. destruct (isSome (attendance s)); [exact Hinv|].
    destruct (cameraOpen s); cbn; [discriminate | reflexivity].
  - unfold capturePhoto. destruct frame; cbn; [discriminate | exact Hinv].
  - unfold checkLocation. destruct (getDeviceLocation r) as [[? | ?] ?];
      cbn; exact Hinv.
  - unfold useNetworkLocation. destruct token as [tok|]; [|exact Hinv].
    destruct (String.eqb tok EmptyString); [exact Hinv|].
    destruct (issue _ _ r) as [[data | err] r']; cbn; [|exact Hinv].
    destruct (ip_latitude data), (ip_longitude data); cbn; exact Hinv.
  - destruct (save_frame token s r) as (Hcam & _ & Hsnap & _).
    rewrite Hcam. intros Hopen.
    destruct Hsnap as [-> | ->]; [apply Hinv; exact Hopen | reflexivity].
  - unfold handleRetake. cbn. reflexivity.
  - unfold handleDelete. destruct (attendance s) as [current|]; [|exact Hinv].
    destruct token as [tok|]; [|exact Hinv].
    destruct (negb (truthy (Some tok))); [exact Hinv|].
    destruct (issue _ _ r) as [[? | ?] ?]; cbn; exact Hinv.
Qed.

(** X5.  No control leaves the view busy: when neither busy flag is set
    before a control is used, neither is set after its handler has run,
    on every path (success, failure, guard). *)
Theorem handlers_leave_view_idle
  (token : option string) (c : Control) (s : State) (r : Run W) :
  idle s -> idle (fst (onClick token c s r)).
Proof.
  unfold idle. intros [Hup Hchk].
  destruct c; cbn [onClick].
  - unfold toggleCamera. destruct (isSome (attendance s)); [split; assumption|].
    destruct (cameraOpen s); cbn; split; assumption.
  - unfold capturePhoto. destruct frame; cbn; split; assumption.
  - unfold checkLocation. destruct (getDeviceLocation r) as [[? | ?] ?];
      cbn; split; [assumption | reflexivity | assumption | reflexivity].
  - unfold useNetworkLocation. destruct token as [tok|]; [|split; assumption].
    destruct (String.eqb tok EmptyString); [split; assumption|].
    destruct (issue _ _ r) as [[data | err] r']; cbn;
      [|split; [assumption | reflexivity]].
    destruct (ip_latitude data), (ip_longitude data); cbn;
      (split; [assumption | reflexivity]).
  - destruct (save_frame token s r) as (_ & Hc & _ & Hu & _).
    rewrite Hc. split; [|exact Hchk].
    destruct Hu as [-> | ->]; [exact Hup | reflexivity].
  - unfold handleRetake. cbn. split; assumption.
  - unfold handleDelete. destruct (attendance s) as [current|]; [|split; assumption].
    destruct token as [tok|]; [|split; assumption].
    destruct (negb (truthy (Some tok))); [split; assumption|].
    destruct (issue _ _ r) as [[? | ?] ?]; cbn; split;
      first [reflexivity | assumption].
Qed.


(** The requests of a save are device requests, the upload and the
    creation. *)
Lemma save_added (token : option string) (s : State) (r : Run W) :
  exists added : list Request,
    log (snd (handleUploadAndSave token s r)) = (log r ++ added)%list
    /\ forallb (fun q => negb (isIpLookup q)) added = true.
Proof.
  destruct (truthy_cases (snapshot s)) as [Hs | (snap & Hsnap & Hs)].
  { rewrite save_guard by (left; exact Hs). exists [].
    cbn. rewrite app_nil_r. split; reflexivity. }
  destruct (truthy_cases token) as [Ht | (tok & -> & Ht)].
  { rewrite save_guard by (right; exact Ht). exists [].
    cbn. rewrite app_nil_r. split; reflexivity. }
  rewrite (save_run tok snap s r Hsnap Hs Ht). cbv zeta.
  destruct (resolveLocation_log s r) as (geo & Hlog & Hgeo & _).
  assert (Hno : forall tail,
             forallb (fun q => negb (isIpLookup q)) tail = true ->
             forallb (fun q => negb (isIpLookup q)) (geo ++ tail) = true).
  { intros tail Htail. rewrite forallb_app, Htail, andb_true_r.
    rewrite forallb_forall in *. intros q Hq. specialize (Hgeo q Hq).
    destruct q; [reflexivity | reflexivity | reflexivity | discriminate]. }
  destruct (resolveLocation s r) as [[place | e] r1]; cbn [snd] in Hlog.
  - destruct (api_uploadPhoto tok snap (world r1)) as [[stored | err] w2].
    + exists (geo ++ [ApiRequest POST "/uploads/photo" tok (PhotoBody snap);
                      ApiRequest POST "/attendance" tok
                                 (RecordBody (recordBody place stored))])%list.
      split; [|apply Hno; reflexivity].
      destruct (api_createAttendance tok (recordBody place stored) w2)
        as [[record | err] w3]; cbn [snd log]; rewrite Hlog, <- app_assoc;
        reflexivity.
    + exists (geo ++ [ApiRequest POST "/uploads/photo" tok (PhotoBody snap)])%list.
      split; [|apply Hno; reflexivity].
      cbn [snd log]. rewrite Hlog, <- app_assoc. reflexivity.
  - exists geo. split; [exact Hlog|].
    rewrite <- (app_nil_r geo). apply Hno. reflexivity.
Qed.

(** X7.  The approximate position is looked up by IP address only when the
    user asks for it: no other control, whatever happens in its handler
    (a failed check of the device position included), sends a request to
    the lookup endpoint.  The network control without a token sends
    nothing; with one it sends exactly one lookup, after which a position
    is held only if the answer carries both coordinates (it then has the
    label of the answer and the source network), the recorded source is
    network either way, and a failed lookup leaves neither a position nor
    a source. *)
Theorem network_lookup_only_on_request
  (token : option string) (s : State) (r : Run W) :
  (forall c,
      c <> NetworkLocationButton ->
      exists added : list Request,
        log (snd (onClick token c s r)) = (log r ++ added)%list
        /\ forallb (fun q => negb (isIpLookup q)) added = true)
  /\ (truthy token = false -> useNetworkLocation token s r = (s, r))
  /\ (forall tok,
         token = Some tok -> tok <> EmptyString ->
         let s' := fst (useNetworkLocation token s r) in
         log (snd (useNetworkLocation token s r))
         = (log r ++ [ApiRequest GET "/location/ip" tok NoBody])%list
         /\ match fst (api_locationIp tok (world r)) with
            | Resolved data =>
                locationSource s' = Some network
                /\ match ip_latitude data, ip_longitude data with
                   | Some lat, Some lng =>
                       location s'
                       = Some {| label := ip_label data; latitude := lat;
                                 longitude := lng; accuracy := None;
                                 source := network |}
                   | _, _ => location s' = None
                   end
            | Rejected err =>
                location s' = None /\ locationSource s' = None
                /\ locationError s'
                   = messageOr err "Unable to fetch network location."
            end).
Proof.
  split; [|split].
  - intros c Hc. destruct c; cbn [onClick].
    + exists []. unfold toggleCamera.
      destruct (isSome (attendance s)); [|destruct (cameraOpen s)];
        cbn; rewrite app_nil_r; split; reflexivity.
    + exists []. unfold capturePhoto. destruct frame; cbn;
        rewrite app_nil_r; split; reflexivity.
    + destruct (getDeviceLocation_log r) as (geo & Hlog & Hgeo).
      exists geo. split.
      * unfold checkLocation.
        destruct (getDeviceLocation r) as [[? | ?] ?]; exact Hlog.
      * rewrite forallb_forall in *. intros q Hq. specialize (Hgeo q Hq).
        destruct q; [reflexivity | reflexivity | reflexivity | discriminate].
    + contradiction Hc. reflexivity.
    + apply save_added.
    + exists []. unfold handleRetake. cbn. rewrite app_nil_r. split; reflexivity.
    + unfold handleDelete. destruct (attendance s) as [current|];
        [|exists []; cbn; rewrite app_nil_r; split; reflexivity].
      destruct token as [tok|];
        [|exists []; cbn; rewrite app_nil_r; split; reflexivity].
      destruct (negb (truthy (Some tok)));
        [exists []; cbn; rewrite app_nil_r; split; reflexivity|].
      exists [ApiRequest DELETE ("/attendance/" ++ id current) tok NoBody].
      unfold issue.
      destruct (api_deleteAttendance tok (id current) (world r)) as [[? | ?] ?];
        cbn [snd log]; split; reflexivity.
  - intros Ht. unfold useNetworkLocation. destruct token as [tok|]; [|reflexivity].
    cbn [truthy] in Ht. apply negb_false_iff in Ht. rewrite Ht. reflexivity.
  - intros tok -> Ht. cbv zeta. unfold useNetworkLocation.
    destruct (String.eqb_spec tok EmptyString); [contradiction|].
    unfold issue.
    destruct (api_locationIp tok (world r)) as [[data | err] w']; cbn [fst snd log].
    + split; [reflexivity|]. split; [reflexivity|].
      destruct (ip_latitude data), (ip_longitude data); reflexivity.
    + split; [reflexivity|]. repeat split.
Qed.

(** X8.  A delete without a record or without a token does nothing.
    Otherwise it sends exactly one request, the deletion of the record
    held; the today slot is cleared exactly when the server accepts it;
    when the server refuses, the record stays in the slot and the
    server's message is shown.  The snapshot is left as it was and the
    busy flag is cleared either way. *)
Theorem delete_outcome (token : option string) (s : State) (r : Run W) :
  (attendance s = None \/ truthy token = false -> handleDelete token s r = (s, r))
  /\ (forall record tok,
         attendance s = Some record -> token = Some tok -> tok <> EmptyString ->
         let s' := fst (handleDelete token s r) in
         log (snd (handleDelete token s r))
         = (log r ++ [ApiRequest DELETE ("/attendance/" ++ id record) tok NoBody])%list
         /\ snapshot s' = snapshot s
         /\ uploading s' = false
         /\ match fst (api_deleteAttendance tok (id record) (world r)) with
            | Resolved _ => attendance s' = None /\ error s' = EmptyString
            | Rejected err =>
                attendance s' = Some record
                /\ error s' = messageOr err "Unable to delete entry"
            end).
Proof.
  split.
  - intros Hg. unfold handleDelete.
    destruct (attendance s) as [current|]; [|reflexivity].
    destruct token as [tok|]; [|reflexivity].
    destruct Hg as [Hg | Hg]; [discriminate | rewrite Hg; reflexivity].
  - intros record tok Hatt -> Ht. cbv zeta. unfold handleDelete.
    rewrite Hatt, (truthy_nonempty tok Ht). cbn [negb]. unfold issue.
    destruct (api_deleteAttendance tok (id record) (world r)) as [[u | err] w'];
      cbn [fst snd log]; repeat split; exact Hatt.
Qed.

(** X19.  A save that fails does not keep the position it resolved: on
    every failing path (position, upload, creation) the position held is
    what it was before, so that a save retried with no position held asks
    the device again.  A save that succeeds holds a position with the
    label of the server's record and the server's coordinates and
    accuracy, or those resolved where the record has none. *)
Theorem failed_save_discards_position (tok snap : string) (s : State) (r : Run W) :
  snapshot s = Some snap -> snap <> EmptyString -> tok <> EmptyString ->
  let s' := fst (handleUploadAndSave (Some tok) s r) in
  match resolveLocation s r with
  | (Rejected _, _) => location s' = location s
  | (Resolved place, r1) =>
      match uploadPhoto tok snap r1 with
      | (Rejected _, _) => location s' = location s
      | (Resolved stored, r2) =>
          match createAttendance tok (recordBody place stored) r2 with
          | (Rejected _, _) => location s' = location s
          | (Resolved record, _) =>
              exists kept,
                location s' = Some kept
                /\ label kept = Types.locationLabel record
                /\ latitude kept
                   = orElse (Types.latitude record) (latitude place)
                /\ longitude kept
                   = orElse (Types.longitude record) (longitude place)
                /\ accuracy kept
                   = match Types.accuracy record with
                     | Some a => Some a
                     | None => accuracy place
                     end
          end
      end
  end
  /\ (location s' = None ->
      forall r', resolveLocation s' r' = getDeviceLocation r').
Proof.
  intros Hsnap Hs Ht. cbv zeta. split.
  - rewrite (save_run tok snap s r Hsnap Hs Ht). cbv zeta.
    destruct (resolveLocation s r) as [[place | e] r1]; cbn [fst];
      [|reflexivity].
    unfold uploadPhoto, createAttendance, issue. cbn [world log].
    destruct (api_uploadPhoto tok snap (world r1)) as [[stored | err] w2].
    + cbn [world log].
      destruct (api_createAttendance tok (recordBody place stored) w2)
        as [[record | err] w3]; cbn [fst].
      * eexists. split; [reflexivity|]. repeat split.
      * destruct (isSome (locationSource s)); reflexivity.
    + cbn [fst]. destruct (isSome (locationSource s)); reflexivity.
  - intros Hnone r'. unfold resolveLocation. rewrite Hnone. reflexivity.
Qed.

End Handlers.

End UserViewMore.

(** ** Further properties of the classifier *)

Module ClassificationMore.

Import Js Types Intl AdminView JsFacts AdminViewFacts.
Import ReferenceHost.

Section WithClock.

Context `{Clock}.

(** Whatever the timestamp and the zone, the parts read are numbers on the
    24-hour clock. *)
Lemma getLocalTimeParts_numeric (iso : string) (timeZone : option string) :
  exists h m : Z,
    getLocalTimeParts iso timeZone = {| hour := Num h; minute := Num m |}
    /\ 0 <= h < 24 /\ 0 <= m < 60.
Proof.
  unfold getLocalTimeParts. destruct (Date_parse iso) as [date|].
  - destruct (DateTimeFormat timeZone) as [formatter|]; cbv zeta.
    + destruct (partNumbers_formatToParts formatter date) as [-> ->].
      eexists _, _. split; [reflexivity|].
      split; [apply wallHour_range | apply wallMinute_range].
    + destruct (partNumbers_formatToParts local_offset date) as [-> ->].
      eexists _, _. split; [reflexivity|].
      split; [apply wallHour_range | apply wallMinute_range].
  - exists 0, 0. split; [reflexivity | lia].
Qed.

(** X9.  Moving the cutoff later never turns an on-time check-in late: for
    every record (whatever its timestamp and zone) and any two cutoffs the
    pattern accepts, the first not after the second, a record that is on
    time under the first is on time under the second. *)
Theorem later_cutoff_keeps_on_time
  (item : AttendanceRecord) (earlier later : string) (h1 m1 h2 m2 : Z) :
  parseCutoffTime earlier = Some {| hour := Num h1; minute := Num m1 |} ->
  parseCutoffTime later = Some {| hour := Num h2; minute := Num m2 |} ->
  60 * h1 + m1 <= 60 * h2 + m2 ->
  resolveStatus item earlier = OnTime ->
  resolveStatus item later = OnTime.
Proof.
  intros Hc1 Hc2 Hle.
  destruct (parseCutoffTime_sound _ _ Hc1) as (a1 & b1 & Ra1 & Rb1 & E1 & _).
  destruct (parseCutoffTime_sound _ _ Hc2) as (a2 & b2 & Ra2 & Rb2 & E2 & _).
  injection E1 as -> ->. injection E2 as -> ->.
  destruct (getLocalTimeParts_numeric (capturedAt item) (timezone item))
    as (h & m & Hparts & Rh & Rm).
  rewrite (resolveStatus_numeric item earlier h m a1 b1 Hparts Hc1).
  rewrite (resolveStatus_numeric item later h m a2 b2 Hparts Hc2).
  intros Hon.
  destruct (Z.ltb_spec h a2); [reflexivity|].
  destruct (Z.ltb_spec h a1); [exfalso; lia|].
  destruct (Z.eqb_spec h a1); cbn [andb] in Hon; [|discriminate].
  destruct (Z.leb_spec m b1); [|discriminate].
  destruct (Z.eqb_spec h a2); cbn [andb]; [|exfalso; lia].
  destruct (Z.leb_spec m b2); [reflexivity | exfalso; lia].
Qed.

(** X10.  A record without a zone, or with a zone identifier the host does
    not know, is classified on the wall clock of the host's own zone: it is
    on time exactly when the host's local hour and minute of the instant
    are at or before the cutoff. *)
Theorem unknown_zone_uses_host_zone
  (item : AttendanceRecord) (date : Z) (cutoffTime : string) (ch cm : Z) :
  Date_parse (capturedAt item) = Some date ->
  (timezone item = None
   \/ exists z, timezone item = Some z /\ zone_offset z = None) ->
  parseCutoffTime cutoffTime = Some {| hour := Num ch; minute := Num cm |} ->
  let h := wallHour date (local_offset date) in
  let m := wallMinute date (local_offset date) in
  getLocalTimeParts (capturedAt item) (timezone item)
  = {| hour := Num h; minute := Num m |}
  /\ (resolveStatus item cutoffTime = OnTime <-> h < ch \/ (h = ch /\ m <= cm)).
Proof.
  intros Hd Hz Hc h m.
  assert (Hparts : getLocalTimeParts (capturedAt item) (timezone item)
                   = {| hour := Num h; minute := Num m |}).
  { unfold getLocalTimeParts. rewrite Hd.
    assert (Hf : DateTimeFormat (timezone item) = Some local_offset
                 \/ DateTimeFormat (timezone item) = None).
    { destruct Hz as [-> | (z & -> & Hnone)]; [left; reflexivity|].
      right. exact Hnone. }
    destruct Hf as [-> | ->]; cbv zeta;
      destruct (partNumbers_formatToParts local_offset date) as [-> ->];
      reflexivity. }
  split; [exact Hparts|].
  rewrite (resolveStatus_numeric item cutoffTime h m ch cm Hparts Hc).
  destruct (Z.ltb_spec h ch); [split; [intros _; left; assumption | reflexivity]|].
  destruct (Z.eqb_spec h ch); cbn [andb].
  - destruct (Z.leb_spec m cm).
    + split; [intros _; right; split; assumption | reflexivity].
    + split; [discriminate | lia].
  - split; [discriminate | lia].
Qed.

End WithClock.

(** The cutoff moved from 08:00 to 09:30 for the check-in at 08:00. *)
Lemma later_cutoff_keeps_on_time_witness :
  resolveStatus Samples.atEight "09:30" = OnTime.
Proof.
  apply (later_cutoff_keeps_on_time Samples.atEight "08:00" "09:30" 8 0 9 30);
    [reflexivity | reflexivity | lia | reflexivity].
Defined.

(** A check-in at 07:30 UTC with a zone nobody knows, on a host in UTC. *)
Lemma unknown_zone_uses_host_zone_witness :
  getLocalTimeParts (capturedAt MoreSamples.onMars) (timezone MoreSamples.onMars)
  = {| hour := Num 7; minute := Num 30 |}
  /\ (resolveStatus MoreSamples.onMars "07:30" = OnTime
      <-> 7 < 7 \/ (7 = 7 /\ 30 <= 30)).
Proof.
  exact (unknown_zone_uses_host_zone
           MoreSamples.onMars 1709278200000 "07:30" 7 30 eq_refl
           (or_intror (ex_intro _ "Mars/Olympus" (conj eq_refl eq_refl)))
           eq_refl).
Defined.

End ClassificationMore.

(** ** The daily table: rows, filters, counters and selection *)

Module AdminTableFacts.

Import Js Types Format AdminView AdminTable FormatTerms FormatFacts.

Local Open Scope list_scope.

Lemma filter_split_length {A : Type} (p : A -> bool) (l : list A) :
  (length (filter p l) + length (filter (fun x => negb (p x)) l) = length l)%nat.
Proof.
  induction l as [|a l IH]; [reflexivity|]. cbn [filter].
  destruct (p a); cbn [negb length]; lia.
Qed.

Lemma filter_split_permutation {A : Type} (p q : A -> bool) (l : list A) :
  (forall x, In x l -> q x = negb (p x)) ->
  Permutation (filter p l ++ filter q l) l.
Proof.
  induction l as [|a l IH]; intros Hpq; [constructor|].
  cbn [filter]. rewrite (Hpq a (or_introl eq_refl)).
  assert (IH' : Permutation (filter p l ++ filter q l) l)
    by (apply IH; intros x Hx; apply Hpq; right; exact Hx).
  destruct (p a); cbn [negb].
  - cbn [app]. constructor. exact IH'.
  - apply Permutation_sym. apply Permutation_cons_app.
    apply Permutation_sym. exact IH'.
Qed.

Lemma Map_has_spec (items : list AttendanceRecord) (key : string) :
  Map_has (attendanceByUserId items) key = true <-> In key (map userId items).
Proof.
  unfold Map_has, attendanceByUserId. rewrite existsb_exists. split.
  - intros (entry & Hin & Heq). apply in_map_iff in Hin.
    destruct Hin as (item & <- & Hitem). cbn [fst] in Heq.
    apply String.eqb_eq in Heq. subst key. apply in_map. exact Hitem.
  - intros Hin. apply in_map_iff in Hin. destruct Hin as (item & <- & Hitem).
    exists (userId item, item). split; [|apply String.eqb_refl].
    apply in_map_iff. exists item. split; [reflexivity | exact Hitem].
Qed.

Lemma Map_has_existsb (items : list AttendanceRecord) (key : string) :
  Map_has (attendanceByUserId items) key
  = existsb (String.eqb key) (map userId items).
Proof.
  unfold Map_has, attendanceByUserId.
  induction items as [|item items IH]; [reflexivity|].
  cbn [map existsb fst]. rewrite IH, (String.eqb_sym (userId item) key).
  reflexivity.
Qed.

Lemma kept_members_distinct (keep : RosterUser -> bool) (roster : list RosterUser)
  (Hroster : NoDup (map user_id roster)) :
  NoDup (map user_id (filter keep roster)).
Proof.
  induction roster as [|user rest IH]; [constructor|].
  cbn [map] in Hroster. inversion Hroster as [|? ? Hnot Hrest]; subst.
  cbn [filter]. destruct (keep user); [|apply IH; exact Hrest].
  cbn [map]. constructor; [|apply IH; exact Hrest].
  intros Hin. apply Hnot. apply in_map_iff in Hin.
  destruct Hin as (x & Hfx & Hx). apply filter_In in Hx.
  apply in_map_iff. exists x. split; [exact Hfx | apply Hx].
Qed.

Section Rows.

Context `{Clock}.

Variable localeCompare : string -> string -> Z.

Lemma insertRow_permutation (row : AdminRow) (sorted : list AdminRow) :
  Permutation (insertRow localeCompare row sorted) (row :: sorted).
Proof.
  induction sorted as [|other rest IH]; cbn [insertRow]; [apply Permutation_refl|].
  destruct (localeCompare (row_name row) (row_name other) <? 0);
    [apply Permutation_refl|].
  apply perm_trans with (other :: row :: rest);
    [constructor; exact IH | apply perm_swap].
Qed.

Lemma sortRows_permutation (l : list AdminRow) :
  Permutation (sortRows localeCompare l) l.
Proof.
  unfold sortRows.
  assert (G : forall acc,
             Permutation
               (fold_left (fun sorted row => insertRow localeCompare row sorted) l acc)
               (acc ++ l)).
  { induction l as [|row l IH]; intros acc; cbn [fold_left].
    - rewrite app_nil_r. apply Permutation_refl.
    - apply perm_trans with (insertRow localeCompare row acc ++ l); [apply IH|].
      apply perm_trans with ((row :: acc) ++ l).
      + apply Permutation_app_tail. apply insertRow_permutation.
      + cbn [app]. apply Permutation_cons_app. apply Permutation_refl. }
  apply (G []).
Qed.

Lemma attendanceRows_status (items : list AttendanceRecord) (cutoffTime : string)
  (built : list AdminRow) (row : AdminRow) :
  attendanceRows items cutoffTime = Returned built ->
  In row built ->
  (row_status row = OnTime \/ row_status row = Late)
  /\ exists item, In item items /\ row_raw row = Some item.
Proof.
  unfold attendanceRows. rewrite mapThrowing_returned.
  induction 1 as [|item first items built Hfirst _ IH]; intros Hin;
    [contradiction|].
  destruct Hin as [<- | Hin].
  - destruct (attendanceRow_returned _ _ _ Hfirst) as (Hs & Hr & _). split.
    + rewrite Hs. unfold resolveStatus. destruct (lt _ _); [left; reflexivity|].
      destruct (_ && _); [left | right]; reflexivity.
    + exists item. split; [left; reflexivity | exact Hr].
  - destruct (IH Hin) as [Hs (other & Hother & Hr)]. split; [exact Hs|].
    exists other. split; [right; exact Hother | exact Hr].
Qed.

(** X11.  The filters sort the table out without losing or repeating a
    row.  The table is built for every filter or for none: one check-in
    that names a zone unknown to the host next to a timestamp that is a
    date leaves it unbuilt under each filter, the absent one included.
    When it is built, the on-time rows and the late rows together are
    exactly the check-ins of the day, one row per check-in; the absent rows
    are exactly the rows marked Missing, and they carry no record; the
    unfiltered table holds every check-in and every missing member exactly
    once, whatever the collation of the host.  The Present counter is the
    number of on-time rows plus the number of late rows, and the Late
    counter is the number of late rows. *)
Theorem filters_partition_table
  (items : list AttendanceRecord) (roster : list RosterUser) (cutoffTime : string) :
  let table f := rows localeCompare items roster f cutoffTime in
  (forall f, table f = RangeError
             <-> Exists (fun item => zoneUnknown item = true) items)
  /\ (forall built,
         attendanceRows items cutoffTime = Returned built ->
         exists onTime tardy absent all,
           table FilterOnTime = Returned onTime
           /\ table FilterLate = Returned tardy
           /\ table FilterAbsent = Returned absent
           /\ table FilterAll = Returned all
           /\ Permutation (onTime ++ tardy) built
           /\ map row_raw built = map Some items
           /\ Permutation all (onTime ++ tardy ++ absent)
           /\ (forall row, In row absent ->
                           row_status row = Missing /\ row_raw row = None)
           /\ (forall row, In row all ->
                           (row_status row = Missing <-> In row absent))
           /\ present (stats items built roster)
              = Z.of_nat (length onTime) + Z.of_nat (length tardy)
           /\ late (stats items built roster) = Z.of_nat (length tardy)).
Proof.
  cbv zeta. split.
  - intros f. rewrite <- (attendanceRows_throws items cutoffTime). unfold rows.
    destruct (attendanceRows items cutoffTime); split;
      (discriminate || reflexivity).
  - intros built Hbuilt. unfold rows. rewrite Hbuilt.
    assert (Hpart : Permutation
                      (filter (statusIs OnTime) built ++ filter (statusIs Late) built)
                      built).
    { apply filter_split_permutation. intros row Hrow.
      destruct (attendanceRows_status items cutoffTime built row Hbuilt Hrow)
        as [[E | E] _]; unfold statusIs; rewrite E; reflexivity. }
    assert (Habsent : forall row, In row (absentRows items roster) ->
                                  row_status row = Missing /\ row_raw row = None).
    { intros row Hrow. unfold absentRows in Hrow. apply in_map_iff in Hrow.
      destruct Hrow as (user & <- & _). split; reflexivity. }
    exists (filter (statusIs OnTime) built), (filter (statusIs Late) built),
           (absentRows items roster),
           (sortRows localeCompare (built ++ absentRows items roster)).
    repeat (split; [reflexivity|]).
    split; [exact Hpart|].
    split; [apply (attendanceRows_returned _ _ _ Hbuilt)|].
    split; [|split; [exact Habsent|split; [|split]]].
    + apply perm_trans with (built ++ absentRows items roster);
        [apply sortRows_permutation|].
      rewrite app_assoc. apply Permutation_app_tail. apply Permutation_sym.
      exact Hpart.
    + intros row Hrow.
      apply (Permutation_in row (sortRows_permutation _)) in Hrow.
      apply in_app_or in Hrow. split.
      * intros Hmiss. destruct Hrow as [Hrow | Hrow]; [|exact Hrow].
        destruct (attendanceRows_status items cutoffTime built row Hbuilt Hrow)
          as [[E | E] _]; congruence.
      * intros Hin. apply (Habsent row Hin).
    + cbn [present stats].
      rewrite <- Nat2Z.inj_add, <- length_app, (Permutation_length Hpart).
      rewrite <- (length_map row_raw built).
      rewrite (proj2 (attendanceRows_returned _ _ _ Hbuilt)), length_map.
      reflexivity.
    + reflexivity.
Qed.

End Rows.

(** X12.  A roster member is listed as Missing exactly when no check-in of
    the day carries the member's id.  With a roster free of repeated ids,
    the Missing counter never exceeds the number of Missing rows; the two
    agree when the check-ins belong to distinct roster members, and the
    counter can only run low otherwise (a check-in of a person outside the
    roster, or two check-ins of one person, each hide one missing
    member). *)
Theorem missing_counter_and_rows
  (items : list AttendanceRecord) (attendanceRows : list AdminRow)
  (roster : list RosterUser) :
  map row_id (absentRows items roster)
  = map (fun user => ("absent-" ++ user_id user)%string)
        (filter (fun user => negb (existsb (String.eqb (user_id user))
                                           (map userId items)))
                roster)
  /\ (NoDup (map user_id roster) ->
      missing (stats items attendanceRows roster)
      <= Z.of_nat (length (absentRows items roster)))
  /\ (NoDup (map user_id roster) ->
      NoDup (map userId items) ->
      incl (map userId items) (map user_id roster) ->
      missing (stats items attendanceRows roster)
      = Z.of_nat (length (absentRows items roster))).
Proof.
  set (here := fun user : RosterUser =>
                 Map_has (attendanceByUserId items) (user_id user)).
  assert (Hlen : length (absentRows items roster)
                 = length (filter (fun user => negb (here user)) roster))
    by (unfold absentRows; rewrite length_map; reflexivity).
  assert (Hsplit : (length (filter here roster)
                    + length (absentRows items roster) = length roster)%nat)
    by (rewrite Hlen; apply filter_split_length).
  assert (Hincl : incl (map user_id (filter here roster)) (map userId items)).
  { intros key Hkey. apply in_map_iff in Hkey. destruct Hkey as (user & <- & Huser).
    apply filter_In in Huser. apply Map_has_spec. apply Huser. }
  split; [|split].
  - unfold absentRows. rewrite map_map. cbn [row_id].
    f_equal. apply filter_ext. intros user. f_equal.
    apply Map_has_existsb.
  - intros Hroster. cbn [missing stats].
    assert (Hle : (length (filter here roster) <= length items)%nat).
    { rewrite <- (length_map user_id), <- (length_map userId items).
      apply NoDup_incl_length; [|exact Hincl].
      apply kept_members_distinct. exact Hroster. }
    lia.
  - intros Hroster Hitems Hin. cbn [missing stats].
    assert (Hle : (length (filter here roster) <= length items)%nat).
    { rewrite <- (length_map user_id), <- (length_map userId items).
      apply NoDup_incl_length; [|exact Hincl].
      apply kept_members_distinct. exact Hroster. }
    assert (Hge : (length items <= length (filter here roster))%nat).
    { rewrite <- (length_map user_id (filter here roster)), <- (length_map userId items).
      apply NoDup_incl_length; [exact Hitems|].
      intros key Hkey. pose proof (Hin key Hkey) as Hr.
      apply in_map_iff in Hr. destruct Hr as (user & <- & Huser).
      apply in_map. apply filter_In. split; [exact Huser|].
      apply Map_has_spec. exact Hkey. }
    lia.
Qed.

Lemma optionStringEq_eq (a b : option string) :
  optionStringEq a b = true <-> a = b.
Proof.
  destruct a as [x|], b as [y|]; cbn [optionStringEq]; split;
    try discriminate; try reflexivity.
  - intros E. apply String.eqb_eq in E. congruence.
  - intros E. injection E as ->. apply String.eqb_refl.
Qed.

(** The row the effect looks for: the first row with the id of the
    selection, or else the first row. *)
Lemma sync_next (first : AdminRow) (rest : list AdminRow) (id0 : string) :
  exists next,
    In next (first :: rest)
    /\ match find (fun row => String.eqb (row_id row) id0) (first :: rest) with
       | Some row => row
       | None => first
       end = next
    /\ forall id1,
         id1 = row_id next ->
         (id1 = id0 \/ find (fun row => String.eqb (row_id row) id0) (first :: rest)
                      = None) ->
         match find (fun row => String.eqb (row_id row) id1) (first :: rest) with
         | Some row => row
         | None => first
         end = next.
Proof.
  destruct (find (fun row => String.eqb (row_id row) id0) (first :: rest))
    as [row|] eqn:Hfind.
  - exists row. apply find_some in Hfind as Hrow. destruct Hrow as [Hin Hid].
    apply String.eqb_eq in Hid.
    split; [exact Hin|]. split; [reflexivity|].
    intros id1 -> [Heq | Hnone]; [|discriminate].
    rewrite Hid, Hfind. reflexivity.
  - exists first. split; [left; reflexivity|]. split; [reflexivity|].
    intros id1 -> _. cbn [find]. rewrite String.eqb_refl. reflexivity.
Qed.

(** X13.  The effect that keeps the selection in step with the table
    settles in one run: run again on its own result it changes nothing.
    Its result is empty exactly when the table is empty; otherwise the
    selection has the id, the flag comment, the photo and the time of a
    row of the table. *)
Theorem selection_settles (table : list AdminRow) (selected : option AdminRow) :
  (syncSelected table selected = None <-> table = [])
  /\ (forall chosen,
         syncSelected table selected = Some chosen ->
         exists row,
           In row table
           /\ row_id chosen = row_id row
           /\ row_flagComment chosen = row_flagComment row
           /\ row_photoUrl chosen = row_photoUrl row
           /\ row_time chosen = row_time row)
  /\ syncSelected table (syncSelected table selected)
     = syncSelected table selected.
Proof.
  destruct table as [|first rest].
  { split; [split; reflexivity|]. split; [discriminate | reflexivity]. }
  assert (Hstep : forall sel next,
             In next (first :: rest) ->
             match find (fun row => String.eqb (row_id row) (row_id sel))
                        (first :: rest) with
             | Some row => row
             | None => first
             end = next ->
             (syncSelected (first :: rest) (Some sel) = Some next
              \/ (syncSelected (first :: rest) (Some sel) = Some sel
                  /\ row_id sel = row_id next
                  /\ row_flagComment sel = row_flagComment next
                  /\ row_photoUrl sel = row_photoUrl next
                  /\ row_time sel = row_time next))).
  { intros sel next _ Hnext. unfold syncSelected. rewrite Hnext.
    destruct (String.eqb_spec (row_id sel) (row_id next)) as [Eid | Nid];
      cbn [negb orb]; [|left; reflexivity].
    destruct (optionStringEq (row_flagComment sel) (row_flagComment next)) eqn:Ef;
      cbn [negb orb]; [|left; reflexivity].
    destruct (optionStringEq (row_photoUrl sel) (row_photoUrl next)) eqn:Ep;
      cbn [negb orb]; [|left; reflexivity].
    destruct (String.eqb_spec (row_time sel) (row_time next)) as [Et | Nt];
      cbn [negb]; [|left; reflexivity].
    right. apply optionStringEq_eq in Ef. apply optionStringEq_eq in Ep.
    repeat split; assumption. }
  assert (Hfix : forall next,
             In next (first :: rest) ->
             match find (fun row => String.eqb (row_id row) (row_id next))
                        (first :: rest) with
             | Some row => row
             | None => first
             end = next ->
             syncSelected (first :: rest) (Some next) = Some next).
  { intros next Hin Hnext. destruct (Hstep next next Hin Hnext) as [E | [E _]];
      exact E. }
  split.
  { split; [|discriminate]. intros Hnone. exfalso.
    unfold syncSelected in Hnone.
    destruct selected as [sel|]; [|discriminate].
    destruct (_ || _) in Hnone; discriminate. }
  destruct selected as [sel|].
  - destruct (sync_next first rest (row_id sel)) as (next & Hin & Hnext & Hagain).
    destruct (Hstep sel next Hin Hnext) as [E | (E & Hid & Hf & Hp & Ht)].
    + split.
      * intros chosen Hc. rewrite E in Hc. injection Hc as <-.
        exists next. repeat split. exact Hin.
      * rewrite E. apply Hfix; [exact Hin|].
        apply Hagain; [reflexivity|].
        destruct (find (fun row => String.eqb (row_id row) (row_id sel))
                       (first :: rest)) as [row|] eqn:Hfind; [|right; reflexivity].
        left. apply find_some in Hfind. destruct Hfind as [_ Hrow].
        apply String.eqb_eq in Hrow. subst next. exact Hrow.
    + split.
      * intros chosen Hc. rewrite E in Hc. injection Hc as <-.
        exists next. repeat split; assumption.
      * rewrite E. exact E.
  - assert (E : syncSelected (first :: rest) None = Some first) by reflexivity.
    split.
    + intros chosen Hc. rewrite E in Hc. injection Hc as <-.
      exists first. repeat split. left. reflexivity.
    + rewrite E. apply Hfix; [left; reflexivity|].
      cbn [find]. rewrite String.eqb_refl. reflexivity.
Qed.

(** The table of a day with one check-in and a roster of three, and the
    counters beside it. *)
Lemma missing_counter_and_rows_witness :
  missing (stats [Samples.atEight] []
             [TableSamples.ada; TableSamples.bayo; TableSamples.chi])
  = Z.of_nat (length (absentRows [Samples.atEight]
                        [TableSamples.ada; TableSamples.bayo; TableSamples.chi])).
Proof.
  apply (proj2 (proj2 (missing_counter_and_rows
                         [Samples.atEight] []
                         [TableSamples.ada; TableSamples.bayo; TableSamples.chi]))).
  - repeat constructor; cbn; intuition discriminate.
  - repeat constructor; cbn; intuition discriminate.
  - intros key [<- | []]. left. reflexivity.
Defined.

(** A repeated roster id makes the Missing counter overshoot: the
    hypothesis on the roster is needed. *)
Example missing_counter_needs_distinct_roster :
  missing (stats [Samples.atEight] [] [TableSamples.ada; TableSamples.ada]) = 1
  /\ length (absentRows [Samples.atEight] [TableSamples.ada; TableSamples.ada])
     = 0%nat.
Proof. split; reflexivity. Qed.

End AdminTableFacts.

(** ** The admin handlers: cutoff, flags and export *)

Module AdminActionsFacts.

Import Js Types Effects Intl AdminView AdminActions JsFacts AdminViewFacts.

Local Open Scope list_scope.

Lemma cutoffValid_parse (draft : string) :
  cutoffValid draft = true <-> exists T, parseCutoffTime draft = Some T.
Proof.
  unfold cutoffValid, parseCutoffTime.
  destruct draft as [|h1 [|h2 [|sep [|m1 [|m2 [|? ?]]]]]];
    try (split; [discriminate | intros [T HT]; discriminate]).
  destruct (_ && isDigit m2).
  - split; [intros _; eexists; reflexivity | reflexivity].
  - split; [discriminate | intros [T HT]; discriminate].
Qed.

Lemma ascii_compare_value (a b : ascii) :
  Ascii.compare a b = Z.compare (digitValue a) (digitValue b).
Proof.
  unfold Ascii.compare, digitValue, nat_of_ascii.
  rewrite !N_nat_Z, <- N2Z.inj_compare.
  destruct (Z.compare_spec (Z.of_N (N_of_ascii a)) (Z.of_N (N_of_ascii b)));
    symmetry; [apply Z.compare_eq_iff | apply Z.compare_lt_iff
               | apply Z.compare_gt_iff]; lia.
Qed.

Lemma digitsValue_shift (s : string) (acc : Z) :
  digitsValue acc s = acc * 10 ^ Z.of_nat (String.length s) + digitsValue 0 s.
Proof.
  revert acc. induction s as [|c s IH]; intros acc.
  - cbn. lia.
  - cbn [digitsValue String.length]. rewrite (IH (10 * acc + digitValue c)).
    rewrite (IH (10 * 0 + digitValue c)).
    rewrite Nat2Z.inj_succ, Z.pow_succ_r by lia. lia.
Qed.

Lemma digitsValue_bound (s : string) :
  allDigits s = true -> 0 <= digitsValue 0 s < 10 ^ Z.of_nat (String.length s).
Proof.
  induction s as [|c s IH]; intros Hd; [cbn; lia|].
  cbn [allDigits] in Hd. apply andb_true_iff in Hd. destruct Hd as [Hc Hs].
  cbn [digitsValue String.length]. rewrite digitsValue_shift.
  pose proof (isDigit_value c Hc). specialize (IH Hs).
  rewrite Nat2Z.inj_succ, Z.pow_succ_r by lia. nia.
Qed.

(** On runs of digits of one length the order of the strings is the order
    of the numbers. *)
Lemma digits_compare (s t : string) :
  String.length s = String.length t ->
  allDigits s = true -> allDigits t = true ->
  String.compare s t = Z.compare (digitsValue 0 s) (digitsValue 0 t).
Proof.
  revert t. induction s as [|c s IH]; intros [|d t] Hlen Hs Ht;
    try discriminate; [reflexivity|].
  cbn [String.length] in Hlen. injection Hlen as Hlen.
  cbn [allDigits] in Hs, Ht.
  apply andb_true_iff in Hs. apply andb_true_iff in Ht.
  destruct Hs as [Hc Hs], Ht as [Hd Ht].
  cbn [String.compare digitsValue].
  rewrite (digitsValue_shift s), (digitsValue_shift t), <- Hlen.
  pose proof (digitsValue_bound s Hs) as Bs.
  pose proof (digitsValue_bound t Ht) as Bt. rewrite <- Hlen in Bt.
  pose proof (isDigit_value c Hc). pose proof (isDigit_value d Hd).
  rewrite ascii_compare_value, (IH t Hlen Hs Ht).
  set (p := 10 ^ Z.of_nat (String.length s)) in *.
  destruct (Z.compare_spec (digitValue c) (digitValue d)) as [E | L | G].
  - rewrite E.
    destruct (Z.compare_spec (digitsValue 0 s) (digitsValue 0 t));
      symmetry; [apply Z.compare_eq_iff | apply Z.compare_lt_iff
                 | apply Z.compare_gt_iff]; lia.
  - symmetry. apply Z.compare_lt_iff. nia.
  - symmetry. apply Z.compare_gt_iff. nia.
Qed.

Lemma date_compare (a b : string) :
  dateValid a = true -> dateValid b = true ->
  String.compare a b = Z.compare (dateNumber a) (dateNumber b).
Proof.
  unfold dateValid, dateNumber.
  destruct a as [|a1 [|a2 [|a3 [|a4 [|a5 [|a6 [|a7 [|a8 [|a9 [|a10 [|? ?]]]]]]]]]]];
    try discriminate.
  destruct b as [|b1 [|b2 [|b3 [|b4 [|b5 [|b6 [|b7 [|b8 [|b9 [|b10 [|? ?]]]]]]]]]]];
    try discriminate.
  rewrite !andb_true_iff.
  intros [[[[[[[[[A1 A2] A3] A4] A5] A6] A7] A8] A9] A10].
  intros [[[[[[[[[B1 B2] B3] B4] B5] B6] B7] B8] B9] B10].
  apply Ascii.eqb_eq in A5, A8, B5, B8. subst a5 a8 b5 b8.
  rewrite <- digits_compare;
    [|reflexivity
     |cbn [allDigits]; rewrite A1, A2, A3, A4, A6, A7, A9, A10; reflexivity
     |cbn [allDigits]; rewrite B1, B2, B3, B4, B6, B7, B9, B10; reflexivity].
  cbn [String.compare].
  change (Ascii.compare "-" "-") with Eq. cbv iota. reflexivity.
Qed.

Section Handlers.

Context {W : Type} `{AdminServer W}.

Variable token : option string.
Variable trim : string -> string.

(** X14.  The cutoff draft reaches the server only when it is a time the
    classifier reads as written: the validation of the draft accepts
    exactly the strings [parseCutoffTime] accepts.  Without a token or
    with any other draft nothing is sent, the cutoff in force stays, and
    the HH:mm message is shown.  When the request is sent it is the only
    one; if the server answers, the cutoff in force and the draft both
    become the stored value and the history is told to reload; if it
    refuses, the cutoff in force stays and the server's message is
    shown. *)
Theorem cutoff_sent_only_if_readable (s : State) (r : AdminRun W) :
  let s' := fst (handleSaveCutoff token s r) in
  let r' := snd (handleSaveCutoff token s r) in
  (cutoffValid (cutoffDraft s) = true
   <-> exists T, parseCutoffTime (cutoffDraft s) = Some T)
  /\ ((admin_log r' = admin_log r
       /\ cutoffTime s' = cutoffTime s
       /\ cutoffError s' = "Cutoff time must be HH:mm"
       /\ (UserView.truthy token = false
           \/ parseCutoffTime (cutoffDraft s) = None))
      \/ (exists tok ch cm,
             token = Some tok /\ tok <> EmptyString
             /\ 0 <= ch < 24 /\ 0 <= cm < 60
             /\ cutoffDraft s = (twoDigits ch ++ ":" ++ twoDigits cm)%string
             /\ admin_log r'
                = admin_log r
                  ++ [AdminApi PUT "/admin/settings" tok
                               (CutoffBody (cutoffDraft s))]
             /\ savingCutoff s' = false
             /\ match fst (api_putSettings tok (cutoffDraft s) (admin_world r)) with
                | Resolved stored =>
                    cutoffTime s' = stored /\ cutoffDraft s' = stored
                    /\ historyRefreshKey s' = historyRefreshKey s + 1
                    /\ cutoffError s' = EmptyString
                | Rejected err =>
                    cutoffTime s' = cutoffTime s
                    /\ cutoffDraft s' = cutoffDraft s
                    /\ historyRefreshKey s' = historyRefreshKey s
                    /\ cutoffError s'
                       = messageOr err "Unable to update cutoff time."
                end)).
Proof.
  cbv zeta. split; [apply cutoffValid_parse|].
  unfold handleSaveCutoff.
  destruct token as [tok|]; [|left; repeat split; left; reflexivity].
  unfold nonEmpty.
  destruct (String.eqb_spec tok EmptyString) as [E | N]; cbn [negb orb].
  { left. repeat split. left. cbn. subst tok. reflexivity. }
  destruct (cutoffValid (cutoffDraft s)) eqn:Hv; cbn [negb].
  - right. apply cutoffValid_parse in Hv. destruct Hv as [T HT].
    destruct (parseCutoffTime_sound _ _ HT) as (ch & cm & Rh & Rm & _ & Hrender).
    exists tok, ch, cm.
    destruct (api_putSettings tok (cutoffDraft s) (admin_world r))
      as [[stored | err] w']; cbn [fst snd admin_log]; repeat split;
      try assumption; try lia.
  - left. repeat split. right.
    destruct (parseCutoffTime (cutoffDraft s)) as [T|] eqn:HT; [|reflexivity].
    assert (Hyes : cutoffValid (cutoffDraft s) = true)
      by (apply cutoffValid_parse; exists T; exact HT).
    congruence.
Qed.

Lemma replaceById_ids (updated : AttendanceRecord) (prev : list AttendanceRecord) :
  map id (replaceById updated prev) = map id prev.
Proof.
  unfold replaceById. rewrite map_map. apply map_ext. intros item.
  destruct (String.eqb_spec (id item) (id updated)) as [E | N];
    [symmetry; exact E | reflexivity].
Qed.

Lemma replaceById_members (updated item : AttendanceRecord)
  (prev : list AttendanceRecord) :
  In item (replaceById updated prev) <->
  (In item prev /\ id item <> id updated)
  \/ (item = updated /\ exists old, In old prev /\ id old = id updated).
Proof.
  unfold replaceById. rewrite in_map_iff. split.
  - intros (old & Hold & Hin).
    destruct (String.eqb_spec (id old) (id updated)) as [E | N].
    + right. split; [symmetry; exact Hold | exists old; split; assumption].
    + left. subst item. split; assumption.
  - intros [[Hin Hne] | [-> (old & Hin & Hid)]].
    + exists item. split; [|exact Hin].
      destruct (String.eqb_spec (id item) (id updated)); [contradiction | reflexivity].
    + exists old. split; [|exact Hin].
      destruct (String.eqb_spec (id old) (id updated)); [reflexivity | contradiction].
Qed.

(** X15.  Flagging a check-in, or clearing its flag, never changes which
    records are listed nor their order: the ids of the list are the same
    before and after, whatever the server answers.  When the server
    answers with a record, the list the handler leaves is the old list
    with the server's record in place of every record with its id, and the
    records with other ids as they were; when the server refuses, the list
    is untouched.  A comment that is blank once trimmed sends nothing and
    leaves the list untouched; a request, when one is sent, goes to the
    flag address of the selected record. *)
Theorem flag_update_keeps_the_list (s : State) (r : AdminRun W) :
  let save := handleFlagSave token trim s r in
  let clear := handleFlagClear token s r in
  map id (items (fst save)) = map id (items s)
  /\ map id (items (fst clear)) = map id (items s)
  /\ (forall tok row raw,
         token = Some tok -> tok <> EmptyString ->
         selected s = Some row -> row_raw row = Some raw ->
         (trim (flagDraft s) <> EmptyString ->
          match api_putFlag tok (id raw) (trim (flagDraft s)) (admin_world r) with
          | (Resolved updated, _) =>
              items (fst save) = replaceById updated (items s)
              /\ forall item,
                   In item (items (fst save)) <->
                   (In item (items s) /\ id item <> id updated)
                   \/ (item = updated
                       /\ exists old, In old (items s) /\ id old = id updated)
          | (Rejected _, _) => items (fst save) = items s
          end)
         /\ match api_putFlag tok (id raw) "" (admin_world r) with
            | (Resolved updated, _) =>
                items (fst clear) = replaceById updated (items s)
                /\ forall item,
                     In item (items (fst clear)) <->
                     (In item (items s) /\ id item <> id updated)
                     \/ (item = updated
                         /\ exists old, In old (items s) /\ id old = id updated)
            | (Rejected _, _) => items (fst clear) = items s
            end)
  /\ (trim (flagDraft s) = EmptyString ->
      admin_log (snd save) = admin_log r /\ items (fst save) = items s)
  /\ (forall q,
         In q (admin_log (snd save)) \/ In q (admin_log (snd clear)) ->
         In q (admin_log r)
         \/ exists tok row raw comment,
              token = Some tok /\ selected s = Some row /\ row_raw row = Some raw
              /\ q = AdminApi PUT
                       ("/admin/attendance/" ++ id raw ++ "/flag")%string
                       tok (CommentBody comment)).
Proof.
  cbv zeta.
  assert (Htarget : forall tok raw,
             flagTarget token s = Some (tok, raw) ->
             exists row, token = Some tok /\ selected s = Some row
                         /\ row_raw row = Some raw).
  { unfold flagTarget. intros tok raw.
    destruct token as [tok0|]; [|discriminate].
    destruct (selected s) as [row|]; [|discriminate].
    destruct (nonEmpty tok0); [|discriminate].
    destruct (row_raw row) as [raw0|] eqn:Hraw; [|discriminate].
    intros E. injection E as -> ->. exists row. repeat split. exact Hraw. }
  assert (Hnon : forall v, v <> EmptyString -> nonEmpty v = true).
  { intros v Hv. unfold nonEmpty.
    destruct (String.eqb_spec v EmptyString); [contradiction | reflexivity]. }
  split; [|split; [|split; [|split]]].
  - unfold handleFlagSave. destruct (flagTarget token s) as [[tok raw]|];
      [|reflexivity].
    destruct (negb (nonEmpty (trim (flagDraft s)))); [reflexivity|].
    destruct (api_putFlag tok (id raw) (trim (flagDraft s)) (admin_world r))
      as [[updated | err] w']; cbn [fst items]; [apply replaceById_ids | reflexivity].
  - unfold handleFlagClear. destruct (flagTarget token s) as [[tok raw]|];
      [|reflexivity].
    destruct (api_putFlag tok (id raw) "" (admin_world r))
      as [[updated | err] w']; cbn [fst items]; [apply replaceById_ids | reflexivity].
  - intros tok row raw Htok Hne Hsel Hraw.
    assert (Ht : flagTarget token s = Some (tok, raw)).
    { unfold flagTarget. rewrite Htok, Hsel, (Hnon tok Hne), Hraw. reflexivity. }
    split.
    + intros Hdraft. unfold handleFlagSave. rewrite Ht.
      rewrite (Hnon _ Hdraft). cbn [negb].
      destruct (api_putFlag tok (id raw) (trim (flagDraft s)) (admin_world r))
        as [[updated | err] w']; cbn [fst items]; [|reflexivity].
      split; [reflexivity|]. intros item. apply replaceById_members.
    + unfold handleFlagClear. rewrite Ht.
      destruct (api_putFlag tok (id raw) "" (admin_world r))
        as [[updated | err] w']; cbn [fst items]; [|reflexivity].
      split; [reflexivity|]. intros item. apply replaceById_members.
  - intros Hblank. unfold handleFlagSave.
    destruct (flagTarget token s) as [[tok raw]|]; [|split; reflexivity].
    rewrite Hblank. cbn. split; reflexivity.
  - intros q [Hq | Hq].
    + unfold handleFlagSave in Hq.
      destruct (flagTarget token s) as [[tok raw]|] eqn:Ht; [|left; exact Hq].
      destruct (negb (nonEmpty (trim (flagDraft s)))); [left; exact Hq|].
      destruct (Htarget tok raw eq_refl) as (row & Htok & Hsel & Hraw).
      destruct (api_putFlag tok (id raw) (trim (flagDraft s)) (admin_world r))
        as [[updated | err] w']; cbn [snd admin_log] in Hq;
        apply in_app_or in Hq; destruct Hq as [Hq | [<- | []]];
        try (left; exact Hq);
        right; exists tok, row, raw, (trim (flagDraft s)); repeat split; assumption.
    + unfold handleFlagClear in Hq.
      destruct (flagTarget token s) as [[tok raw]|] eqn:Ht; [|left; exact Hq].
      destruct (Htarget tok raw eq_refl) as (row & Htok & Hsel & Hraw).
      destruct (api_putFlag tok (id raw) "" (admin_world r))
        as [[updated | err] w']; cbn [snd admin_log] in Hq;
        apply in_app_or in Hq; destruct Hq as [Hq | [<- | []]];
        try (left; exact Hq);
        right; exists tok, row, raw, EmptyString; repeat split; assumption.
Qed.

(** X16.  An export is requested only for a period written as two dates
    of the form yyyy-mm-dd with the start not after the end, and on such
    dates the comparison of the two strings is the comparison of the
    dates.  When nothing is wrong, exactly one download is requested, for
    the address and the file name built from the two dates; with no token
    nothing happens; with a malformed date or a start after the end
    nothing is requested and the matching message is shown.  The busy flag
    is cleared on every path that set it. *)
Theorem export_only_for_ordered_dates (s : State) (r : AdminRun W) :
  let s' := fst (handleExportAll token s r) in
  let r' := snd (handleExportAll token s r) in
  (forall a b,
      dateValid a = true -> dateValid b = true ->
      stringGt a b = (dateNumber b <? dateNumber a))
  /\ (UserView.truthy token = false -> handleExportAll token s r = (s, r))
  /\ (forall tok,
         token = Some tok -> tok <> EmptyString ->
         exporting s' = false
         /\ if dateValid (exportStart s) && dateValid (exportEnd s)
            then
              if dateNumber (exportStart s) <=? dateNumber (exportEnd s)
              then
                admin_log r'
                = admin_log r
                  ++ [DownloadFile
                        ("/admin/export?start=" ++ exportStart s
                         ++ "&end=" ++ exportEnd s)%string
                        tok
                        ("attendance-" ++ exportStart s ++ "-to-"
                         ++ exportEnd s ++ ".xlsx")%string]
              else
                r' = r
                /\ exportError s' = "Start date must be on or before end date."
            else
              r' = r /\ exportError s' = "Choose a valid start and end date.").
Proof.
  cbv zeta.
  assert (Hgt : forall a b,
             dateValid a = true -> dateValid b = true ->
             stringGt a b = (dateNumber b <? dateNumber a)).
  { intros a b Ha Hb. unfold stringGt. rewrite (date_compare a b Ha Hb).
    destruct (Z.compare_spec (dateNumber a) (dateNumber b));
      symmetry; [apply Z.ltb_ge | apply Z.ltb_ge | apply Z.ltb_lt]; lia. }
  split; [exact Hgt|]. split.
  - intros Ht. unfold handleExportAll. destruct token as [tok|]; [|reflexivity].
    cbn [UserView.truthy] in Ht. unfold nonEmpty. rewrite Ht. reflexivity.
  - intros tok -> Ht. unfold handleExportAll, nonEmpty.
    destruct (String.eqb_spec tok EmptyString); [contradiction|]. cbn [negb].
    destruct (dateValid (exportStart s)) eqn:Hs; cbn [negb orb andb];
      [|split; [reflexivity | split; reflexivity]].
    destruct (dateValid (exportEnd s)) eqn:He; cbn [negb];
      [|split; [reflexivity | split; reflexivity]].
    rewrite (Hgt _ _ Hs He), Z.leb_antisym.
    destruct (dateNumber (exportEnd s) <? dateNumber (exportStart s));
      cbn [negb]; [split; [reflexivity | split; reflexivity]|].
    destruct (host_downloadFile _ tok _ (admin_world r)) as [[u | err] w'];
      cbn [fst snd admin_log]; split; reflexivity.
Qed.

End Handlers.

End AdminActionsFacts.

(** ** The name of a download and the address of a request *)

Module DownloadFacts.

Import Js Download.

Lemma quotedName_sound (s name : string) :
  quotedName s = Some name ->
  name <> EmptyString /\ quoteFree name = true
  /\ exists post, s = name ++ String quote post.
Proof.
  revert name. induction s as [|c rest IH]; intros name; [discriminate|].
  cbn [quotedName]. destruct (Ascii.eqb c quote) eqn:Ec; [discriminate|].
  destruct rest as [|c' rest']; [discriminate|].
  destruct (Ascii.eqb c' quote) eqn:Ec'.
  - intros E. injection E as <-. split; [discriminate|].
    split; [cbn [quoteFree]; rewrite Ec; reflexivity|].
    apply Ascii.eqb_eq in Ec'. subst c'. exists rest'. reflexivity.
  - destruct (quotedName (String c' rest')) as [inner|] eqn:Hinner; [|discriminate].
    intros E. injection E as <-.
    destruct (IH inner eq_refl) as (_ & Hfree & post & Hpost).
    split; [discriminate|].
    split; [cbn [quoteFree]; rewrite Ec, Hfree; reflexivity|].
    exists post. cbn [append]. rewrite Hpost. reflexivity.
Qed.

Lemma quotedName_complete (name post : string) :
  name <> EmptyString -> quoteFree name = true ->
  quotedName (name ++ String quote post) = Some name.
Proof.
  induction name as [|c name IH]; intros Hne Hfree; [contradiction Hne; reflexivity|].
  cbn [quoteFree] in Hfree. apply andb_true_iff in Hfree.
  destruct Hfree as [Hc Hfree]. apply negb_true_iff in Hc.
  cbn [append quotedName]. rewrite Hc.
  destruct name as [|c' name'].
  - cbn [append]. rewrite Ascii.eqb_refl. reflexivity.
  - cbn [append]. cbn [quoteFree] in Hfree.
    apply andb_true_iff in Hfree as Hfree'. destruct Hfree' as [Hc' _].
    apply negb_true_iff in Hc'. rewrite Hc'.
    change (String c' (name' ++ String quote post))
      with (String c' name' ++ String quote post).
    rewrite IH; [reflexivity | discriminate | exact Hfree].
Qed.

Lemma afterLiteral_sound (pat s rest : string) :
  afterLiteral pat s = Some rest ->
  exists word, s = word ++ rest /\ foldString word = foldString pat.
Proof.
  revert s. induction pat as [|p pat IH]; intros s.
  - intros E. injection E as <-. exists EmptyString. split; reflexivity.
  - cbn [afterLiteral]. destruct s as [|c s']; [discriminate|].
    destruct (sameLetter p c) eqn:Hsame; [|discriminate].
    intros E. destruct (IH s' E) as (word & -> & Hfold).
    exists (String c word). split; [reflexivity|].
    cbn [foldString]. rewrite Hfold. apply Ascii.eqb_eq in Hsame.
    rewrite Hsame. reflexivity.
Qed.

Lemma afterLiteral_complete (pat word rest : string) :
  foldString word = foldString pat ->
  afterLiteral pat (word ++ rest) = Some rest.
Proof.
  revert word. induction pat as [|p pat IH]; intros [|c word] Hfold;
    try discriminate; [reflexivity|].
  cbn [foldString] in Hfold. injection Hfold as Hc Hfold.
  cbn [append afterLiteral]. unfold sameLetter. rewrite Hc, Ascii.eqb_refl.
  apply IH. exact Hfold.
Qed.

Lemma foldString_append (a b : string) :
  foldString (a ++ b) = foldString a ++ foldString b.
Proof.
  induction a as [|c a IH]; [reflexivity|].
  cbn [append foldString]. rewrite IH. reflexivity.
Qed.

Lemma firstMatch_sound (s name : string) :
  firstMatch s = Some name ->
  exists pre rest, s = pre ++ rest /\ matchHere rest = Some name.
Proof.
  induction s as [|c s IH].
  - cbn [firstMatch]. destruct (matchHere EmptyString) as [n|] eqn:Hm;
      [|discriminate].
    intros E. injection E as <-. exists EmptyString, EmptyString.
    split; [reflexivity | exact Hm].
  - cbn [firstMatch]. destruct (matchHere (String c s)) as [n|] eqn:Hm.
    + intros E. injection E as <-. exists EmptyString, (String c s).
      split; [reflexivity | exact Hm].
    + intros E. destruct (IH E) as (pre & rest & -> & Hrest).
      exists (String c pre), rest. split; [reflexivity | exact Hrest].
Qed.

Lemma firstMatch_skips (pre s : string) :
  freeOf "f" pre = true -> firstMatch (pre ++ s) = firstMatch s.
Proof.
  induction pre as [|c pre IH]; intros Hfree; [reflexivity|].
  cbn [freeOf] in Hfree. apply andb_true_iff in Hfree.
  destruct Hfree as [Hc Hfree]. apply negb_true_iff in Hc.
  cbn [append firstMatch].
  assert (Hno : matchHere (String c (pre ++ s)) = None).
  { unfold matchHere. cbn [append afterLiteral]. rewrite Hc. reflexivity. }
  rewrite Hno. apply IH. exact Hfree.
Qed.

(** X17.  The name a download is saved under.  A name taken from the
    header is never empty, holds no quote, and stands in the header
    between two quotes right after the word filename (in any case) and an
    equals sign.  Conversely a header with such a part, and no letter f
    before it, yields exactly the name between the quotes.  With no header
    or an empty one the fallback name is used, so the name is never empty
    when the fallback is not. *)
Theorem file_name_from_header :
  (forall header name,
      getFileName header = Some name ->
      name <> EmptyString /\ quoteFree name = true
      /\ exists pre word post,
           header = Some (pre ++ word ++ String quote (name ++ String quote post))
           /\ foldString word = "filename=")
  /\ (forall pre word name post,
         freeOf "f" pre = true -> foldString word = "filename=" ->
         name <> EmptyString -> quoteFree name = true ->
         getFileName
           (Some (pre ++ word ++ String quote (name ++ String quote post)))
         = Some name)
  /\ (forall fallback,
         fileName None fallback = fallback
         /\ fileName (Some EmptyString) fallback = fallback)
  /\ (forall header fallback,
         fallback <> EmptyString -> fileName header fallback <> EmptyString).
Proof.
  assert (Hsound : forall header name,
             getFileName header = Some name ->
             name <> EmptyString /\ quoteFree name = true
             /\ exists pre word post,
                  header
                  = Some (pre ++ word ++ String quote (name ++ String quote post))
                  /\ foldString word = "filename=").
  { intros header name Hget. unfold getFileName in Hget.
    destruct header as [h|]; [|discriminate].
    assert (Hfirst : firstMatch h = Some name)
      by (destruct h; [discriminate | exact Hget]).
    destruct (firstMatch_sound h name Hfirst) as (pre & rest & -> & Hhere).
    unfold matchHere in Hhere.
    destruct (afterLiteral ("filename=" ++ String quote EmptyString) rest)
      as [tail|] eqn:Hlit; [|discriminate].
    destruct (quotedName_sound tail name Hhere) as (Hne & Hfree & post & ->).
    destruct (afterLiteral_sound _ _ _ Hlit) as (word & -> & Hfold).
    split; [exact Hne|]. split; [exact Hfree|].
    destruct word as [|w1 [|w2 [|w3 [|w4 [|w5 [|w6 [|w7 [|w8 [|w9 [|w10 [|? ?]]]]]]]]]]];
      try discriminate.
    cbn [foldString append] in Hfold. injection Hfold as F1 F2 F3 F4 F5 F6 F7 F8 F9 F10.
    assert (Hq : w10 = quote).
    { change (foldCase quote) with quote in F10.
      unfold foldCase in F10. destruct (inRange "A" "Z" w10) eqn:Hr.
      - apply JsFacts.inRange_bounds in Hr.
        change (nat_of_ascii "A") with 65%nat in Hr.
        change (nat_of_ascii "Z") with 90%nat in Hr.
        apply (f_equal nat_of_ascii) in F10.
        rewrite nat_ascii_embedding in F10 by lia.
        change (nat_of_ascii quote) with 34%nat in F10. lia.
      - exact F10. }
    subst w10.
    exists pre, (String w1 (String w2 (String w3 (String w4 (String w5
             (String w6 (String w7 (String w8 (String w9 EmptyString))))))))),
           post.
    split; [reflexivity|].
    cbn [foldString]. rewrite F1, F2, F3, F4, F5, F6, F7, F8, F9. reflexivity. }
  split; [exact Hsound|]. split; [|split].
  - intros pre word name post Hpre Hword Hne Hfree.
    assert (Hhere : matchHere (word ++ String quote (name ++ String quote post))
                    = Some name).
    { unfold matchHere.
      assert (Hlit : afterLiteral ("filename=" ++ String quote EmptyString)
                       ((word ++ String quote EmptyString)
                        ++ (name ++ String quote post))
                     = Some (name ++ String quote post)).
      { apply afterLiteral_complete.
        rewrite foldString_append, Hword. reflexivity. }
      replace (word ++ String quote (name ++ String quote post))
        with ((word ++ String quote EmptyString) ++ (name ++ String quote post)).
      - rewrite Hlit. apply quotedName_complete; assumption.
      - clear. induction word as [|c word IH]; [reflexivity|].
        cbn [append]. f_equal. exact IH. }
    unfold getFileName.
    assert (Hfirst : firstMatch
                       (pre ++ word ++ String quote (name ++ String quote post))
                     = Some name).
    { rewrite firstMatch_skips by exact Hpre.
      destruct (word ++ String quote (name ++ String quote post)) eqn:Hw;
        cbn [firstMatch]; rewrite Hhere; reflexivity. }
    destruct (pre ++ word ++ String quote (name ++ String quote post)) eqn:Hh;
      [|exact Hfirst].
    cbn [firstMatch] in Hfirst. unfold matchHere in Hfirst. discriminate.
  - intros fallback. split; reflexivity.
  - intros header fallback Hfb. unfold fileName.
    destruct (getFileName header) as [name|] eqn:Hget; [|exact Hfb].
    apply (Hsound header name Hget).
Qed.

(** A header as a server writes it. *)
Lemma file_name_from_header_witness :
  getFileName
    (Some ("attachment; "
           ++ "Filename=" ++ String quote ("attendance-2024-03.xlsx" ++ String quote "")))
  = Some "attendance-2024-03.xlsx".
Proof.
  apply (proj1 (proj2 file_name_from_header)
               "attachment; " "Filename=" "attendance-2024-03.xlsx" "");
    [reflexivity | reflexivity | discriminate | reflexivity].
Defined.

End DownloadFacts.

Module ApiBaseFacts.

Import ApiBase.

Lemma stripTrailingSlash_added (raw : string) :
  stripTrailingSlash (raw ++ "/") = raw.
Proof.
  induction raw as [|c raw IH]; [reflexivity|].
  cbn [append stripTrailingSlash].
  destruct (raw ++ "/") as [|c' rest] eqn:E.
  - destruct raw; discriminate.
  - rewrite IH. reflexivity.
Qed.

Lemma stripTrailingSlash_none (raw : string) :
  endsWithSlash raw = false -> stripTrailingSlash raw = raw.
Proof.
  induction raw as [|c raw IH]; intros Hno; [reflexivity|].
  cbn [stripTrailingSlash endsWithSlash] in *. destruct raw as [|c' rest].
  - rewrite Hno. reflexivity.
  - rewrite IH; [reflexivity | exact Hno].
Qed.

Lemma length_added (raw : string) : (0 <? String.length (raw ++ "/"))%nat = true.
Proof. destruct raw; reflexivity. Qed.

(** X18.  The address of a request does not depend on how the slashes are
    written: for a configured base and a path, neither of them empty, the
    address is the base, one slash and the path, whether or not the base
    was configured with a slash at its end and whether or not the path is
    written with a slash in front.  Without a configured base (none, or
    the empty string) the base is /api. *)
Theorem slashes_are_optional (raw path : string) :
  raw <> EmptyString -> endsWithSlash raw = false ->
  path <> EmptyString -> startsWithSlash path = false ->
  withApiBase (Some raw) path = raw ++ "/" ++ path
  /\ withApiBase (Some raw) ("/" ++ path) = raw ++ "/" ++ path
  /\ withApiBase (Some (raw ++ "/")) path = raw ++ "/" ++ path
  /\ withApiBase (Some (raw ++ "/")) ("/" ++ path) = raw ++ "/" ++ path
  /\ withApiBase None path = "/api/" ++ path
  /\ withApiBase (Some EmptyString) ("/" ++ path) = "/api/" ++ path.
Proof.
  intros Hraw Hend Hpath Hfront.
  assert (Hbase : API_BASE (Some raw) = raw).
  { unfold API_BASE. destruct raw as [|c raw']; [contradiction Hraw; reflexivity|].
    cbn [String.length Nat.ltb Nat.leb]. apply stripTrailingSlash_none. exact Hend. }
  assert (Hbase' : API_BASE (Some (raw ++ "/")) = raw).
  { unfold API_BASE. rewrite length_added. apply stripTrailingSlash_added. }
  assert (Hplain : forall base,
             match path with
             | EmptyString => base
             | String c _ => if Ascii.eqb c "/" then base ++ path
                             else base ++ "/" ++ path
             end = base ++ "/" ++ path).
  { intros base. destruct path as [|c rest]; [contradiction Hpath; reflexivity|].
    cbn [startsWithSlash] in Hfront. rewrite Hfront. reflexivity. }
  unfold withApiBase. rewrite Hbase, Hbase'.
  repeat split; try apply Hplain; reflexivity.
Qed.

(** A base configured with a trailing slash and a path without a leading
    one. *)
Lemma slashes_are_optional_witness :
  withApiBase (Some "https://api.example/v1/") "attendance/today"
  = "https://api.example/v1/attendance/today".
Proof.
  apply (proj1 (proj2 (proj2 (slashes_are_optional
                                "https://api.example/v1" "attendance/today"
                                ltac:(discriminate) eq_refl
                                ltac:(discriminate) eq_refl)))).
Defined.

End ApiBaseFacts.

(** ** The further properties on the scripted worlds *)

Module MoreExamples.

Import Js Types Effects Location LocationTerms LocationMore.
Import UserView UserViewTerms UserViewMore Scripted SaveSamples.

(** On a page served over plain HTTP the device is never asked. *)
Lemma device_reached_only_when_allowed_witness :
  @getDeviceLocation Script InsecurePage.browser
    (script [Resolved lagosFix] [] [] [])
  = (Rejected (newError "Location requires HTTPS. Please use a secure connection."),
     script [Resolved lagosFix] [] [] []).
Proof.
  apply (proj1 (proj2 (@device_reached_only_when_allowed Script InsecurePage.browser
                         (script [Resolved lagosFix] [] [] []))));
    [reflexivity | reflexivity | discriminate].
Defined.

(** Opening the camera from the ready state drops the snapshot. *)
Lemma camera_and_snapshot_exclusive_witness :
  snapshot (fst (@onClick Script browser (Some "token-1") PrimaryButton ready
                   (script [] [] [] [])))
  = None.
Proof.
  apply (@camera_and_snapshot_exclusive Script browser (Some "token-1")
           PrimaryButton ready (script [] [] [] []));
    [intros Hopen; discriminate Hopen | reflexivity].
Defined.

(** A save whose upload is refused leaves the view idle. *)
Lemma handlers_leave_view_idle_witness :
  uploading (fst (@onClick Script browser (Some "token-1") UploadSaveButton ready
                    (script [] [Rejected (newError "Storage is full")] [] [])))
  = false.
Proof.
  apply (@handlers_leave_view_idle Script browser (Some "token-1")
           UploadSaveButton ready
           (script [] [Rejected (newError "Storage is full")] [] [])).
  split; reflexivity.
Defined.


(** The upload is refused after the device gave a fix: the fix is not
    kept. *)
Lemma failed_save_discards_position_witness :
  location (fst (@handleUploadAndSave Script browser (Some "token-1") readyUnlocated
                   (script [Resolved lagosFix]
                           [Rejected (newError "Storage is full")] [] [])))
  = None.
Proof.
  exact (proj1 (@failed_save_discards_position Script browser "token-1" photo
                  readyUnlocated
                  (script [Resolved lagosFix]
                          [Rejected (newError "Storage is full")] [] [])
                  eq_refl UserViewExamples.photo_nonempty
                  UserViewExamples.token_nonempty)).
Defined.

End MoreExamples.

(** ** The admin properties on the example server *)

Module AdminExamples.

Import Js Types Effects Format AdminView AdminTable AdminActions.
Import FormatFacts AdminTableFacts AdminActionsFacts AdminScripted.

Local Open Scope list_scope.

(** The draft 08:30 is a time the classifier reads. *)
Lemma cutoff_sent_only_if_readable_witness :
  exists T, parseCutoffTime (cutoffDraft reviewing) = Some T.
Proof.
  apply (proj1 (proj1 (@cutoff_sent_only_if_readable
                         (option AttendanceRecord) server (Some "token-9")
                         reviewing (start None)))).
  reflexivity.
Defined.

(** Flagging the second check-in: the list keeps its two ids in order, and
    the list left is the old one with the server's record in the place of
    the second. *)
Lemma flag_update_keeps_the_list_witness :
  map id (items (fst (handleFlagSave (Some "token-9") (fun v => v) reviewing
                        (start (Some MoreSamples.secondFlagged)))))
  = ["att-1"; "att-7"]
  /\ items (fst (handleFlagSave (Some "token-9") (fun v => v) reviewing
                   (start (Some MoreSamples.secondFlagged))))
     = replaceById MoreSamples.secondFlagged (items reviewing).
Proof.
  split.
  - rewrite (proj1 (@flag_update_keeps_the_list
                      (option AttendanceRecord) server (Some "token-9")
                      (fun v => v) reviewing
                      (start (Some MoreSamples.secondFlagged)))).
    reflexivity.
  - pose proof (proj1 (proj2 (proj2 (@flag_update_keeps_the_list
                                       (option AttendanceRecord) server
                                       (Some "token-9") (fun v => v) reviewing
                                       (start (Some MoreSamples.secondFlagged)))))
                      "token-9" _ MoreSamples.secondCheckIn
                      eq_refl ltac:(discriminate) eq_refl eq_refl) as [Hsave _].
    exact (proj1 (Hsave ltac:(discriminate))).
Defined.

Example flag_save_replaces_record :
  items (fst (handleFlagSave (Some "token-9") (fun v => v) reviewing
                (start (Some MoreSamples.secondFlagged))))
  = [Samples.atEight; MoreSamples.secondFlagged].
Proof. reflexivity. Qed.

(** February before March, and the request the handler makes for that
    period. *)
Lemma export_only_for_ordered_dates_witness :
  stringGt "2024-02-01" "2024-03-01" = false
  /\ admin_log (snd (handleExportAll (Some "token-9") reviewing (start None)))
     = [DownloadFile "/admin/export?start=2024-02-01&end=2024-03-01" "token-9"
                     "attendance-2024-02-01-to-2024-03-01.xlsx"].
Proof.
  split.
  - rewrite (proj1 (@export_only_for_ordered_dates
                      (option AttendanceRecord) server (Some "token-9")
                      reviewing (start None))
                   "2024-02-01" "2024-03-01" eq_refl eq_refl).
    reflexivity.
  - exact (proj2 (proj2 (proj2 (@export_only_for_ordered_dates
                                  (option AttendanceRecord) server (Some "token-9")
                                  reviewing (start None)))
                        "token-9" eq_refl ltac:(discriminate))).
Defined.

(** The table of a day with one check-in and a roster of three is built
    under every filter, and its unfiltered rows are the rows of the three
    filters. *)
Lemma filters_partition_table_witness :
  exists onTime tardy absent all,
    @rows ReferenceHost.clock TableSamples.byCodeUnits [Samples.atEight]
          [TableSamples.chi; TableSamples.ada; TableSamples.bayo]
          FilterAll "08:00" = Returned all
    /\ @rows ReferenceHost.clock TableSamples.byCodeUnits [Samples.atEight]
             [TableSamples.chi; TableSamples.ada; TableSamples.bayo]
             FilterAbsent "08:00" = Returned absent
    /\ Permutation all (onTime ++ tardy ++ absent)
    /\ length absent = 2%nat.
Proof.
  destruct (proj2 (@attendanceRows_built ReferenceHost.clock [Samples.atEight]
                     "08:00")) as [built Hbuilt]; [repeat constructor|].
  destruct (proj2 (@filters_partition_table ReferenceHost.clock
                     TableSamples.byCodeUnits [Samples.atEight]
                     [TableSamples.chi; TableSamples.ada; TableSamples.bayo]
                     "08:00") built Hbuilt)
    as (onTime & tardy & absent & all & _ & _ & Habsent & Hall & _ & _ & Hperm & _).
  exists onTime, tardy, absent, all.
  split; [exact Hall|]. split; [exact Habsent|]. split; [exact Hperm|].
  vm_compute in Habsent. injection Habsent as <-. reflexivity.
Defined.

(** The unfiltered table of a day with one check-in and a roster of three,
    in the order of the names; and the same day with a second check-in
    whose zone the host does not know. *)
Example full_table_sample :
  (exists all,
      @rows ReferenceHost.clock TableSamples.byCodeUnits [Samples.atEight]
            [TableSamples.chi; TableSamples.ada; TableSamples.bayo]
            FilterAll "08:00" = Returned all
      /\ map row_name all = ["Ada Obi"; "Bayo Ade"; "Chi Eze"]
      /\ map row_status all = [OnTime; Missing; Missing])
  /\ @rows ReferenceHost.clock TableSamples.byCodeUnits
           [Samples.atEight; MoreSamples.onMars]
           [TableSamples.chi; TableSamples.ada; TableSamples.bayo]
           FilterAbsent "08:00" = RangeError.
Proof.
  split; [|vm_compute; reflexivity].
  eexists. split; [vm_compute; reflexivity | split; reflexivity].
Qed.

End AdminExamples.
